(** * OpenSSL-WASM-JS: the typed binding layer over the WebAssembly module

    A shallow embedding of [src/index.ts] (class [OpenSSL]) and of the C
    wrapper it is linked against.  JavaScript numbers that are pointers or
    lengths are integers ([Z]); a [Uint8Array] is a list of bytes; a string is
    a sequence of code units, here the 8-bit [ascii] (the Latin-1 range). *)

From Stdlib Require Import ZArith NArith PeanoNat Lia List Bool String Ascii.
From Stdlib Require Import HexadecimalString DecimalString.
From Stdlib.Strings Require Import Byte.
Import ListNotations.

Local Open Scope string_scope.
Local Open Scope list_scope.

(** ** JavaScript values used by the class *)

Definition Uint8Array := list byte.

(** What a [throw] carries.  [RangeError] is raised by the typed-array
    constructors and by [TypedArray.prototype.set], [TypeError] by a call of
    something that is not a function; [Thrown] stands for anything that
    escapes from a call into the module (a trap). *)
Inductive exn : Type :=
| Error (message : string)
| RangeError
| TypeError
| Thrown (what : string).

(** The outcome of evaluating a method body. *)
Inductive completion (A : Type) : Type :=
| Return (a : A)
| Throw (e : exn).
Arguments Return {A} a.
Arguments Throw {A} e.

Definition is_throw {A} (c : completion A) : bool :=
  match c with Throw _ => true | Return _ => false end.

(** [Uint8Array | string], the argument type of the digests and of
    [base64Encode]. *)
Inductive Data : Type :=
| Bytes (b : Uint8Array)
| Text (s : string).

Definition byte_of_Z (z : Z) : byte :=
  match Byte.of_N (Z.to_N (z mod 256)%Z) with
  | Some b => b
  | None => x00
  end.

Definition Z_of_byte (b : byte) : Z := Z.of_N (Byte.to_N b).

(** Storing a number into a [Uint8Array] slot: [NaN] becomes 0, an integer
    is reduced modulo 256. *)
Definition ToUint8 (v : option Z) : byte :=
  match v with
  | None => x00
  | Some z => byte_of_Z z
  end.

(** [new Uint8Array(n)] for a non-negative [n]. *)
Definition zeros (n : nat) : Uint8Array := repeat x00 n.

(** [a[k] = v] on a typed array: an index outside the array is ignored. *)
Fixpoint array_store (a : Uint8Array) (k : nat) (v : byte) : Uint8Array :=
  match a, k with
  | [], _ => []
  | _ :: r, O => v :: r
  | x :: r, S k' => x :: array_store r k' v
  end.

(** ** String built-ins *)

Module JsString.

(** [Number.prototype.toString(16)] on a non-negative integer. *)
Definition toString16 (n : N) : string :=
  HexadecimalString.NilZero.string_of_uint (N.to_hex_uint n).

(** [String(n)] for an integer. *)
Definition toString10 (z : Z) : string :=
  DecimalString.NilZero.string_of_int (Z.to_int z).

Fixpoint repeat_fill (fuel : nat) (fill : string) (need : nat) : string :=
  match fuel with
  | O => ""
  | S fuel' =>
      if (need <=? String.length fill)%nat then substring 0 need fill
      else (fill ++ repeat_fill fuel' fill (need - String.length fill))%string
  end.

(** [s.padStart(targetLength, fill)]. *)
Definition padStart (s : string) (targetLength : nat) (fill : string) : string :=
  if (targetLength <=? String.length s)%nat then s
  else if (String.length fill =? 0)%nat then s
  else (repeat_fill targetLength fill (targetLength - String.length s) ++ s)%string.

(** [parts.join('')]. *)
Definition join (parts : list string) : string := String.concat "" parts.

(** [s.substring(start, end)] for non-negative arguments: both are clamped
    to the length and swapped when out of order. *)
Definition substring (s : string) (start end_ : nat) : string :=
  let len := String.length s in
  let a := Nat.min start len in
  let b := Nat.min end_ len in
  String.substring (Nat.min a b) (Nat.max a b - Nat.min a b) s.

(** White space that [parseInt] skips (the code units below 256). *)
Definition isStrWhiteSpaceChar (c : ascii) : bool :=
  let n := nat_of_ascii c in
  ((n =? 9) || (n =? 10) || (n =? 11) || (n =? 12) || (n =? 13)
   || (n =? 32) || (n =? 160))%nat.

Fixpoint trimStart (s : string) : string :=
  match s with
  | String c r => if isStrWhiteSpaceChar c then trimStart r else s
  | EmptyString => s
  end.

(** The value of a code unit as a digit: 0-9, then a-z or A-Z for 10-35. *)
Definition digitValue (c : ascii) : option Z :=
  let n := Z.of_nat (nat_of_ascii c) in
  (if (48 <=? n) && (n <=? 57) then Some (n - 48)
   else if (97 <=? n) && (n <=? 122) then Some (n - 87)
   else if (65 <=? n) && (n <=? 90) then Some (n - 55)
   else None)%Z.

(** The longest prefix of radix-[R] digits, as a number; [None] when the
    prefix is empty. *)
Fixpoint parseDigits (R : Z) (s : string) (acc : option Z) : option Z :=
  match s with
  | EmptyString => acc
  | String c r =>
      match digitValue c with
      | Some d =>
          if (d <? R)%Z
          then parseDigits R r
                 (Some (match acc with Some a => a * R + d | None => d end)%Z)
          else acc
      | None => acc
      end
  end.

Definition ToInt32 (z : Z) : Z := ((z + 2 ^ 31) mod 2 ^ 32 - 2 ^ 31)%Z.

(** [parseInt(str, radix)]; [None] is [NaN]. *)
Definition parseInt (str : string) (radix : Z) : option Z :=
  let S0 := trimStart str in
  let sign := match S0 with String "-" _ => (-1)%Z | _ => 1%Z end in
  let S1 := match S0 with
            | String "-" r => r
            | String "+" r => r
            | _ => S0
            end in
  let R0 := ToInt32 radix in
  if (negb (R0 =? 0) && ((R0 <? 2) || (36 <? R0)))%Z then None
  else
    let stripPrefix := ((R0 =? 0) || (R0 =? 16))%Z in
    let R1 := (if R0 =? 0 then 10 else R0)%Z in
    let '(S2, R) :=
      match stripPrefix, S1 with
      | true, String "0" (String "x" r) => (r, 16%Z)
      | true, String "0" (String "X" r) => (r, 16%Z)
      | _, _ => (S1, R1)
      end in
    match parseDigits R S2 None with
    | Some mathInt => Some (sign * mathInt)%Z
    | None => None
    end.

End JsString.

(** ** The host-side helpers of the class: [toHex] and [fromHex] *)

(** [toHex]: [Array.from(data).map(b => b.toString(16).padStart(2, '0')).join('')] *)
Definition toHex (data : Uint8Array) : string :=
  JsString.join
    (map (fun b => JsString.padStart (JsString.toString16 (Byte.to_N b)) 2 "0")
       data).

(** The loop of [fromHex]: [for (let i = 0; i < hex.length; i += 2)]. *)
Fixpoint fromHex_loop (fuel : nat) (hex : string) (i : nat) (bytes : Uint8Array)
  : Uint8Array :=
  match fuel with
  | O => bytes
  | S fuel' =>
      if (i <? String.length hex)%nat
      then fromHex_loop fuel' hex (i + 2)
             (array_store bytes (i / 2)
                (ToUint8 (JsString.parseInt (JsString.substring hex i (i + 2)) 16%Z)))
      else bytes
  end.

(** [fromHex]: the parity check, then the loop.  The loop advances by two, so
    [hex.length] iterations are more than it can use. *)
Definition fromHex (hex : string) : completion Uint8Array :=
  if negb (String.length hex mod 2 =? 0)%nat
  then Throw (Error "Hex string must have an even number of characters")
  else
    let bytes := zeros (String.length hex / 2) in
    Return (fromHex_loop (String.length hex) hex 0 bytes).


(** The two characters [toHex] produces for one byte. *)
Definition hex_of_byte (b : byte) : string :=
  JsString.padStart (JsString.toString16 (Byte.to_N b)) 2 "0".

(** [0-9] or [a-f]. *)
Definition is_lower_hex (c : ascii) : bool :=
  let n := nat_of_ascii c in
  (((48 <=? n) && (n <=? 57)) || ((97 <=? n) && (n <=? 102)))%nat.

Fixpoint string_forallb (p : ascii -> bool) (s : string) : bool :=
  match s with
  | EmptyString => true
  | String c r => p c && string_forallb p r
  end.
(** ** Typed arrays over a buffer *)

(** [len] bytes of a buffer starting at [ptr]. *)
Definition slice (heap : Uint8Array) (ptr len : Z) : Uint8Array :=
  firstn (Z.to_nat len) (skipn (Z.to_nat ptr) heap).

(** The buffer with [source] put in place of the bytes at [offset]. *)
Definition poke (heap : Uint8Array) (offset : Z) (source : Uint8Array)
  : Uint8Array :=
  firstn (Z.to_nat offset) heap ++ source
  ++ skipn (Z.to_nat offset + List.length source) heap.

(** [target.set(source, offset)]: a [RangeError] unless the source fits. *)
Definition typed_set (target source : Uint8Array) (offset : Z)
  : completion Uint8Array :=
  if ((offset <? 0) || (Z.of_nat (List.length target) <? offset + Z.of_nat (List.length source)))%Z
  then Throw RangeError
  else Return (poke target offset source).

(** [new Uint8Array(length)]. *)
Definition new_Uint8Array (len : Z) : completion Uint8Array :=
  if (len <? 0)%Z then Throw RangeError else Return (zeros (Z.to_nat len)).

(** [new Uint8Array(buffer, byteOffset, length)]: the bytes the view shows. *)
Definition view_Uint8Array (buffer : Uint8Array) (byteOffset len : Z)
  : completion Uint8Array :=
  if ((byteOffset <? 0) || (len <? 0)
      || (Z.of_nat (List.length buffer) <? byteOffset + len))%Z
  then Throw RangeError
  else Return (slice buffer byteOffset len).

(** [new TextEncoder().encode(s)]: UTF-8 of a string of code units below 256. *)
Definition TextEncoder_encode (s : string) : Uint8Array :=
  flat_map
    (fun c : ascii =>
       let u := Z.of_nat (nat_of_ascii c) in
       if (u <=? 127)%Z then [byte_of_Z u]
       else [byte_of_Z (Z.lor 192 (Z.shiftr u 6)); byte_of_Z (Z.lor 128 (Z.land u 63))])
    (list_ascii_of_string s).

Definition inputData_of (data : Data) : Uint8Array :=
  match data with
  | Text s => TextEncoder_encode s
  | Bytes b => b
  end.

(** ** The module instance and what the class does to it *)

(** The return and argument kinds of [cwrap]: ['number'], ['string'], ['void']. *)
Inductive ctype : Type := number | cstring | void.

Definition js_of (t : ctype) : Type :=
  match t with
  | number => Z
  | cstring => string
  | void => unit
  end.

(** What the class asks of the instance, in the order it asks. *)
Inductive Event : Type :=
| Malloc (size ptr : Z)
| Free (ptr : Z)
| Call (name : string) (args : list Z)
| HeapSet (source : Uint8Array) (offset : Z)
| HeapView (byteOffset len : Z)
| ReadString (ptr : Z)
| WriteString (str : string) (outPtr maxBytesToWrite : Z)
| GetValue (ptr : Z) (type : string).

(** The addresses handed out by the allocator and those given back, in
    order. *)
Definition mallocs (t : list Event) : list Z :=
  flat_map (fun e => match e with Malloc _ p => [p] | _ => [] end) t.

Definition frees (t : list Event) : list Z :=
  flat_map (fun e => match e with Free p => [p] | _ => [] end) t.

(** The procedures of the module that were entered, in order. *)
Definition calls (t : list Event) : list string :=
  flat_map (fun e => match e with Call f _ => [f] | _ => [] end) t.

Section Binding.

(** The part of the instance the host cannot see: allocator bookkeeping,
    the library's error queue, its entropy. *)
Variable G : Type.

Record Wasm : Type := mkWasm {
  HEAPU8 : Uint8Array;
  hidden : G
}.

(** [interface OpenSSLWasmInstance].  A call into the module may change the
    memory and the hidden state, and may throw; the allocator reports
    failure by returning 0. *)
Record OpenSSLWasmInstance : Type := {
  ccall : string -> forall ret : ctype, list ctype -> list Z ->
          Wasm -> completion (js_of ret) * Wasm;
  cwrap : string -> forall ret : ctype, list ctype -> list Z ->
          Wasm -> completion (js_of ret) * Wasm;
  getValue : Z -> string -> Wasm -> Z;
  setValue : Z -> Z -> string -> Wasm -> Wasm;
  UTF8ToString : Z -> Wasm -> string;
  stringToUTF8 : string -> Z -> Z -> Wasm -> Wasm;
  _malloc : Z -> Wasm -> Z * Wasm;
  _free : Z -> Wasm -> Wasm
}.

(** The mutable state a method sees: the instance's memory and the
    [initialized] field of the object. *)
Record State : Type := mkState {
  wasm : Wasm;
  initialized : bool
}.

Record Outcome (A : Type) : Type := mkOutcome {
  result : completion A;
  final : State;
  events : list Event
}.
Arguments mkOutcome {A} _ _ _.
Arguments result {A} _.
Arguments final {A} _.
Arguments events {A} _.

Definition M (A : Type) : Type := State -> Outcome A.

Definition ret {A} (a : A) : M A := fun s => mkOutcome (Return a) s [].

Definition throw {A} (e : exn) : M A := fun s => mkOutcome (Throw e) s [].

Definition bind {A B} (m : M A) (f : A -> M B) : M B :=
  fun s =>
    match m s with
    | mkOutcome (Return a) s1 e1 =>
        match f a s1 with
        | mkOutcome r s2 e2 => mkOutcome r s2 (e1 ++ e2)
        end
    | mkOutcome (Throw e) s1 e1 => mkOutcome (Throw e) s1 e1
    end.

(** [try { body } finally { fin }]: [fin] runs on either outcome of [body];
    the outcome is that of [body] unless [fin] itself throws. *)
Definition try_finally {A} (body : M A) (fin : M unit) : M A :=
  fun s =>
    match body s with
    | mkOutcome r s1 e1 =>
        match fin s1 with
        | mkOutcome (Return _) s2 e2 => mkOutcome r s2 (e1 ++ e2)
        | mkOutcome (Throw e) s2 e2 => mkOutcome (Throw e) s2 (e1 ++ e2)
        end
    end.

Definition lift {A} (c : completion A) : M A := fun s => mkOutcome c s [].

Notation "x <- m ;; k" := (bind m (fun x => k))
  (at level 61, m at next level, right associativity).
Notation "m ;;; k" := (bind m (fun _ => k))
  (at level 61, right associativity).

Variable instance : OpenSSLWasmInstance.

(** *** Primitive steps *)

Definition malloc (size : Z) : M Z :=
  fun s =>
    let '(p, w) := _malloc instance size (wasm s) in
    mkOutcome (Return p) (mkState w (initialized s)) [Malloc size p].

Definition free (ptr : Z) : M unit :=
  fun s =>
    mkOutcome (Return tt) (mkState (_free instance ptr (wasm s)) (initialized s))
      [Free ptr].

(** A function obtained from [cwrap], applied to its arguments. *)
Definition wrapped (name : string) (ret : ctype) (argTypes : list ctype)
    (args : list Z) : M (js_of ret) :=
  fun s =>
    let '(r, w) := cwrap instance name ret argTypes args (wasm s) in
    mkOutcome r (mkState w (initialized s)) [Call name args].

(** [this.instance.HEAPU8.set(source, offset)] *)
Definition HEAPU8_set (source : Uint8Array) (offset : Z) : M unit :=
  fun s =>
    match typed_set (HEAPU8 (wasm s)) source offset with
    | Return heap =>
        mkOutcome (Return tt)
          (mkState (mkWasm heap (hidden (wasm s))) (initialized s))
          [HeapSet source offset]
    | Throw e => mkOutcome (Throw e) s [HeapSet source offset]
    end.

(** [new Uint8Array(this.instance.HEAPU8.buffer, ptr, len)] *)
Definition HEAPU8_view (ptr len : Z) : M Uint8Array :=
  fun s =>
    mkOutcome (view_Uint8Array (HEAPU8 (wasm s)) ptr len) s [HeapView ptr len].

Definition readString (ptr : Z) : M string :=
  fun s => mkOutcome (Return (UTF8ToString instance ptr (wasm s))) s [ReadString ptr].

Definition writeString (str : string) (outPtr maxBytesToWrite : Z) : M unit :=
  fun s =>
    mkOutcome (Return tt)
      (mkState (stringToUTF8 instance str outPtr maxBytesToWrite (wasm s))
         (initialized s))
      [WriteString str outPtr maxBytesToWrite].

Definition readValue (ptr : Z) (type : string) : M Z :=
  fun s => mkOutcome (Return (getValue instance ptr type (wasm s))) s [GetValue ptr type].

Definition get_initialized : M bool :=
  fun s => mkOutcome (Return (initialized s)) s [].

Definition set_initialized (b : bool) : M unit :=
  fun s => mkOutcome (Return tt) (mkState (wasm s) b) [].

(** *** The function wrappers bound in the constructor *)

Definition _openssl_version : M string :=
  wrapped "openssl_version" cstring [] [].
Definition _openssl_init : M Z :=
  wrapped "openssl_init" number [] [].
Definition _openssl_cleanup : M unit :=
  wrapped "openssl_cleanup" void [] [].
Definition _random_bytes (ptr len : Z) : M Z :=
  wrapped "random_bytes" number [number; number] [ptr; len].
Definition _sha1_digest (dataPtr dataLen mdPtr : Z) : M Z :=
  wrapped "sha1_digest" number [number; number; number] [dataPtr; dataLen; mdPtr].
Definition _sha256_digest (dataPtr dataLen mdPtr : Z) : M Z :=
  wrapped "sha256_digest" number [number; number; number] [dataPtr; dataLen; mdPtr].
Definition _sha384_digest (dataPtr dataLen mdPtr : Z) : M Z :=
  wrapped "sha384_digest" number [number; number; number] [dataPtr; dataLen; mdPtr].
Definition _sha512_digest (dataPtr dataLen mdPtr : Z) : M Z :=
  wrapped "sha512_digest" number [number; number; number] [dataPtr; dataLen; mdPtr].
Definition _md5_digest (dataPtr dataLen mdPtr : Z) : M Z :=
  wrapped "md5_digest" number [number; number; number] [dataPtr; dataLen; mdPtr].
Definition _base64_encode (inPtr inLen outLenPtr : Z) : M Z :=
  wrapped "base64_encode" number [number; number; number] [inPtr; inLen; outLenPtr].
Definition _base64_decode (inPtr inLen outLenPtr : Z) : M Z :=
  wrapped "base64_decode" number [number; number; number] [inPtr; inLen; outLenPtr].
Definition _get_error_string : M string :=
  wrapped "get_error_string" cstring [] [].

Definition len_of (a : Uint8Array) : Z := Z.of_nat (List.length a).

(** *** The methods of [class OpenSSL] *)

(** The field initialiser [initialized = false], then the body. *)
Definition constructor : M unit :=
  set_initialized false ;;;
  r <- _openssl_init ;;
  if negb (r =? 1)%Z then throw (Error "Failed to initialize OpenSSL")
  else set_initialized true.

Definition version : M string := _openssl_version.

Definition cleanup : M unit :=
  b <- get_initialized ;;
  if b then _openssl_cleanup ;;; set_initialized false
  else ret tt.

Definition randomBytes (len : Z) : M Uint8Array :=
  ptr <- malloc len ;;
  try_finally
    (r <- _random_bytes ptr len ;;
     (if negb (r =? 1)%Z
      then msg <- _get_error_string ;;
           throw (Error ("Failed to generate random bytes: " ++ msg)%string)
      else ret tt) ;;;
     output <- lift (new_Uint8Array len) ;;
     v <- HEAPU8_view ptr len ;;
     lift (typed_set output v 0))
    (free ptr).

Definition sha1 (data : Data) : M Uint8Array :=
  let inputData := inputData_of data in
  let digestLength := 20%Z in
  dataPtr <- malloc (len_of inputData) ;;
  digestPtr <- malloc digestLength ;;
  try_finally
    (HEAPU8_set inputData dataPtr ;;;
     r <- _sha1_digest dataPtr (len_of inputData) digestPtr ;;
     (if negb (r =? 1)%Z
      then msg <- _get_error_string ;;
           throw (Error ("SHA-1 digest failed: " ++ msg)%string)
      else ret tt) ;;;
     output <- lift (new_Uint8Array digestLength) ;;
     v <- HEAPU8_view digestPtr digestLength ;;
     lift (typed_set output v 0))
    (free dataPtr ;;; free digestPtr).

Definition sha256 (data : Data) : M Uint8Array :=
  let inputData := inputData_of data in
  let digestLength := 32%Z in
  dataPtr <- malloc (len_of inputData) ;;
  digestPtr <- malloc digestLength ;;
  try_finally
    (HEAPU8_set inputData dataPtr ;;;
     r <- _sha256_digest dataPtr (len_of inputData) digestPtr ;;
     (if negb (r =? 1)%Z
      then msg <- _get_error_string ;;
           throw (Error ("SHA-256 digest failed: " ++ msg)%string)
      else ret tt) ;;;
     output <- lift (new_Uint8Array digestLength) ;;
     v <- HEAPU8_view digestPtr digestLength ;;
     lift (typed_set output v 0))
    (free dataPtr ;;; free digestPtr).

Definition sha384 (data : Data) : M Uint8Array :=
  let inputData := inputData_of data in
  let digestLength := 48%Z in
  dataPtr <- malloc (len_of inputData) ;;
  digestPtr <- malloc digestLength ;;
  try_finally
    (HEAPU8_set inputData dataPtr ;;;
     r <- _sha384_digest dataPtr (len_of inputData) digestPtr ;;
     (if negb (r =? 1)%Z
      then msg <- _get_error_string ;;
           throw (Error ("SHA-384 digest failed: " ++ msg)%string)
      else ret tt) ;;;
     output <- lift (new_Uint8Array digestLength) ;;
     v <- HEAPU8_view digestPtr digestLength ;;
     lift (typed_set output v 0))
    (free dataPtr ;;; free digestPtr).

Definition sha512 (data : Data) : M Uint8Array :=
  let inputData := inputData_of data in
  let digestLength := 64%Z in
  dataPtr <- malloc (len_of inputData) ;;
  digestPtr <- malloc digestLength ;;
  try_finally
    (HEAPU8_set inputData dataPtr ;;;
     r <- _sha512_digest dataPtr (len_of inputData) digestPtr ;;
     (if negb (r =? 1)%Z
      then msg <- _get_error_string ;;
           throw (Error ("SHA-512 digest failed: " ++ msg)%string)
      else ret tt) ;;;
     output <- lift (new_Uint8Array digestLength) ;;
     v <- HEAPU8_view digestPtr digestLength ;;
     lift (typed_set output v 0))
    (free dataPtr ;;; free digestPtr).

Definition md5 (data : Data) : M Uint8Array :=
  let inputData := inputData_of data in
  let digestLength := 16%Z in
  dataPtr <- malloc (len_of inputData) ;;
  digestPtr <- malloc digestLength ;;
  try_finally
    (HEAPU8_set inputData dataPtr ;;;
     r <- _md5_digest dataPtr (len_of inputData) digestPtr ;;
     (if negb (r =? 1)%Z
      then msg <- _get_error_string ;;
           throw (Error ("MD5 digest failed: " ++ msg)%string)
      else ret tt) ;;;
     output <- lift (new_Uint8Array digestLength) ;;
     v <- HEAPU8_view digestPtr digestLength ;;
     lift (typed_set output v 0))
    (free dataPtr ;;; free digestPtr).

Definition base64Encode (data : Data) : M string :=
  let inputData := inputData_of data in
  dataPtr <- malloc (len_of inputData) ;;
  outLenPtr <- malloc 4 ;;
  try_finally
    (HEAPU8_set inputData dataPtr ;;;
     resultPtr <- _base64_encode dataPtr (len_of inputData) outLenPtr ;;
     (if (resultPtr =? 0)%Z
      then msg <- _get_error_string ;;
           throw (Error ("Base64 encoding failed: " ++ msg)%string)
      else ret tt) ;;;
     r <- readString resultPtr ;;
     free resultPtr ;;;
     ret r)
    (free dataPtr ;;; free outLenPtr).

Definition base64Decode (data : string) : M Uint8Array :=
  let data_length := Z.of_nat (String.length data) in
  dataPtr <- malloc data_length ;;
  outLenPtr <- malloc 4 ;;
  try_finally
    (writeString data dataPtr (data_length + 1) ;;;
     resultPtr <- _base64_decode dataPtr data_length outLenPtr ;;
     (if (resultPtr =? 0)%Z
      then msg <- _get_error_string ;;
           throw (Error ("Base64 decoding failed: " ++ msg)%string)
      else ret tt) ;;;
     outLen <- readValue outLenPtr "i32" ;;
     output <- lift (new_Uint8Array outLen) ;;
     v <- HEAPU8_view resultPtr outLen ;;
     output' <- lift (typed_set output v 0) ;;
     free resultPtr ;;;
     ret output')
    (free dataPtr ;;; free outLenPtr).

(** [OpenSSLWasmJS.initialize()]: the constructor run on the loaded
    instance. *)
Definition initialize : M unit := constructor.

(** *** The operations that allocate, as data

    One constructor per public method that calls [_malloc], with the
    method's argument; used to state a property of all of them at once. *)

Inductive Operation : Type :=
| RandomBytes (len : Z)
| Sha1 (data : Data)
| Sha256 (data : Data)
| Sha384 (data : Data)
| Sha512 (data : Data)
| Md5 (data : Data)
| Base64Encode (data : Data)
| Base64Decode (data : string).

Definition erase {A} (c : completion A) : completion unit :=
  match c with
  | Return _ => Return tt
  | Throw e => Throw e
  end.

(** What the method asked of the instance. *)
Definition trace_of (op : Operation) (s : State) : list Event :=
  match op with
  | RandomBytes n => events (randomBytes n s)
  | Sha1 d => events (sha1 d s)
  | Sha256 d => events (sha256 d s)
  | Sha384 d => events (sha384 d s)
  | Sha512 d => events (sha512 d s)
  | Md5 d => events (md5 d s)
  | Base64Encode d => events (base64Encode d s)
  | Base64Decode d => events (base64Decode d s)
  end.

(** How the method ended, the returned value forgotten. *)
Definition ending_of (op : Operation) (s : State) : completion unit :=
  match op with
  | RandomBytes n => erase (result (randomBytes n s))
  | Sha1 d => erase (result (sha1 d s))
  | Sha256 d => erase (result (sha256 d s))
  | Sha384 d => erase (result (sha384 d s))
  | Sha512 d => erase (result (sha512 d s))
  | Md5 d => erase (result (md5 d s))
  | Base64Encode d => erase (result (base64Encode d s))
  | Base64Decode d => erase (result (base64Decode d s))
  end.

End Binding.

Arguments mkWasm {G} _ _.
Arguments HEAPU8 {G} _.
Arguments hidden {G} _.
Arguments mkState {G} _ _.
Arguments wasm {G} _.
Arguments initialized {G} _.
Arguments mkOutcome {G A} _ _ _.
Arguments result {G A} _.
Arguments final {G A} _.
Arguments events {G A} _.
Arguments cwrap {G} _ _ _ _ _ _.
Arguments ccall {G} _ _ _ _ _ _.
Arguments getValue {G} _ _ _ _.
Arguments setValue {G} _ _ _ _ _.
Arguments UTF8ToString {G} _ _ _.
Arguments stringToUTF8 {G} _ _ _ _ _.
Arguments _malloc {G} _ _ _.
Arguments _free {G} _ _ _.
Arguments constructor {G} instance _.
Arguments initialize {G} instance _.
Arguments version {G} instance _.
Arguments cleanup {G} instance _.
Arguments randomBytes {G} instance len _.
Arguments sha1 {G} instance data _.
Arguments sha256 {G} instance data _.
Arguments sha384 {G} instance data _.
Arguments sha512 {G} instance data _.
Arguments md5 {G} instance data _.
Arguments base64Encode {G} instance data _.
Arguments base64Decode {G} instance data _.
Arguments trace_of {G} instance op s.
Arguments ending_of {G} instance op s.

(** The allocations a method makes before its [try] block, by size. *)
Definition buffers (op : Operation) : list Z :=
  match op with
  | RandomBytes n => [n]
  | Sha1 d => [len_of (inputData_of d); 20%Z]
  | Sha256 d => [len_of (inputData_of d); 32%Z]
  | Sha384 d => [len_of (inputData_of d); 48%Z]
  | Sha512 d => [len_of (inputData_of d); 64%Z]
  | Md5 d => [len_of (inputData_of d); 16%Z]
  | Base64Encode d => [len_of (inputData_of d); 4%Z]
  | Base64Decode d => [Z.of_nat (String.length d); 4%Z]
  end.

(** The exported procedure a method calls on its buffers. *)
Definition procedure (op : Operation) : string :=
  match op with
  | RandomBytes _ => "random_bytes"
  | Sha1 _ => "sha1_digest"
  | Sha256 _ => "sha256_digest"
  | Sha384 _ => "sha384_digest"
  | Sha512 _ => "sha512_digest"
  | Md5 _ => "md5_digest"
  | Base64Encode _ => "base64_encode"
  | Base64Decode _ => "base64_decode"
  end.

(** The arguments of that call, from the addresses the allocator returned. *)
Definition arguments (op : Operation) (ptrs : list Z) : list Z :=
  match op, ptrs with
  | RandomBytes n, [p] => [p; n]
  | _, [p; q] => [p; nth 0 (buffers op) 0%Z; q]
  | _, _ => []
  end.

(** The two methods whose procedure hands back a buffer of its own, which
    the method frees after reading it. *)
Definition hands_back_buffer (op : Operation) : bool :=
  match op with
  | Base64Encode _ | Base64Decode _ => true
  | _ => false
  end.

(** ** The public surface of the class

    The members declared in [class OpenSSL] (the private wrappers left
    out), as looked up by name on a handle. *)

Inductive Method : Type :=
| m_version | m_cleanup | m_randomBytes
| m_sha1 | m_sha256 | m_sha384 | m_sha512 | m_md5
| m_base64Encode | m_base64Decode | m_toHex | m_fromHex.

Definition OpenSSL_prototype : list (string * Method) :=
  [ ("version", m_version); ("cleanup", m_cleanup);
    ("randomBytes", m_randomBytes);
    ("sha1", m_sha1); ("sha256", m_sha256); ("sha384", m_sha384);
    ("sha512", m_sha512); ("md5", m_md5);
    ("base64Encode", m_base64Encode); ("base64Decode", m_base64Decode);
    ("toHex", m_toHex); ("fromHex", m_fromHex) ].

(** [handle[name]]: [None] is [undefined], and calling it a [TypeError]. *)
Fixpoint get_member (table : list (string * Method)) (name : string)
  : option Method :=
  match table with
  | [] => None
  | (k, m) :: rest => if String.eqb k name then Some m else get_member rest name
  end.

(** [handle[name](...)], up to the choice of the method: a member that is
    not there cannot be called. *)
Definition call_member (name : string) : completion Method :=
  match get_member OpenSSL_prototype name with
  | Some m => Return m
  | None => Throw TypeError
  end.

(** The call surface the documentation lists ([README.md], [docs/API.md]). *)
Definition documented_surface : list string :=
  [ "version"; "cleanup"; "randomBytes";
    "sha1"; "sha256"; "sha384"; "sha512"; "md5";
    "aesEncrypt"; "aesDecrypt";
    "generateRsaKeyPair"; "rsaEncrypt"; "rsaDecrypt"; "rsaSign"; "rsaVerify";
    "base64Encode"; "base64Decode"; "toHex"; "fromHex" ].

(** The addresses the allocator was asked for, by size, in order. *)
Definition requested (t : list Event) : list Z :=
  flat_map (fun e => match e with Malloc n _ => [n] | _ => [] end) t.

(** What step 2 of the buffer exchange would require of a run: once the
    allocator has returned the sentinel 0, the method's procedure is not
    entered and the method ends in a failure. *)
Definition refuses_null {G} (inst : OpenSSLWasmInstance G) (op : Operation)
    (s : State G) : Prop :=
  In 0%Z (mallocs (trace_of inst op s)) ->
  ~ In (procedure op) (calls (trace_of inst op s))
  /\ is_throw (ending_of inst op s) = true.

(** The digest procedure [proc], entered by a digest method on [data] in
    state [s] after its two allocations and the copy of the input, returned
    [st]; the digest buffer is at [q] and the instance is left as [w']. *)
Definition digest_reports {G} (inst : OpenSSLWasmInstance G) (proc : string)
    (digestLength : Z) (data : Data) (s : State G) (st q : Z) (w' : Wasm G)
  : Prop :=
  exists p w1 w2 heap,
    _malloc inst (len_of (inputData_of data)) (wasm s) = (p, w1)
    /\ _malloc inst digestLength w1 = (q, w2)
    /\ typed_set (HEAPU8 w2) (inputData_of data) p = Return heap
    /\ cwrap inst proc number [number; number; number]
         [p; len_of (inputData_of data); q] (mkWasm heap (hidden w2))
       = (Return st, w').

Definition in_memory {G} (w : Wasm G) (ptr len : Z) : Prop :=
  (0 <= ptr /\ 0 <= len /\ ptr + len <= len_of (HEAPU8 w))%Z.

(** [base64Decode(base64Encode(b))] *)
Definition decode_of_encode {G} (inst : OpenSSLWasmInstance G) (b : Uint8Array)
  : M G Uint8Array :=
  bind G (base64Encode inst (Bytes b)) (fun t => base64Decode inst t).

(** ** The module as built

    The C wrapper of the repository ([openssl_version] ... [get_error_string]),
    linked against the allocator and the cryptographic library, and the
    runtime glue that presents it as an [OpenSSLWasmInstance].

    Of the C file, the functions the class binds are embedded; its AES,
    RSA, HMAC, PEM and BIO helpers are bound by no method of the class.

    The allocator and the library are not part of the repository; they are
    taken as given.  Their state [X] is apart from the bytes of the memory
    (the allocator's bookkeeping is not modelled as memory contents), a
    library function that fills a buffer of the caller is given by the bytes
    it puts there, and what the library allocates for itself (digest
    contexts, BIOs) stays inside [X].  The [int] and [size_t] arguments are
    integers without a width. *)

Inductive EVP_MD : Type :=
| EVP_sha1 | EVP_sha256 | EVP_sha384 | EVP_sha512 | EVP_md5.

Record Library (X : Type) : Type := {
  (* libc *)
  lib_malloc : Z -> X -> Z * X;
  lib_free : Z -> X -> X;
  (* crypto.h, rand.h, err.h *)
  OpenSSL_version : X -> Z;
  OPENSSL_init_crypto : X -> Z * X;
  OPENSSL_cleanup : X -> X;
  RAND_bytes : Z -> X -> (Z * Uint8Array) * X;
  ERR_get_error : X -> Z * X;
  ERR_error_string_n : Z -> Z -> Uint8Array;
  (* evp.h *)
  EVP_MD_CTX_new : X -> Z * X;
  EVP_DigestInit_ex : Z -> EVP_MD -> X -> Z * X;
  EVP_DigestUpdate : Z -> Uint8Array -> X -> Z * X;
  EVP_DigestFinal_ex : Z -> X -> (Z * Uint8Array) * X;
  EVP_MD_CTX_free : Z -> X -> X;
  (* bio.h: a base64 filter, flag BIO_FLAGS_BASE64_NO_NL, pushed on a memory
     BIO.  [BIO_base64_write] is what the memory sink holds once the input
     has been written through the filter and flushed; [BIO_base64_read] is
     what one [BIO_read] of at most the given length returns and puts in the
     buffer when the source holds the given bytes; [BIO_read_detached] is
     what it returns when [BIO_new_mem_buf] was given a null buffer. *)
  BIO_base64_write : Uint8Array -> Uint8Array;
  BIO_base64_read : Uint8Array -> Z -> Z * Uint8Array;
  BIO_read_detached : Z;
  (* the address of [static char error_string[256]] *)
  error_string : Z
}.

Arguments lib_malloc {X} _ _ _.
Arguments lib_free {X} _ _ _.
Arguments OpenSSL_version {X} _ _.
Arguments OPENSSL_init_crypto {X} _ _.
Arguments OPENSSL_cleanup {X} _ _.
Arguments RAND_bytes {X} _ _ _.
Arguments ERR_get_error {X} _ _.
Arguments ERR_error_string_n {X} _ _ _.
Arguments EVP_MD_CTX_new {X} _ _.
Arguments EVP_DigestInit_ex {X} _ _ _ _.
Arguments EVP_DigestUpdate {X} _ _ _ _.
Arguments EVP_DigestFinal_ex {X} _ _ _.
Arguments EVP_MD_CTX_free {X} _ _ _.
Arguments BIO_base64_write {X} _ _.
Arguments BIO_base64_read {X} _ _ _.
Arguments BIO_read_detached {X} _.
Arguments error_string {X} _.

(** A record of the allocator's activity, kept beside the library's state,
    of the kind the specification asks for to count outstanding
    allocations. *)
Inductive HeapEvent : Type :=
| Alloc (size ptr : Z)
| Release (ptr : Z).

Record Guest (X : Type) : Type := mkGuest {
  lib_state : X;
  heap_log : list HeapEvent
}.
Arguments mkGuest {X} _ _.
Arguments lib_state {X} _.
Arguments heap_log {X} _.

(** A 32-bit integer in memory, little-endian. *)
Definition int_bytes (v : Z) : Uint8Array :=
  [byte_of_Z v; byte_of_Z (v / 256); byte_of_Z (v / 65536);
   byte_of_Z (v / 16777216)]%Z.

Definition int_of_bytes (bs : Uint8Array) : Z :=
  let u := fold_right (fun b acc => Z_of_byte b + 256 * acc)%Z 0%Z bs in
  (if u <? 2 ^ 31 then u else u - 2 ^ 32)%Z.

Definition in_bounds (heap : Uint8Array) (ptr len : Z) : bool :=
  ((0 <=? ptr) && (0 <=? len) && (ptr + len <=? len_of heap))%Z.

(** The bytes of a C string: up to the first zero byte. *)
Fixpoint c_string (bytes : Uint8Array) : Uint8Array :=
  match bytes with
  | [] => []
  | b :: rest => if Byte.eqb b x00 then [] else b :: c_string rest
  end.

Module Wrapper.
Section C.

Variable X : Type.
Variable L : Library X.

Definition Mem : Type := Wasm (Guest X).

(** Code of the module: it may trap. *)
Definition C (A : Type) : Type := Mem -> completion A * Mem.

Definition creturn {A} (a : A) : C A := fun m => (Return a, m).

Definition trap {A} : C A :=
  fun m => (Throw (Thrown "memory access out of bounds"), m).

Definition cbind {A B} (c : C A) (k : A -> C B) : C B :=
  fun m =>
    match c m with
    | (Return a, m1) => k a m1
    | (Throw e, m1) => (Throw e, m1)
    end.

Notation "x <- c ;; k" := (cbind c (fun x => k))
  (at level 61, c at next level, right associativity).
Notation "c ;;; k" := (cbind c (fun _ => k))
  (at level 61, right associativity).

(** A call of a library function on the library's state. *)
Definition lib {A} (f : X -> A * X) : C A :=
  fun m =>
    let '(a, x) := f (lib_state (hidden m)) in
    (Return a, mkWasm (HEAPU8 m) (mkGuest x (heap_log (hidden m)))).

Definition lib_ (f : X -> X) : C unit :=
  lib (fun x => (tt, f x)).

Definition malloc_raw (size : Z) (m : Mem) : Z * Mem :=
  let '(p, x) := lib_malloc L size (lib_state (hidden m)) in
  (p, mkWasm (HEAPU8 m) (mkGuest x (heap_log (hidden m) ++ [Alloc size p]))).

Definition free_raw (ptr : Z) (m : Mem) : Mem :=
  mkWasm (HEAPU8 m)
    (mkGuest (lib_free L ptr (lib_state (hidden m)))
       (heap_log (hidden m) ++ [Release ptr])).

Definition malloc (size : Z) : C Z :=
  fun m => let '(p, m1) := malloc_raw size m in (Return p, m1).

Definition free (ptr : Z) : C unit :=
  fun m => (Return tt, free_raw ptr m).

(** Reading [len] bytes at [ptr], and writing bytes at [ptr]; an access
    outside the memory traps.  Nothing is accessed when there is nothing to
    read or write. *)
Definition load (ptr len : Z) : C Uint8Array :=
  fun m =>
    if (len <=? 0)%Z then (Return [], m)
    else if in_bounds (HEAPU8 m) ptr len
         then (Return (slice (HEAPU8 m) ptr len), m)
         else trap m.

Definition store (ptr : Z) (bytes : Uint8Array) : C unit :=
  fun m =>
    match bytes with
    | [] => (Return tt, m)
    | _ :: _ =>
        if in_bounds (HEAPU8 m) ptr (len_of bytes)
        then (Return tt, mkWasm (poke (HEAPU8 m) ptr bytes) (hidden m))
        else trap m
    end.

(** *** The functions of the C file *)

Definition openssl_version : C Z :=
  fun m => (Return (OpenSSL_version L (lib_state (hidden m))), m).

Definition openssl_init : C Z := lib (OPENSSL_init_crypto L).

Definition openssl_cleanup : C unit := lib_ (OPENSSL_cleanup L).

(** [return RAND_bytes(buf, len);] *)
Definition random_bytes (buf len : Z) : C Z :=
  r <- lib (RAND_bytes L len) ;;
  store buf (snd r) ;;;
  creturn (fst r).

(** The body shared by [sha1_digest], [sha256_digest], [sha384_digest],
    [sha512_digest] and [md5_digest], which differ in the [EVP_MD] only. *)
Definition evp_digest (type : EVP_MD) (data data_len md : Z) : C Z :=
  mdctx <- lib (EVP_MD_CTX_new L) ;;
  if (mdctx =? 0)%Z then creturn 0%Z
  else
    r1 <- lib (EVP_DigestInit_ex L mdctx type) ;;
    if negb (r1 =? 1)%Z
    then lib_ (EVP_MD_CTX_free L mdctx) ;;; creturn 0%Z
    else
      input <- load data data_len ;;
      r2 <- lib (EVP_DigestUpdate L mdctx input) ;;
      if negb (r2 =? 1)%Z
      then lib_ (EVP_MD_CTX_free L mdctx) ;;; creturn 0%Z
      else
        r3 <- lib (EVP_DigestFinal_ex L mdctx) ;;
        store md (snd r3) ;;;
        if negb (fst r3 =? 1)%Z
        then lib_ (EVP_MD_CTX_free L mdctx) ;;; creturn 0%Z
        else lib_ (EVP_MD_CTX_free L mdctx) ;;; creturn 1%Z.

Definition sha1_digest := evp_digest EVP_sha1.
Definition sha256_digest := evp_digest EVP_sha256.
Definition sha384_digest := evp_digest EVP_sha384.
Definition sha512_digest := evp_digest EVP_sha512.
Definition md5_digest := evp_digest EVP_md5.

(** [base64_encode]: the input goes through the filter into the memory
    sink; the text is copied to a fresh buffer of its length plus one, a
    zero byte put after it, and its length stored at [out_len]. *)
Definition base64_encode (in_ in_len out_len : Z) : C Z :=
  input <- load in_ in_len ;;
  let data := BIO_base64_write L input in
  let length := len_of data in
  buf <- malloc (length + 1) ;;
  if (buf =? 0)%Z then creturn 0%Z
  else
    store buf data ;;;
    store (buf + length) [x00] ;;;
    store out_len (int_bytes length) ;;;
    creturn buf.

(** [base64_decode]: a buffer of [in_len] bytes is allocated; one
    [BIO_read] through the filter fills it from the input, and what it
    returned is stored at [out_len]. *)
Definition base64_decode (in_ in_len out_len : Z) : C Z :=
  buf <- malloc in_len ;;
  if (buf =? 0)%Z then creturn 0%Z
  else
    r <- (if (in_ =? 0)%Z then creturn (BIO_read_detached L, [])
          else input <- load in_ in_len ;;
               creturn (BIO_base64_read L input in_len)) ;;
    store buf (snd r) ;;;
    store out_len (int_bytes (fst r)) ;;;
    creturn buf.

Definition get_error_string : C Z :=
  err <- lib (ERR_get_error L) ;;
  if (err =? 0)%Z then creturn 0%Z
  else
    store (error_string L) (ERR_error_string_n L err 256) ;;;
    creturn (error_string L).

End C.
End Wrapper.

Arguments Wrapper.malloc_raw {X} L size m.
Arguments Wrapper.free_raw {X} L ptr m.
Arguments Wrapper.base64_encode {X} L in_ in_len out_len _.
Arguments Wrapper.base64_decode {X} L in_ in_len out_len _.
Arguments Wrapper.random_bytes {X} L buf len _.
Arguments Wrapper.get_error_string {X} L _.

(** The runtime glue of the build: [cwrap], [UTF8ToString],
    [stringToUTF8], [getValue], [setValue]. *)
Module Glue.
Section Runtime.

Variable X : Type.
Variable L : Library X.

Definition Mem : Type := Wasm (Guest X).

(** The procedures the class binds, by exported name.  A procedure that
    returns nothing is given the result 0. *)
Definition exported (name : string) (args : list Z) (m : Mem)
  : completion Z * Mem :=
  match args with
  | [] =>
      if String.eqb name "openssl_version" then Wrapper.openssl_version X L m
      else if String.eqb name "openssl_init" then Wrapper.openssl_init X L m
      else if String.eqb name "openssl_cleanup"
      then Wrapper.cbind X (Wrapper.openssl_cleanup X L)
             (fun _ => Wrapper.creturn X 0%Z) m
      else if String.eqb name "get_error_string"
      then Wrapper.get_error_string L m
      else (Throw (Thrown "not a function"), m)
  | [a; b] =>
      if String.eqb name "random_bytes" then Wrapper.random_bytes L a b m
      else (Throw (Thrown "not a function"), m)
  | [a; b; c] =>
      if String.eqb name "sha1_digest" then Wrapper.sha1_digest X L a b c m
      else if String.eqb name "sha256_digest" then Wrapper.sha256_digest X L a b c m
      else if String.eqb name "sha384_digest" then Wrapper.sha384_digest X L a b c m
      else if String.eqb name "sha512_digest" then Wrapper.sha512_digest X L a b c m
      else if String.eqb name "md5_digest" then Wrapper.md5_digest X L a b c m
      else if String.eqb name "base64_encode" then Wrapper.base64_encode L a b c m
      else if String.eqb name "base64_decode" then Wrapper.base64_decode L a b c m
      else (Throw (Thrown "not a function"), m)
  | _ => (Throw (Thrown "not a function"), m)
  end.

(** Decoding of UTF-8 into code units.  A string here holds code units
    below 256 only: one-byte sequences and the two-byte sequences for
    U+0080..U+00FF are decoded; any other byte is shown as ['?']. *)
Fixpoint utf8_decode (bytes : Uint8Array) : string :=
  match bytes with
  | [] => ""
  | u0 :: rest =>
      let z0 := Z_of_byte u0 in
      if (z0 <? 128)%Z then String (ascii_of_byte u0) (utf8_decode rest)
      else
        match rest with
        | u1 :: rest' =>
            let z1 := Z_of_byte u1 in
            if ((194 <=? z0) && (z0 <=? 195) && (128 <=? z1) && (z1 <? 192))%Z
            then String
                   (ascii_of_byte
                      (byte_of_Z (Z.lor (Z.shiftl (Z.land z0 31) 6) (Z.land z1 63))))
                   (utf8_decode rest')
            else String "?" (utf8_decode rest)
        | [] => "?"
        end
  end.

(** [UTF8ToString(ptr)]: the empty string for a null pointer, else the
    bytes from [ptr] up to a zero byte or the end of the memory, decoded. *)
Definition UTF8ToString (ptr : Z) (m : Mem) : string :=
  if (ptr <=? 0)%Z then ""
  else utf8_decode (c_string (skipn (Z.to_nat ptr) (HEAPU8 m))).

(** The UTF-8 bytes of the longest prefix of the string whose characters
    fit whole in [room] bytes. *)
Fixpoint utf8_fit (chars : list ascii) (room : Z) : Uint8Array :=
  match chars with
  | [] => []
  | c :: rest =>
      let u := Z.of_nat (nat_of_ascii c) in
      if (u <=? 127)%Z
      then if (room <=? 0)%Z then []
           else byte_of_Z u :: utf8_fit rest (room - 1)
      else if (room <=? 1)%Z then []
           else byte_of_Z (Z.lor 192 (Z.shiftr u 6))
                :: byte_of_Z (Z.lor 128 (Z.land u 63))
                :: utf8_fit rest (room - 2)
  end.

(** [heap[idx] = b], one element after another from [idx]; an element
    outside the array is not written. *)
Fixpoint write_elements (heap : Uint8Array) (idx : Z) (bytes : Uint8Array)
  : Uint8Array :=
  match bytes with
  | [] => heap
  | b :: rest =>
      write_elements
        (if in_bounds heap idx 1 then poke heap idx [b] else heap)
        (idx + 1) rest
  end.

(** The bytes [stringToUTF8] writes: as much of the string as fits in
    [maxBytesToWrite - 1] bytes, then a zero byte. *)
Definition written_by_stringToUTF8 (str : string) (maxBytesToWrite : Z)
  : Uint8Array :=
  if (0 <? maxBytesToWrite)%Z
  then utf8_fit (list_ascii_of_string str) (maxBytesToWrite - 1) ++ [x00]
  else [].

Definition stringToUTF8 (str : string) (outPtr maxBytesToWrite : Z) (m : Mem)
  : Mem :=
  mkWasm
    (write_elements (HEAPU8 m) outPtr (written_by_stringToUTF8 str maxBytesToWrite))
    (hidden m).

(** [getValue(ptr, 'i32')] is [HEAP32[ptr >> 2]]: the aligned word that
    holds [ptr].  The other types are not used by the class and read as 0,
    as does a word outside the memory. *)
Definition getValue (ptr : Z) (type : string) (m : Mem) : Z :=
  if String.eqb type "i32"
  then let addr := (4 * (ptr / 4))%Z in
       if in_bounds (HEAPU8 m) addr 4
       then int_of_bytes (slice (HEAPU8 m) addr 4)
       else 0%Z
  else 0%Z.

Definition setValue (ptr value : Z) (type : string) (m : Mem) : Mem :=
  if String.eqb type "i32"
  then mkWasm (write_elements (HEAPU8 m) (4 * (ptr / 4))%Z (int_bytes value))
         (hidden m)
  else m.

(** [cwrap(name, returnType, argTypes)] applied to arguments: the export is
    called and its result converted by the return type. *)
Definition cwrap (name : string) (ret : ctype) (argTypes : list ctype)
    (args : list Z) (m : Mem) : completion (js_of ret) * Mem :=
  match exported name args m with
  | (Return r, m1) =>
      (match ret as t return completion (js_of t) with
       | number => Return r
       | cstring => Return (UTF8ToString r m1)
       | void => Return tt
       end, m1)
  | (Throw e, m1) => (Throw e, m1)
  end.

(** The instance handed to the constructor of the class. *)
Definition instance : OpenSSLWasmInstance (Guest X) :=
  Build_OpenSSLWasmInstance (Guest X)
    cwrap                       (* ccall: the same call, made at once *)
    cwrap
    getValue
    setValue
    UTF8ToString
    stringToUTF8
    (Wrapper.malloc_raw L)
    (Wrapper.free_raw L).

End Runtime.
End Glue.


Arguments Glue.instance {X} L.
Arguments Glue.cwrap {X} L name ret argTypes args m.
Arguments Glue.exported {X} L name args m.
Arguments Glue.UTF8ToString {X} ptr m.
Arguments Glue.stringToUTF8 {X} str outPtr maxBytesToWrite m.
Arguments Glue.getValue {X} ptr type m.

(** *** What is assumed of the allocator in a run

    The allocator's part of the bargain, checked on the record of its
    activity: every address it returned is not null, is a multiple of 4,
    lies with its bytes inside a memory of [size] bytes, and is apart from
    every block returned earlier and not yet released. *)

Definition apart (p n q m : Z) : bool :=
  ((p + n <=? q) || (q + m <=? p))%Z.

Fixpoint disciplined (size : Z) (live : list (Z * Z)) (log : list HeapEvent)
  : bool :=
  match log with
  | [] => true
  | Alloc n p :: rest =>
      (0 <? p)%Z && (p mod 4 =? 0)%Z && (0 <=? n)%Z && (p + n <=? size)%Z
      && forallb (fun blk => apart p n (fst blk) (snd blk)) live
      && disciplined size ((p, n) :: live) rest
  | Release p :: rest =>
      disciplined size (filter (fun blk => negb (fst blk =? p)%Z) live) rest
  end.

(** The allocator's activity between two states of a run. *)
Definition heap_activity {X} (before after : State (Guest X)) : list HeapEvent :=
  skipn (List.length (heap_log (hidden (wasm before))))
    (heap_log (hidden (wasm after))).

(** A byte of plain text: an ASCII code other than zero. *)
Definition is_text_byte (b : byte) : bool :=
  ((0 <? Z_of_byte b) && (Z_of_byte b <? 128))%Z.

(** *** A library to run the module on

    A bump allocator that rounds sizes up to a multiple of 8, a generator
    that counts, digests that are all zero, and the base64 of RFC 4648
    without line breaks. *)

Module Base64.

Definition alphabet : Uint8Array :=
  Eval vm_compute in
    map byte_of_ascii
      (list_ascii_of_string
         "ABCDEFGHIJKLMNOPQRSTUVWXYZabcdefghijklmnopqrstuvwxyz0123456789+/").

Definition pad : byte := byte_of_ascii "=".

Definition char_of (v : Z) : byte := nth (Z.to_nat v) alphabet pad.

(** The value of a character of the alphabet. *)
Definition value_of (c : byte) : option Z :=
  let z := Z_of_byte c in
  (if (65 <=? z) && (z <=? 90) then Some (z - 65)
   else if (97 <=? z) && (z <=? 122) then Some (z - 71)
   else if (48 <=? z) && (z <=? 57) then Some (z + 4)
   else if z =? 43 then Some 62
   else if z =? 47 then Some 63
   else None)%Z.

Fixpoint encode (data : Uint8Array) : Uint8Array :=
  match data with
  | a :: b :: c :: rest =>
      let n := (Z_of_byte a * 65536 + Z_of_byte b * 256 + Z_of_byte c)%Z in
      char_of (n / 262144) :: char_of (n / 4096 mod 64)
      :: char_of (n / 64 mod 64) :: char_of (n mod 64) :: encode rest
  | [a; b] =>
      let n := (Z_of_byte a * 65536 + Z_of_byte b * 256)%Z in
      [char_of (n / 262144); char_of (n / 4096 mod 64);
       char_of (n / 64 mod 64); pad]
  | [a] =>
      let n := (Z_of_byte a * 65536)%Z in
      [char_of (n / 262144); char_of (n / 4096 mod 64); pad; pad]
  | [] => []
  end.

Fixpoint decode (text : Uint8Array) : option Uint8Array :=
  match text with
  | [] => Some []
  | c0 :: c1 :: c2 :: c3 :: rest =>
      match value_of c0, value_of c1 with
      | Some v0, Some v1 =>
          if Byte.eqb c2 pad && Byte.eqb c3 pad then
            match rest with
            | [] => Some [byte_of_Z ((v0 * 64 + v1) / 16)]
            | _ => None
            end
          else
            match value_of c2 with
            | Some v2 =>
                if Byte.eqb c3 pad then
                  match rest with
                  | [] =>
                      let n := ((v0 * 64 + v1) * 64 + v2)%Z in
                      Some [byte_of_Z (n / 1024); byte_of_Z (n / 4)]
                  | _ => None
                  end
                else
                  match value_of c3, decode rest with
                  | Some v3, Some tail =>
                      let n := (((v0 * 64 + v1) * 64 + v2) * 64 + v3)%Z in
                      Some (byte_of_Z (n / 65536) :: byte_of_Z (n / 256)
                            :: byte_of_Z n :: tail)
                  | _, _ => None
                  end
            | None => None
            end
      | _, _ => None
      end
  | _ => None
  end.

End Base64.

Module Stub.

(** The state: the next free address and a counter for the generator. *)
Record X : Type := mkX {
  brk : Z;
  counter : Z
}.

Definition round8 (n : Z) : Z := (8 * ((Z.max n 1 + 7) / 8))%Z.

Definition library (limit : Z) : Library X := {|
  lib_malloc := fun size x =>
    if (brk x + round8 size <=? limit)%Z
    then (brk x, mkX (brk x + round8 size) (counter x))
    else (0%Z, x);
  lib_free := fun _ x => x;
  OpenSSL_version := fun _ => 0%Z;
  OPENSSL_init_crypto := fun x => (1%Z, x);
  OPENSSL_cleanup := fun x => x;
  RAND_bytes := fun len x =>
    ((1%Z, map (fun i => byte_of_Z (counter x + Z.of_nat i)) (seq 0 (Z.to_nat len))),
     mkX (brk x) (counter x + len));
  ERR_get_error := fun x => (0%Z, x);
  ERR_error_string_n := fun _ _ => [x00];
  EVP_MD_CTX_new := fun x => (1%Z, x);
  EVP_DigestInit_ex := fun _ _ x => (1%Z, x);
  EVP_DigestUpdate := fun _ _ x => (1%Z, x);
  EVP_DigestFinal_ex := fun _ x => ((1%Z, []), x);
  EVP_MD_CTX_free := fun _ x => x;
  BIO_base64_write := Base64.encode;
  BIO_base64_read := fun text _ =>
    match Base64.decode text with
    | Some data => (len_of data, data)
    | None => ((-1)%Z, [])
    end;
  BIO_read_detached := 0;
  error_string := 8
|}.

(** 256 bytes of memory; allocation starts at address 16. *)
Definition start : State (Guest X) :=
  mkState (mkWasm (zeros 256) (mkGuest (mkX 16 0) [])) true.

Definition instance : OpenSSLWasmInstance (Guest X) :=
  Glue.instance (library 256).

End Stub.

(** ** A stand-in instance

    A small instance to run the methods on, in the manner of the mock of the
    test suite: a bump allocator over a zeroed memory, procedures that
    report a fixed status, and a fixed diagnostic. *)

Module Mock.

Record Config : Type := {
  exhausted : bool;      (* the allocator returns 0 *)
  status : Z;            (* what the int-returning procedures report *)
  buffer : Z;            (* what the pointer-returning procedures report *)
  out_len : Z;           (* what [getValue] reads *)
  text : string;         (* what [UTF8ToString] reads *)
  diagnostic : string    (* what [get_error_string] returns *)
}.

(** The hidden state is the next free address. *)
Definition G : Type := Z.

Definition malloc (c : Config) (size : Z) (w : Wasm G) : Z * Wasm G :=
  if exhausted c then (0%Z, w)
  else (hidden w, mkWasm (HEAPU8 w) (hidden w + Z.max size 8)%Z).

Definition wrap (c : Config) (name : string) (ret : ctype)
    (argTypes : list ctype) (args : list Z) (w : Wasm G)
  : completion (js_of ret) * Wasm G :=
  match ret as r return completion (js_of r) * Wasm G with
  | number =>
      if (String.eqb name "base64_encode" || String.eqb name "base64_decode")%bool
      then (Return (buffer c), w)
      else (Return (status c), w)
  | cstring => (Return (diagnostic c), w)
  | void => (Return tt, w)
  end.

Definition instance (c : Config) : OpenSSLWasmInstance G := {|
  ccall := wrap c;
  cwrap := wrap c;
  getValue := fun _ _ _ => out_len c;
  setValue := fun _ _ _ w => w;
  UTF8ToString := fun _ _ => text c;
  stringToUTF8 := fun _ _ _ w => w;
  _malloc := malloc c;
  _free := fun _ w => w
|}.

(** Every procedure succeeds. *)
Definition working : Config := {|
  exhausted := false; status := 1; buffer := 200; out_len := 3;
  text := "bW9jaw=="; diagnostic := ""
|}.

(** Every procedure reports failure. *)
Definition failing : Config := {|
  exhausted := false; status := 0; buffer := 0; out_len := 0;
  text := ""; diagnostic := "error:12000079:random number generator"
|}.

(** The procedures succeed but the allocator has nothing left. *)
Definition out_of_memory : Config := {|
  exhausted := true; status := 1; buffer := 200; out_len := 3;
  text := "bW9jaw=="; diagnostic := ""
|}.

(** 256 bytes of memory, the first allocation at address 16. *)
Definition start : State G :=
  mkState (mkWasm (zeros 256) 16%Z) true.

End Mock.

(** ** A method up to the call of its procedure

    What a method has done to the instance when it calls its procedure, read
    off the instance itself: the allocator has been asked for the method's
    buffers, one after another, and the input has been put in the first.  *)

(** The allocator asked for blocks of the given sizes, in order: the
    addresses it returned and the instance it left. *)
Fixpoint allocate {G} (inst : OpenSSLWasmInstance G) (sizes : list Z)
    (w : Wasm G) : list Z * Wasm G :=
  match sizes with
  | [] => ([], w)
  | n :: rest =>
      let '(p, w1) := _malloc inst n w in
      let '(ps, w2) := allocate inst rest w1 in
      (p :: ps, w2)
  end.

(** The addresses the allocator returns for the buffers of a method. *)
Definition allocated {G} (inst : OpenSSLWasmInstance G) (op : Operation)
    (s : State G) : list Z :=
  fst (allocate inst (buffers op) (wasm s)).

(** The instance once the buffers are allocated. *)
Definition once_allocated {G} (inst : OpenSSLWasmInstance G) (op : Operation)
    (s : State G) : Wasm G :=
  snd (allocate inst (buffers op) (wasm s)).

(** The bytes a method copies to its first buffer with [HEAPU8.set]: the
    digests and [base64Encode] copy their input; [base64Decode] has its text
    written by [stringToUTF8] and [randomBytes] copies nothing. *)
Definition copied_input (op : Operation) : option Uint8Array :=
  match op with
  | Sha1 d | Sha256 d | Sha384 d | Sha512 d | Md5 d | Base64Encode d =>
      Some (inputData_of d)
  | RandomBytes _ | Base64Decode _ => None
  end.

(** The instance at the moment the method calls its procedure.  The copy of
    the input throws a [RangeError] when it does not fit in the memory, and
    the procedure is then not reached. *)
Definition at_entry {G} (inst : OpenSSLWasmInstance G) (op : Operation)
    (s : State G) : completion (Wasm G) :=
  let w := once_allocated inst op s in
  let dataPtr := nth 0 (allocated inst op s) 0%Z in
  match op with
  | Base64Decode data =>
      Return (stringToUTF8 inst data dataPtr
                (Z.of_nat (String.length data) + 1) w)
  | _ =>
      match copied_input op with
      | Some inputData =>
          match typed_set (HEAPU8 w) inputData dataPtr with
          | Return heap => Return (mkWasm heap (hidden w))
          | Throw e => Throw e
          end
      | None => Return w
      end
  end.

(** The pointer the procedure returns when the method calls it: a list of
    one address, or the empty list when the procedure is not reached or
    throws. *)
Definition returned_pointer {G} (inst : OpenSSLWasmInstance G) (op : Operation)
    (s : State G) : list Z :=
  match at_entry inst op s with
  | Return w =>
      let args := arguments op (allocated inst op s) in
      match cwrap inst (procedure op) number (map (fun _ => number) args) args w with
      | (Return r, _) => [r]
      | (Throw _, _) => []
      end
  | Throw _ => []
  end.

(** ** Further notions used to state properties of the methods *)

(** An outcome with the [initialized] field of its final state replaced. *)
Definition with_flag {G A} (b : bool) (o : Outcome G A) : Outcome G A :=
  mkOutcome (result o) (mkState (wasm (final o)) b) (events o).

(** The views of the memory a run took, and the strings it read from it. *)
Definition views (t : list Event) : list (Z * Z) :=
  flat_map (fun e => match e with HeapView p n => [(p, n)] | _ => [] end) t.

Definition strings_read (t : list Event) : list Z :=
  flat_map (fun e => match e with ReadString p => [p] | _ => [] end) t.

(** A stand-in whose [base64_decode] hands back a buffer and stores a
    negative length, as the C function does when [BIO_read] fails. *)
Definition read_failed : Mock.Config := {|
  Mock.exhausted := false; Mock.status := 1; Mock.buffer := 200;
  Mock.out_len := (-1)%Z; Mock.text := ""; Mock.diagnostic := ""
|}.

(** The bytes of a string read two characters at a time, each pair by
    [parseInt(pair, 16)] stored into a byte: what the loop of [fromHex]
    computes, one pair after another. *)
Fixpoint hex_pairs (s : string) : Uint8Array :=
  match s with
  | String a (String b r) =>
      ToUint8 (JsString.parseInt (String a (String b "")) 16%Z) :: hex_pairs r
  | _ => []
  end.

(** A letter [a-z] in upper case, any other character as it is. *)
Definition upper_case (c : ascii) : ascii :=
  let n := nat_of_ascii c in
  if ((97 <=? n) && (n <=? 122))%nat then ascii_of_nat (n - 32) else c.

Fixpoint string_map (f : ascii -> ascii) (s : string) : string :=
  match s with
  | EmptyString => EmptyString
  | String c r => String (f c) (string_map f r)
  end.

(** The digest methods of the class, their lengths and the names their
    failure messages carry, by the [EVP_MD] their procedures use. *)
Definition digest_method {G} (inst : OpenSSLWasmInstance G) (type : EVP_MD)
  : Data -> M G Uint8Array :=
  match type with
  | EVP_sha1 => sha1 inst
  | EVP_sha256 => sha256 inst
  | EVP_sha384 => sha384 inst
  | EVP_sha512 => sha512 inst
  | EVP_md5 => md5 inst
  end.

Definition digest_size (type : EVP_MD) : Z :=
  match type with
  | EVP_sha1 => 20
  | EVP_sha256 => 32
  | EVP_sha384 => 48
  | EVP_sha512 => 64
  | EVP_md5 => 16
  end%Z.

Definition digest_title (type : EVP_MD) : string :=
  match type with
  | EVP_sha1 => "SHA-1"
  | EVP_sha256 => "SHA-256"
  | EVP_sha384 => "SHA-384"
  | EVP_sha512 => "SHA-512"
  | EVP_md5 => "MD5"
  end.

(** *** A second library to run the module on

    Its generator fails; its error queue is part of the state, and every
    entry has the same text; its digest of an input is the sum of the bytes,
    repeated to the length of the algorithm.  The base64 filter and the
    allocator are those of [Stub]. *)

Module Sample.

Record X : Type := mkX {
  brk : Z;                   (* the next free address *)
  width : Z;                 (* the digest length of the context *)
  absorbed : Uint8Array;     (* the bytes the context was updated with *)
  pending : list Z           (* the error queue, earliest first *)
}.

Definition checksum (bs : Uint8Array) : byte :=
  byte_of_Z (fold_right (fun b acc => Z_of_byte b + acc)%Z 0%Z bs).

Definition reason : Uint8Array :=
  Eval vm_compute in
    map byte_of_ascii (list_ascii_of_string "error:1C8000A6:Provider routines").

Definition library (limit : Z) : Library X := {|
  lib_malloc := fun size x =>
    if (brk x + Stub.round8 size <=? limit)%Z
    then (brk x, mkX (brk x + Stub.round8 size) (width x) (absorbed x) (pending x))
    else (0%Z, x);
  lib_free := fun _ x => x;
  OpenSSL_version := fun _ => 0%Z;
  OPENSSL_init_crypto := fun x => (1%Z, x);
  OPENSSL_cleanup := fun x => x;
  RAND_bytes := fun _ x => ((0%Z, []), x);
  ERR_get_error := fun x =>
    match pending x with
    | [] => (0%Z, x)
    | err :: rest => (err, mkX (brk x) (width x) (absorbed x) rest)
    end;
  ERR_error_string_n := fun _ len =>
    firstn (Z.to_nat (len - 1)) reason ++ [x00];
  EVP_MD_CTX_new := fun x => (4%Z, mkX (brk x) 0 [] (pending x));
  EVP_DigestInit_ex := fun _ type x =>
    (1%Z, mkX (brk x) (digest_size type) [] (pending x));
  EVP_DigestUpdate := fun _ input x =>
    (1%Z, mkX (brk x) (width x) (absorbed x ++ input) (pending x));
  EVP_DigestFinal_ex := fun _ x =>
    ((1%Z, repeat (checksum (absorbed x)) (Z.to_nat (width x))), x);
  EVP_MD_CTX_free := fun _ x => x;
  BIO_base64_write := Base64.encode;
  BIO_base64_read := fun text _ =>
    match Base64.decode text with
    | Some data => (len_of data, data)
    | None => ((-1)%Z, [])
    end;
  BIO_read_detached := 0;
  error_string := 16
|}.

(** 1024 bytes of memory, the static buffer of [get_error_string] at 16,
    allocation from 512, and the given entries on the error queue. *)
Definition start (queue : list Z) : State (Guest X) :=
  mkState (mkWasm (zeros 1024) (mkGuest (mkX 512 0 [] queue) [])) true.

End Sample.

(** ** The context-managing functions of the C file

    [aes_encrypt_init] ... [aes_decrypt_final], [rsa_generate_key] and
    [hmac_init] ... [hmac_final] make an object of the library, set it up
    and hand it to the caller, or free it.  They touch no memory themselves:
    they pass integers and addresses to the library and look at what comes
    back.  The library is taken as given: a function of it, called by name
    on its arguments, returns an integer or an address and changes the state
    of the world outside the wrapper, the memory included.  What a function
    declared [void] returns is not looked at.  Every call is recorded with
    what it returned. *)

Module Handles.

Record LibCall : Type := mkCall {
  callee : string;
  actuals : list Z;
  returned : Z
}.

(** The objects a run obtained from the constructor [name] (the null
    pointer is no object), and the arguments it passed to the destructor
    [name]. *)
Definition created (name : string) (log : list LibCall) : list Z :=
  flat_map
    (fun c => if (String.eqb (callee c) name && negb (returned c =? 0)%Z)%bool
              then [returned c] else [])
    log.

Definition released (name : string) (log : list LibCall) : list Z :=
  flat_map (fun c => if String.eqb (callee c) name then actuals c else []) log.

Definition callees (log : list LibCall) : list string := map callee log.

Section C.

Variable X : Type.
Variable extern : string -> list Z -> X -> Z * X.

Record Ran (A : Type) : Type := mkRan {
  value : A;
  world : X;
  log : list LibCall
}.
Arguments mkRan {A} _ _ _.
Arguments value {A} _.
Arguments world {A} _.
Arguments log {A} _.

Definition C (A : Type) : Type := X -> Ran A.

Definition creturn {A} (a : A) : C A := fun x => mkRan a x [].

Definition cbind {A B} (c : C A) (k : A -> C B) : C B :=
  fun x =>
    match c x with
    | mkRan a x1 l1 =>
        match k a x1 with
        | mkRan b x2 l2 => mkRan b x2 (l1 ++ l2)
        end
    end.

Notation "x <- c ;; k" := (cbind c (fun x => k))
  (at level 61, c at next level, right associativity).
Notation "c ;;; k" := (cbind c (fun _ => k))
  (at level 61, right associativity).

Definition call (name : string) (args : list Z) : C Z :=
  fun x => let '(r, x1) := extern name args x in mkRan r x1 [mkCall name args r].

Definition NULL : Z := 0.
Definition RSA_F4 : Z := 65537.

(** The [switch (key_len)] of the two AES init functions: the function that
    gives the cipher, or the [default] branch. *)
Definition aes_cbc (key_len : Z) : option string :=
  if (key_len =? 16)%Z then Some "EVP_aes_128_cbc"
  else if (key_len =? 24)%Z then Some "EVP_aes_192_cbc"
  else if (key_len =? 32)%Z then Some "EVP_aes_256_cbc"
  else None.

Definition aes_encrypt_init (key key_len iv : Z) : C Z :=
  ctx <- call "EVP_CIPHER_CTX_new" [] ;;
  if (ctx =? 0)%Z then creturn NULL
  else
    match aes_cbc key_len with
    | None => call "EVP_CIPHER_CTX_free" [ctx] ;;; creturn NULL
    | Some EVP_aes_cbc =>
        cipher <- call EVP_aes_cbc [] ;;
        r <- call "EVP_EncryptInit_ex" [ctx; cipher; NULL; key; iv] ;;
        if negb (r =? 1)%Z
        then call "EVP_CIPHER_CTX_free" [ctx] ;;; creturn NULL
        else creturn ctx
    end.

Definition aes_encrypt_update (ctx in_ in_len out out_len : Z) : C Z :=
  call "EVP_EncryptUpdate" [ctx; out; out_len; in_; in_len].

Definition aes_encrypt_final (ctx out out_len : Z) : C Z :=
  ret <- call "EVP_EncryptFinal_ex" [ctx; out; out_len] ;;
  call "EVP_CIPHER_CTX_free" [ctx] ;;;
  creturn ret.

Definition aes_decrypt_init (key key_len iv : Z) : C Z :=
  ctx <- call "EVP_CIPHER_CTX_new" [] ;;
  if (ctx =? 0)%Z then creturn NULL
  else
    match aes_cbc key_len with
    | None => call "EVP_CIPHER_CTX_free" [ctx] ;;; creturn NULL
    | Some EVP_aes_cbc =>
        cipher <- call EVP_aes_cbc [] ;;
        r <- call "EVP_DecryptInit_ex" [ctx; cipher; NULL; key; iv] ;;
        if negb (r =? 1)%Z
        then call "EVP_CIPHER_CTX_free" [ctx] ;;; creturn NULL
        else creturn ctx
    end.

Definition aes_decrypt_update (ctx in_ in_len out out_len : Z) : C Z :=
  call "EVP_DecryptUpdate" [ctx; out; out_len; in_; in_len].

Definition aes_decrypt_final (ctx out out_len : Z) : C Z :=
  ret <- call "EVP_DecryptFinal_ex" [ctx; out; out_len] ;;
  call "EVP_CIPHER_CTX_free" [ctx] ;;;
  creturn ret.

Definition rsa_generate_key (bits : Z) : C Z :=
  bn <- call "BN_new" [] ;;
  if (bn =? 0)%Z then creturn NULL
  else
    r1 <- call "BN_set_word" [bn; RSA_F4] ;;
    if negb (r1 =? 1)%Z
    then call "BN_free" [bn] ;;; creturn NULL
    else
      rsa <- call "RSA_new" [] ;;
      if (rsa =? 0)%Z
      then call "BN_free" [bn] ;;; creturn NULL
      else
        r2 <- call "RSA_generate_key_ex" [rsa; bits; bn; NULL] ;;
        if negb (r2 =? 1)%Z
        then call "RSA_free" [rsa] ;;; call "BN_free" [bn] ;;; creturn NULL
        else call "BN_free" [bn] ;;; creturn rsa.

Definition hmac_init (key key_len md : Z) : C Z :=
  ctx <- call "HMAC_CTX_new" [] ;;
  if (ctx =? 0)%Z then creturn NULL
  else
    r <- call "HMAC_Init_ex" [ctx; key; key_len; md; NULL] ;;
    if negb (r =? 1)%Z
    then call "HMAC_CTX_free" [ctx] ;;; creturn NULL
    else creturn ctx.

Definition hmac_update (ctx data len : Z) : C Z :=
  call "HMAC_Update" [ctx; data; len].

Definition hmac_final (ctx md len : Z) : C Z :=
  ret <- call "HMAC_Final" [ctx; md; len] ;;
  call "HMAC_CTX_free" [ctx] ;;;
  creturn ret.

End C.

Arguments value {X A} _.
Arguments world {X A} _.
Arguments log {X A} _.

End Handles.
Example toHex_test : toHex [x01; x02; x03; x04] = "01020304".
Proof. reflexivity. Qed.

Example fromHex_test : fromHex "01020304" = Return [x01; x02; x03; x04].
Proof. reflexivity. Qed.

Example fromHex_doc : fromHex "48656c6c6f" = Return [x48; x65; x6c; x6c; x6f].
Proof. reflexivity. Qed.

Example fromHex_odd :
  fromHex "abc" = Throw (Error "Hex string must have an even number of characters").
Proof. reflexivity. Qed.


(** * Properties *)

(** ** Hexadecimal conversion *)

Section HexFacts.

Lemma hex_of_byte_length (b : byte) : String.length (hex_of_byte b) = 2%nat.
Proof. destruct b; vm_compute; reflexivity. Qed.

Lemma hex_of_byte_lower (b : byte) :
  string_forallb is_lower_hex (hex_of_byte b) = true.
Proof. destruct b; vm_compute; reflexivity. Qed.

Lemma parseInt_hex_of_byte (b : byte) :
  ToUint8 (JsString.parseInt (hex_of_byte b) 16) = b.
Proof. destruct b; vm_compute; reflexivity. Qed.

Lemma string_append_nil_r (s : string) : (s ++ "")%string = s.
Proof. induction s; simpl; congruence. Qed.

Lemma string_length_append (a b : string) :
  String.length (a ++ b) = (String.length a + String.length b)%nat.
Proof. induction a; simpl; congruence. Qed.

Lemma string_forallb_append p (a b : string) :
  string_forallb p (a ++ b) = string_forallb p a && string_forallb p b.
Proof.
  induction a as [|c a IH]; simpl; [reflexivity|].
  now rewrite IH, andb_assoc.
Qed.

Lemma toHex_cons (b : byte) (l : Uint8Array) :
  toHex (b :: l) = (hex_of_byte b ++ toHex l)%string.
Proof.
  unfold toHex, JsString.join. cbn [map String.concat].
  fold (hex_of_byte b).
  destruct l as [|b' l]; cbn [map].
  - now rewrite string_append_nil_r.
  - reflexivity.
Qed.

Lemma toHex_app (a l : Uint8Array) :
  toHex (a ++ l) = (toHex a ++ toHex l)%string.
Proof.
  induction a as [|x a IH]; [reflexivity|].
  rewrite <- app_comm_cons, !toHex_cons, IH.
  clear. induction (hex_of_byte x); simpl; congruence.
Qed.

Lemma toHex_length (l : Uint8Array) :
  String.length (toHex l) = (2 * List.length l)%nat.
Proof.
  induction l as [|b l IH]; [reflexivity|].
  rewrite toHex_cons, string_length_append, hex_of_byte_length, IH.
  simpl; lia.
Qed.

Lemma toHex_lower (l : Uint8Array) :
  string_forallb is_lower_hex (toHex l) = true.
Proof.
  induction l as [|b l IH]; [reflexivity|].
  now rewrite toHex_cons, string_forallb_append, hex_of_byte_lower, IH.
Qed.

Lemma substring_skip (a s : string) (n : nat) :
  String.substring (String.length a) n (a ++ s) = String.substring 0 n s.
Proof. induction a; simpl; auto. Qed.

Lemma substring_prefix (a s : string) :
  String.substring 0 (String.length a) (a ++ s) = a.
Proof.
  induction a as [|c a IH]; simpl.
  - now destruct s.
  - now rewrite IH.
Qed.

(** The two characters the loop reads at index [2k] of [toHex]'s output
    are those of byte [k]. *)
Lemma substring_toHex (pre : Uint8Array) (b : byte) (rest : Uint8Array) :
  JsString.substring (toHex (pre ++ b :: rest))
    (2 * List.length pre) (2 * List.length pre + 2) = hex_of_byte b.
Proof.
  unfold JsString.substring.
  rewrite toHex_length, length_app. cbn [List.length].
  replace (Nat.min (2 * List.length pre) (2 * (List.length pre + S (List.length rest))))
    with (2 * List.length pre)%nat by lia.
  replace (Nat.min (2 * List.length pre + 2) (2 * (List.length pre + S (List.length rest))))
    with (2 * List.length pre + 2)%nat by lia.
  replace (Nat.min (2 * List.length pre) (2 * List.length pre + 2))
    with (2 * List.length pre)%nat by lia.
  replace (Nat.max (2 * List.length pre) (2 * List.length pre + 2) - 2 * List.length pre)%nat
    with 2%nat by lia.
  rewrite toHex_app, toHex_cons, <- toHex_length, substring_skip.
  rewrite <- (hex_of_byte_length b). apply substring_prefix.
Qed.

Lemma array_store_middle (pre : Uint8Array) (x v : byte) (rest : Uint8Array) :
  array_store (pre ++ x :: rest) (List.length pre) v = pre ++ v :: rest.
Proof. induction pre; simpl; congruence. Qed.

(** The loop, started at byte [k] with the first [k] bytes already
    stored, fills in the remaining ones. *)
Lemma fromHex_loop_toHex (rest pre : Uint8Array) (fuel : nat) :
  (List.length rest <= fuel)%nat ->
  fromHex_loop fuel (toHex (pre ++ rest)) (2 * List.length pre)
    (pre ++ zeros (List.length rest)) = pre ++ rest.
Proof.
  revert pre fuel.
  induction rest as [|b rest IH]; intros pre fuel Hfuel.
  - rewrite app_nil_r. destruct fuel; simpl; [now rewrite app_nil_r|].
    rewrite toHex_length, Nat.ltb_irrefl. now rewrite app_nil_r.
  - destruct fuel as [|fuel]; [simpl in Hfuel; lia|].
    cbn [fromHex_loop].
    replace (2 * List.length pre <? String.length (toHex (pre ++ b :: rest)))%nat
      with true
      by (symmetry; apply Nat.ltb_lt; rewrite toHex_length, length_app; simpl; lia).
    rewrite substring_toHex, parseInt_hex_of_byte.
    replace (2 * List.length pre / 2)%nat with (List.length pre)
      by (rewrite Nat.mul_comm, Nat.div_mul; lia).
    cbn [List.length zeros repeat]. fold (zeros (List.length rest)).
    rewrite array_store_middle.
    replace (pre ++ b :: rest) with ((pre ++ [b]) ++ rest)
      by (now rewrite <- app_assoc).
    replace (pre ++ b :: zeros (List.length rest))
      with ((pre ++ [b]) ++ zeros (List.length rest))
      by (now rewrite <- app_assoc).
    replace (2 * List.length pre + 2)%nat with (2 * List.length (pre ++ [b]))%nat
      by (rewrite length_app; simpl; lia).
    apply IH. simpl in Hfuel. lia.
Qed.

(** The loop leaves by its own test: fuel beyond half the remaining length
    is never used, so [fromHex] runs the loop to its end. *)
Lemma fromHex_loop_fuel (hex : string) (fuel extra i : nat) (bytes : Uint8Array) :
  (String.length hex - i <= 2 * fuel)%nat ->
  fromHex_loop (fuel + extra) hex i bytes = fromHex_loop fuel hex i bytes.
Proof.
  revert i bytes. induction fuel as [|fuel IH]; intros i bytes Hfuel.
  - destruct extra; [reflexivity|]. cbn [Nat.add fromHex_loop].
    replace (i <? String.length hex)%nat with false
      by (symmetry; apply Nat.ltb_ge; lia).
    reflexivity.
  - cbn [Nat.add fromHex_loop].
    destruct (i <? String.length hex)%nat eqn:E; [|reflexivity].
    apply IH. lia.
Qed.

End HexFacts.

(** C5: decoding the hexadecimal text of a byte sequence gives the sequence
    back, and that text has two characters per byte, each one of
    [0-9a-f]. *)
Theorem hex_round_trip (b : Uint8Array) :
  fromHex (toHex b) = Return b
  /\ String.length (toHex b) = (2 * List.length b)%nat
  /\ string_forallb is_lower_hex (toHex b) = true.
Proof.
  split; [|split].
  - unfold fromHex. rewrite toHex_length.
    replace (2 * List.length b mod 2)%nat with 0%nat
      by (symmetry; rewrite Nat.mul_comm; apply Nat.Div0.mod_mul).
    cbn [Nat.eqb negb].
    replace (2 * List.length b / 2)%nat with (List.length b)
      by (rewrite Nat.mul_comm, Nat.div_mul; lia).
    f_equal.
    apply (fromHex_loop_toHex b [] (2 * List.length b)). lia.
  - apply toHex_length.
  - apply toHex_lower.
Qed.

(** C8, at the failing input: a well-formed (even-length) string that holds
    no hexadecimal digit is turned into a zero byte, and a pair whose second
    character is not a digit into the value of the first; no failure is
    signalled. *)
Theorem fromHex_malformed_is_silent :
  fromHex "zz" = Return [x00]
  /\ fromHex "1g" = Return [x01]
  /\ fromHex "12zz34" = Return [x12; x00; x34].
Proof. repeat split; reflexivity. Qed.

(** ** The binding layer, for any instance *)

Ltac unfold_methods :=
  unfold trace_of, ending_of, randomBytes, sha1, sha256, sha384, sha512, md5,
    base64Encode, base64Decode, cleanup, constructor,
    _random_bytes, _sha1_digest, _sha256_digest, _sha384_digest,
    _sha512_digest, _md5_digest, _base64_encode, _base64_decode,
    _get_error_string, _openssl_cleanup, _openssl_init,
    try_finally, bind, ret, throw, lift, malloc, free, wrapped,
    HEAPU8_set, HEAPU8_view, readString, writeString, readValue,
    get_initialized, set_initialized.

Ltac simpl_run := cbn -[Z.add Z.of_nat String.length List.length].

(** One step of a method body: name the outcome of the next thing the body
    depends on. *)
Ltac step :=
  match goal with
  | |- context [ _malloc ?i ?n ?w ] =>
      let p := fresh "p" in let w' := fresh "w" in let E := fresh "Ealloc" in
      destruct (_malloc i n w) as [p w'] eqn:E
  | |- context [ cwrap ?i ?n ?r ?t ?a ?w ] =>
      let c := fresh "c" in let w' := fresh "w" in let E := fresh "Ecall" in
      destruct (cwrap i n r t a w) as [c w'] eqn:E; destruct c
  | |- context [ typed_set ?a ?b ?c ] =>
      let E := fresh "Eset" in destruct (typed_set a b c) eqn:E
  | |- context [ view_Uint8Array ?a ?b ?c ] =>
      let E := fresh "Eview" in destruct (view_Uint8Array a b c) eqn:E
  | |- context [ new_Uint8Array ?a ] =>
      let E := fresh "Enew" in destruct (new_Uint8Array a) eqn:E
  | |- context [ (?a =? ?b)%Z ] =>
      let E := fresh "Etest" in destruct (a =? b)%Z eqn:E
  end; simpl_run.

Ltac run := unfold_methods; simpl_run; repeat step.

Section TypedArrayFacts.

Lemma new_Uint8Array_length (n : Z) (a : Uint8Array) :
  new_Uint8Array n = Return a -> Z.of_nat (List.length a) = n.
Proof.
  unfold new_Uint8Array. destruct (n <? 0)%Z eqn:E; [discriminate|].
  intros [= <-]. unfold zeros. rewrite repeat_length. lia.
Qed.

Lemma view_Uint8Array_length (heap : Uint8Array) (p n : Z) (a : Uint8Array) :
  view_Uint8Array heap p n = Return a -> Z.of_nat (List.length a) = n.
Proof.
  unfold view_Uint8Array.
  destruct ((p <? 0) || (n <? 0) || (Z.of_nat (List.length heap) <? p + n))%Z eqn:E;
    [discriminate|].
  apply orb_false_iff in E as [E E3]. apply orb_false_iff in E as [E1 E2].
  intros [= <-]. unfold slice. rewrite length_firstn, length_skipn. lia.
Qed.

Lemma view_Uint8Array_in_range (heap : Uint8Array) (p n : Z) :
  (0 <= p)%Z -> (0 <= n)%Z -> (p + n <= Z.of_nat (List.length heap))%Z ->
  view_Uint8Array heap p n = Return (slice heap p n).
Proof.
  intros. unfold view_Uint8Array.
  replace ((p <? 0) || (n <? 0) || (Z.of_nat (List.length heap) <? p + n))%Z
    with false; [reflexivity|].
  symmetry. rewrite !orb_false_iff. repeat split; lia.
Qed.

(** [output.set(view)] on a fresh array of the view's length gives the
    view's bytes. *)
Lemma typed_set_whole (output v : Uint8Array) :
  List.length output = List.length v ->
  typed_set output v 0 = Return v.
Proof.
  intros H. unfold typed_set.
  replace ((0 <? 0) || (Z.of_nat (List.length output) <? 0 + Z.of_nat (List.length v)))%Z
    with false by (symmetry; rewrite orb_false_iff; split; lia).
  unfold poke. cbn [Z.to_nat firstn Nat.add app].
  rewrite <- H, skipn_all. now rewrite app_nil_r.
Qed.

Lemma typed_set_length (target source : Uint8Array) (off : Z) (a : Uint8Array) :
  typed_set target source off = Return a -> List.length a = List.length target.
Proof.
  unfold typed_set.
  destruct ((off <? 0) || (Z.of_nat (List.length target) <? off + Z.of_nat (List.length source)))%Z eqn:E;
    [discriminate|].
  apply orb_false_iff in E as [E1 E2].
  intros [= <-]. unfold poke. rewrite !length_app, length_firstn, length_skipn. lia.
Qed.

(** The three steps that end a method returning [len] bytes read at
    [ptr]. *)
Lemma copy_out_length (heap : Uint8Array) (ptr len : Z) (output v out : Uint8Array) :
  new_Uint8Array len = Return output ->
  view_Uint8Array heap ptr len = Return v ->
  typed_set output v 0 = Return out ->
  Z.of_nat (List.length out) = len.
Proof.
  intros Hn Hv Hs. apply typed_set_length in Hs. rewrite Hs.
  now apply new_Uint8Array_length.
Qed.

End TypedArrayFacts.

Lemma typed_set_throw (target source : Uint8Array) (off : Z) (e : exn) :
  typed_set target source off = Throw e -> e = RangeError.
Proof.
  unfold typed_set. destruct (_ || _)%bool; congruence.
Qed.

(** A copy that throws is one that does not fit in the memory. *)
Lemma typed_set_throw_bounds (target source : Uint8Array) (off : Z) (e : exn) :
  typed_set target source off = Throw e ->
  e = RangeError /\ in_bounds target off (len_of source) = false.
Proof.
  unfold typed_set, in_bounds, len_of.
  destruct ((off <? 0) || (Z.of_nat (List.length target) <? off + Z.of_nat (List.length source)))%Z
    eqn:E; [|discriminate].
  intros [= <-]. split; [reflexivity|].
  apply orb_true_iff in E. rewrite !Z.ltb_lt in E.
  rewrite !andb_false_iff, !Z.leb_gt. lia.
Qed.

Ltac unfold_entry :=
  unfold returned_pointer, at_entry, allocated, once_allocated, copied_input,
    hands_back_buffer, procedure, arguments, buffers;
  cbn [allocate].

(** *** Release of the buffers *)

(** C1, as worded, fails on a successful [base64Encode]: two addresses come
    from the allocator and three are given back. *)
Lemma base64Encode_frees_a_third_buffer :
  let t := trace_of (Mock.instance Mock.working) (Base64Encode (Text "abc"))
             Mock.start in
  mallocs t = [16; 24]%Z
  /\ frees t = [200; 16; 24]%Z
  /\ List.length (frees t) <> List.length (mallocs t).
Proof. vm_compute. repeat split; discriminate. Qed.

(** C1, amended: on every exit path of every allocating method, the
    allocations are those made before the [try] block, the addresses are
    the ones the allocator returned for them, and each is given back once,
    in the order of allocation.  When [base64Encode] or [base64Decode]
    returns a value, one more address is given back, before the others: the
    pointer its procedure returned, which is not null.  On every other path
    nothing else is given back. *)
Theorem buffers_released {G} (inst : OpenSSLWasmInstance G) (s : State G)
    (op : Operation) :
  let t := trace_of inst op s in
  let returns := negb (is_throw (ending_of inst op s)) in
  requested t = buffers op
  /\ mallocs t = allocated inst op s
  /\ frees t
     = (if hands_back_buffer op && returns then returned_pointer inst op s
        else []) ++ mallocs t
  /\ (if hands_back_buffer op && returns
      then exists r, returned_pointer inst op s = [r] /\ r <> 0%Z
      else True).
Proof.
  destruct op; unfold_entry; run;
    repeat split; try reflexivity; try exact I;
    eexists; (split; [reflexivity|]); now apply Z.eqb_neq.
Qed.

(** *** The allocator's sentinel *)

(** C3, as worded, fails: with an allocator that returns 0, [sha256] enters
    its procedure on the null addresses and returns a value. *)
Lemma null_buffers_are_used :
  ~ refuses_null (Mock.instance Mock.out_of_memory) (Sha256 (Text "abc"))
      Mock.start.
Proof.
  unfold refuses_null. vm_compute. intros H.
  destruct H as [H _]; [now left|]. apply H. now left.
Qed.

(** C3, amended: no method compares what the allocator returned with the
    sentinel.  Whatever the addresses are, zero included, the method goes on
    with them: the digests and [base64Encode] copy the input to the first
    address, and unless that copy does not fit in the memory, every method
    enters its procedure with exactly the addresses the allocator returned.
    Only when the copy does not fit does the method end without entering a
    procedure, in the [RangeError] of the copy, not in a failure of its
    own.  Either way every address the allocator returned is passed to
    [_free]. *)
Theorem allocator_result_is_not_inspected {G} (inst : OpenSSLWasmInstance G)
    (s : State G) (op : Operation) :
  let t := trace_of inst op s in
  let ptrs := allocated inst op s in
  mallocs t = ptrs
  /\ match at_entry inst op s with
     | Return _ => In (Call (procedure op) (arguments op ptrs)) t
     | Throw e =>
         e = RangeError
         /\ ending_of inst op s = Throw RangeError
         /\ calls t = []
         /\ exists inputData,
              copied_input op = Some inputData
              /\ in_bounds (HEAPU8 (once_allocated inst op s)) (nth 0 ptrs 0%Z)
                   (len_of inputData) = false
     end
  /\ incl ptrs (frees t).
Proof.
  destruct op; unfold_entry; run; cbn;
    try match goal with
        | H : typed_set _ _ _ = Throw ?e |- _ =>
            apply typed_set_throw_bounds in H; destruct H as [-> ?]
        end;
    repeat split; try reflexivity; try tauto;
    try (eexists; split; [reflexivity | assumption]);
    try (unfold incl; cbn [In]; tauto).
Qed.

(** *** Digest lengths *)

Ltac digest_length :=
  let out := fresh "out" in
  let Hout := fresh "Hout" in
  run; intros out Hout; try discriminate;
  injection Hout as <-;
  match goal with
  | H : typed_set _ _ 0%Z = Return _ |- _ =>
      apply typed_set_length in H; rewrite H; reflexivity
  end.

Ltac digest_success :=
  let q := fresh "q" in
  let w' := fresh "w'" in
  intros q w' (p & w1 & w2 & heap & Ha1 & Ha2 & Hset & Hcall) (Hq & _ & Hfit);
  unfold len_of in Hfit;
  unfold_methods; simpl_run;
  rewrite Ha1; simpl_run; rewrite Ha2; simpl_run;
  rewrite Hset; simpl_run; rewrite Hcall; simpl_run;
  rewrite view_Uint8Array_in_range by lia; simpl_run;
  rewrite typed_set_whole;
  [ reflexivity
  | unfold slice; rewrite length_firstn, length_skipn, repeat_length;
    match goal with
    | |- context [Pos.to_nat ?x] =>
        let n := fresh "n" in
        set (n := Pos.to_nat x) in *;
        assert (Z.of_nat n = Z.pos x) by reflexivity
    end; lia ].

(** C4: whatever the input, bytes or text, empty or not, a digest method
    that returns a value returns exactly 16 ([md5]), 20 ([sha1]), 32
    ([sha256]), 48 ([sha384]) or 64 ([sha512]) bytes; and it does return,
    with the bytes of the digest buffer, whenever its procedure reports 1
    and that buffer lies in the memory. *)
Theorem digest_output_length {G} (inst : OpenSSLWasmInstance G) (s : State G)
    (data : Data) :
  (forall out, result (md5 inst data s) = Return out -> List.length out = 16%nat)
  /\ (forall out, result (sha1 inst data s) = Return out -> List.length out = 20%nat)
  /\ (forall out, result (sha256 inst data s) = Return out -> List.length out = 32%nat)
  /\ (forall out, result (sha384 inst data s) = Return out -> List.length out = 48%nat)
  /\ (forall out, result (sha512 inst data s) = Return out -> List.length out = 64%nat)
  /\ (forall q w', digest_reports inst "md5_digest" 16 data s 1 q w' ->
        in_memory w' q 16 ->
        result (md5 inst data s) = Return (slice (HEAPU8 w') q 16))
  /\ (forall q w', digest_reports inst "sha1_digest" 20 data s 1 q w' ->
        in_memory w' q 20 ->
        result (sha1 inst data s) = Return (slice (HEAPU8 w') q 20))
  /\ (forall q w', digest_reports inst "sha256_digest" 32 data s 1 q w' ->
        in_memory w' q 32 ->
        result (sha256 inst data s) = Return (slice (HEAPU8 w') q 32))
  /\ (forall q w', digest_reports inst "sha384_digest" 48 data s 1 q w' ->
        in_memory w' q 48 ->
        result (sha384 inst data s) = Return (slice (HEAPU8 w') q 48))
  /\ (forall q w', digest_reports inst "sha512_digest" 64 data s 1 q w' ->
        in_memory w' q 64 ->
        result (sha512 inst data s) = Return (slice (HEAPU8 w') q 64)).
Proof.
  repeat split; first [ digest_length | digest_success ].
Qed.

(** [sha256] of the empty input on the stand-in instance: 32 bytes. *)
Lemma digest_output_length_witness :
  let inst := Mock.instance Mock.working in
  let w' := mkWasm (zeros 256) 56%Z in
  digest_reports inst "sha256_digest" 32 (Bytes []) Mock.start 1 24 w'
  /\ in_memory w' 24 32
  /\ result (sha256 inst (Bytes []) Mock.start) = Return (slice (HEAPU8 w') 24 32)
  /\ List.length (slice (HEAPU8 w') 24 32) = 32%nat.
Proof.
  intros inst w'.
  assert (Hrep : digest_reports inst "sha256_digest" 32 (Bytes []) Mock.start 1 24 w').
  { exists 16%Z, (mkWasm (zeros 256) 24%Z), (mkWasm (zeros 256) 56%Z), (zeros 256).
    repeat split; reflexivity. }
  assert (Hmem : in_memory w' 24 32).
  { unfold in_memory, len_of. cbn. lia. }
  destruct (digest_output_length inst Mock.start (Bytes []))
    as (_ & _ & Hlen & _ & _ & _ & _ & Hok & _).
  split; [exact Hrep|]. split; [exact Hmem|]. split.
  - apply Hok; assumption.
  - apply Hlen. apply Hok; assumption.
Defined.

(** *** Random bytes *)

(** C7: [randomBytes(n)], entered with the allocator returning [p] and the
    generator procedure then reporting [st], returns only sequences of
    exactly [n] bytes; when [st] is not 1 it returns nothing and throws, and
    the error carries the string [get_error_string] gives at that moment;
    when [st] is 1 and the [n] bytes at [p] lie in the memory, it returns
    those bytes. *)
Theorem randomBytes_contract {G} (inst : OpenSSLWasmInstance G) (s : State G)
    (n p st : Z) (w1 w2 : Wasm G)
    (Halloc : _malloc inst n (wasm s) = (p, w1))
    (Hcall : cwrap inst "random_bytes" number [number; number] [p; n] w1
             = (Return st, w2)) :
  (forall out, result (randomBytes inst n s) = Return out ->
     Z.of_nat (List.length out) = n /\ st = 1%Z)
  /\ (st <> 1%Z -> is_throw (result (randomBytes inst n s)) = true)
  /\ (st <> 1%Z ->
      forall msg w3,
        cwrap inst "get_error_string" cstring [] [] w2 = (Return msg, w3) ->
        result (randomBytes inst n s)
        = Throw (Error ("Failed to generate random bytes: " ++ msg)%string))
  /\ (st = 1%Z -> in_memory w2 p n ->
      result (randomBytes inst n s) = Return (slice (HEAPU8 w2) p n)).
Proof.
  repeat split.
  - revert H. unfold_methods; simpl_run.
    rewrite Halloc; simpl_run. rewrite Hcall; simpl_run.
    repeat step; try discriminate.
    intros [= <-].
    eapply copy_out_length; eassumption.
  - revert H. unfold_methods; simpl_run.
    rewrite Halloc; simpl_run. rewrite Hcall; simpl_run.
    repeat step; try discriminate. intros _. now apply Z.eqb_eq.
  - intros Hst. unfold_methods; simpl_run.
    rewrite Halloc; simpl_run. rewrite Hcall; simpl_run.
    apply Z.eqb_neq in Hst. rewrite Hst; simpl_run.
    repeat step; reflexivity.
  - intros Hst msg w3 Herr. unfold_methods; simpl_run.
    rewrite Halloc; simpl_run. rewrite Hcall; simpl_run.
    apply Z.eqb_neq in Hst. rewrite Hst; simpl_run.
    rewrite Herr; simpl_run. reflexivity.
  - intros -> (Hp & Hn & Hfit). unfold len_of in Hfit.
    unfold_methods; simpl_run.
    rewrite Halloc; simpl_run. rewrite Hcall; simpl_run.
    unfold new_Uint8Array. replace (n <? 0)%Z with false by (symmetry; apply Z.ltb_ge; lia).
    simpl_run.
    rewrite view_Uint8Array_in_range by lia; simpl_run.
    rewrite typed_set_whole; [reflexivity|].
    unfold slice, zeros. rewrite length_firstn, length_skipn, repeat_length. lia.
Qed.

(** [randomBytes(4)] on a generator that fails, and on one that works. *)
Lemma randomBytes_contract_witness :
  let bad := Mock.instance Mock.failing in
  let good := Mock.instance Mock.working in
  let w := mkWasm (zeros 256) 24%Z in
  (_malloc bad 4 (wasm Mock.start) = (16%Z, w)
   /\ cwrap bad "random_bytes" number [number; number] [16; 4]%Z w = (Return 0%Z, w)
   /\ 0%Z <> 1%Z
   /\ result (randomBytes bad 4 Mock.start)
      = Throw (Error "Failed to generate random bytes: error:12000079:random number generator"))
  /\ (_malloc good 4 (wasm Mock.start) = (16%Z, w)
      /\ cwrap good "random_bytes" number [number; number] [16; 4]%Z w = (Return 1%Z, w)
      /\ in_memory w 16 4
      /\ result (randomBytes good 4 Mock.start) = Return (slice (HEAPU8 w) 16 4)
      /\ Z.of_nat (List.length (slice (HEAPU8 w) 16 4)) = 4%Z).
Proof.
  intros bad good w.
  assert (Hne : 0%Z <> 1%Z) by discriminate.
  assert (Hmem : in_memory w 16 4) by (unfold in_memory, len_of; cbn; lia).
  destruct (randomBytes_contract bad Mock.start 4 16 0 w w eq_refl eq_refl)
    as (_ & _ & Hfail & _).
  destruct (randomBytes_contract good Mock.start 4 16 1 w w eq_refl eq_refl)
    as (Hlen & _ & _ & Hok).
  split.
  - split; [reflexivity|]. split; [reflexivity|]. split; [exact Hne|].
    apply (Hfail Hne _ w). reflexivity.
  - split; [reflexivity|]. split; [reflexivity|]. split; [exact Hmem|].
    split.
    + exact (Hok eq_refl Hmem).
    + exact (proj1 (Hlen _ (Hok eq_refl Hmem))).
Defined.

(** *** Cleanup *)

(** C10: on a handle whose flag is set, [cleanup] enters [openssl_cleanup]
    once and, that call returning, clears the flag; on a handle whose flag
    is clear it enters nothing and changes nothing.  So a second [cleanup]
    after a first is without effect. *)
Theorem cleanup_idempotent {G} (inst : OpenSSLWasmInstance G) (s : State G) :
  let first := cleanup inst s in
  let second := cleanup inst (final first) in
  (initialized s = true ->
     events first = [Call "openssl_cleanup" []]
     /\ (result first = Return tt -> initialized (final first) = false))
  /\ (initialized s = false -> first = mkOutcome (Return tt) s [])
  /\ (result first = Return tt ->
      second = mkOutcome (Return tt) (final first) []).
Proof.
  destruct s as [w b]. unfold_methods; simpl_run.
  split; [|split].
  - intros ->. simpl_run. repeat step; (split; [reflexivity|]);
      intros; try discriminate; reflexivity.
  - intros ->. reflexivity.
  - destruct b; simpl_run; [|reflexivity].
    repeat step; intros; try discriminate; reflexivity.
Qed.

(** Two calls of [cleanup] on an initialized handle. *)
Lemma cleanup_idempotent_witness :
  let inst := Mock.instance Mock.working in
  let first := cleanup inst Mock.start in
  initialized Mock.start = true
  /\ result first = Return tt
  /\ events first = [Call "openssl_cleanup" []]
  /\ initialized (final first) = false
  /\ cleanup inst (final first) = mkOutcome (Return tt) (final first) [].
Proof.
  intros inst first.
  destruct (cleanup_idempotent inst Mock.start) as (H1 & _ & H3).
  destruct (H1 eq_refl) as (He & Hf).
  split; [reflexivity|]. split; [reflexivity|]. split; [exact He|].
  split; [exact (Hf eq_refl) | exact (H3 eq_refl)].
Defined.

(** The constructor sets the flag exactly when [openssl_init] returns 1. *)
Lemma constructor_initializes {G} (inst : OpenSSLWasmInstance G) (s : State G) :
  result (constructor inst s) = Return tt ->
  initialized (final (constructor inst s)) = true.
Proof.
  run; intros; try discriminate; reflexivity.
Qed.

(** *** The public surface *)

(** C2, at the failing input: a handle has the twelve members the class
    declares; of the documented surface, the AES and RSA operations are the
    ones that are not among them, and a call of any of them is a
    [TypeError]. *)
Theorem aes_and_rsa_members_missing :
  map fst OpenSSL_prototype
  = ["version"; "cleanup"; "randomBytes"; "sha1"; "sha256"; "sha384";
     "sha512"; "md5"; "base64Encode"; "base64Decode"; "toHex"; "fromHex"]
  /\ filter (fun name => is_throw (call_member name)) documented_surface
     = ["aesEncrypt"; "aesDecrypt"; "generateRsaKeyPair"; "rsaEncrypt";
        "rsaDecrypt"; "rsaSign"; "rsaVerify"]
  /\ call_member "aesEncrypt" = Throw TypeError
  /\ call_member "rsaSign" = Throw TypeError.
Proof.
  split; [reflexivity|]. split; [reflexivity|]. split; reflexivity.
Qed.

(** ** Memory of the module *)

Section MemoryFacts.

Lemma in_bounds_iff (heap : Uint8Array) (p n : Z) :
  in_bounds heap p n = true <-> (0 <= p /\ 0 <= n /\ p + n <= len_of heap)%Z.
Proof.
  unfold in_bounds. rewrite !andb_true_iff, !Z.leb_le. tauto.
Qed.

Lemma slice_length (heap : Uint8Array) (p n : Z) :
  (0 <= p)%Z -> (0 <= n)%Z -> (p + n <= len_of heap)%Z ->
  List.length (slice heap p n) = Z.to_nat n.
Proof.
  intros. unfold slice, len_of in *. rewrite length_firstn, length_skipn. lia.
Qed.

Lemma poke_length (heap : Uint8Array) (p : Z) (bs : Uint8Array) :
  (0 <= p)%Z -> (p + len_of bs <= len_of heap)%Z ->
  List.length (poke heap p bs) = List.length heap.
Proof.
  intros. unfold poke, len_of in *.
  rewrite !length_app, length_firstn, length_skipn. lia.
Qed.

Lemma nth_slice (heap : Uint8Array) (p n : Z) (i : nat) (d : byte) :
  (0 <= p)%Z -> (i < Z.to_nat n)%nat ->
  nth i (slice heap p n) d = nth (Z.to_nat p + i) heap d.
Proof.
  intros. unfold slice.
  rewrite nth_firstn. replace (i <? Z.to_nat n)%nat with true
    by (symmetry; apply Nat.ltb_lt; lia).
  now rewrite nth_skipn.
Qed.

Lemma nth_poke (heap : Uint8Array) (p : Z) (bs : Uint8Array) (i : nat) (d : byte) :
  (0 <= p)%Z -> (p + len_of bs <= len_of heap)%Z ->
  nth i (poke heap p bs) d =
  if ((Z.to_nat p <=? i) && (i <? Z.to_nat p + List.length bs))%nat
  then nth (i - Z.to_nat p) bs d
  else nth i heap d.
Proof.
  intros Hp Hfit. unfold poke, len_of in *.
  assert (Hl : List.length (firstn (Z.to_nat p) heap) = Z.to_nat p)
    by (rewrite length_firstn; lia).
  destruct (Z.to_nat p <=? i)%nat eqn:E1; cbn [andb].
  - apply Nat.leb_le in E1.
    rewrite app_nth2 by lia. rewrite Hl.
    destruct (i <? Z.to_nat p + List.length bs)%nat eqn:E2.
    + apply Nat.ltb_lt in E2. rewrite app_nth1 by lia. reflexivity.
    + apply Nat.ltb_ge in E2. rewrite app_nth2 by lia.
      rewrite nth_skipn. f_equal. lia.
  - apply Nat.leb_gt in E1. rewrite app_nth1 by lia.
    rewrite nth_firstn. replace (i <? Z.to_nat p)%nat with true
      by (symmetry; apply Nat.ltb_lt; lia). reflexivity.
Qed.

Lemma slice_poke_same (heap : Uint8Array) (p : Z) (bs : Uint8Array) :
  (0 <= p)%Z -> (p + len_of bs <= len_of heap)%Z ->
  slice (poke heap p bs) p (len_of bs) = bs.
Proof.
  intros Hp Hfit.
  assert (Hlen : List.length (slice (poke heap p bs) p (len_of bs)) = List.length bs).
  { rewrite slice_length; unfold len_of in *; try lia.
    rewrite poke_length; unfold len_of; lia. }
  apply (nth_ext _ _ x00 x00 Hlen). intros i Hi. rewrite Hlen in Hi.
  rewrite nth_slice by (unfold len_of; lia).
  rewrite nth_poke by assumption.
  replace ((Z.to_nat p <=? Z.to_nat p + i) && (Z.to_nat p + i <? Z.to_nat p + List.length bs))%nat
    with true by (symmetry; rewrite andb_true_iff, Nat.leb_le, Nat.ltb_lt; lia).
  f_equal. lia.
Qed.

Lemma slice_poke_apart (heap : Uint8Array) (q : Z) (bs : Uint8Array) (p n : Z) :
  (0 <= q)%Z -> (q + len_of bs <= len_of heap)%Z ->
  (0 <= p)%Z -> (0 <= n)%Z -> (p + n <= len_of heap)%Z ->
  (p + n <= q \/ q + len_of bs <= p)%Z ->
  slice (poke heap q bs) p n = slice heap p n.
Proof.
  intros Hq Hfit Hp Hn Hpn Hapart.
  assert (Hlen : List.length (slice (poke heap q bs) p n) = List.length (slice heap p n)).
  { rewrite !slice_length; try lia. unfold len_of. rewrite poke_length; auto. }
  apply (nth_ext _ _ x00 x00 Hlen). intros i Hi.
  rewrite slice_length in Hi by (try lia; unfold len_of; rewrite poke_length; auto).
  rewrite !nth_slice by lia.
  rewrite nth_poke by assumption.
  replace ((Z.to_nat q <=? Z.to_nat p + i) && (Z.to_nat p + i <? Z.to_nat q + List.length bs))%nat
    with false; [reflexivity|].
  symmetry. rewrite andb_false_iff, Nat.leb_gt, Nat.ltb_ge.
  unfold len_of in *. lia.
Qed.

Lemma skipn_slice (heap : Uint8Array) (p n : Z) :
  (0 <= p)%Z -> (0 <= n)%Z ->
  skipn (Z.to_nat p) heap = slice heap p n ++ skipn (Z.to_nat (p + n)) heap.
Proof.
  intros. unfold slice.
  rewrite <- (firstn_skipn (Z.to_nat n) (skipn (Z.to_nat p) heap)) at 1.
  f_equal. rewrite skipn_skipn. f_equal. lia.
Qed.

Lemma is_text_byte_nonzero (b : byte) :
  is_text_byte b = true -> Byte.eqb b x00 = false.
Proof. destruct b; vm_compute; congruence. Qed.

Lemma c_string_text (data rest : Uint8Array) :
  forallb is_text_byte data = true ->
  c_string (data ++ x00 :: rest) = data.
Proof.
  induction data as [|b data IH]; cbn [forallb app c_string]; [reflexivity|].
  intros H. apply andb_true_iff in H as [Hb Hd].
  rewrite (is_text_byte_nonzero b Hb). now rewrite IH.
Qed.

Lemma Z_of_byte_range (b : byte) : (0 <= Z_of_byte b < 256)%Z.
Proof. destruct b; vm_compute; split; congruence. Qed.

Lemma Z_of_byte_of_Z (z : Z) : Z_of_byte (byte_of_Z z) = (z mod 256)%Z.
Proof.
  unfold byte_of_Z, Z_of_byte.
  assert (H : (0 <= z mod 256 < 256)%Z) by (apply Z.mod_pos_bound; lia).
  destruct (Byte.of_N (Z.to_N (z mod 256))) eqn:E.
  - apply Byte.to_of_N in E. rewrite E. lia.
  - apply Byte.of_N_None_iff in E. lia.
Qed.

Lemma byte_of_Z_of_byte (b : byte) : byte_of_Z (Z_of_byte b) = b.
Proof. destruct b; reflexivity. Qed.

Lemma int_of_bytes_int_bytes (v : Z) :
  (- 2 ^ 31 <= v < 2 ^ 31)%Z -> int_of_bytes (int_bytes v) = v.
Proof.
  intros Hv. unfold int_of_bytes, int_bytes. cbn [fold_right].
  rewrite !Z_of_byte_of_Z.
  change (2 ^ 31)%Z with 2147483648%Z in *. change (2 ^ 32)%Z with 4294967296%Z.
  destruct (_ <? _)%Z eqn:E; [apply Z.ltb_lt in E | apply Z.ltb_ge in E];
    Z.div_mod_to_equations; lia.
Qed.

End MemoryFacts.

(** ** The C wrapper and the glue: base64 there and back *)

Section WrapperFacts.

Variable X : Type.
Variable L : Library X.

Lemma poke_nil (heap : Uint8Array) (p : Z) : poke heap p [] = heap.
Proof.
  unfold poke. cbn [List.length app]. rewrite Nat.add_0_r. apply firstn_skipn.
Qed.

(** How a load ends. *)
Lemma load_cases (p n : Z) (m : Wrapper.Mem X) :
  Wrapper.load X p n m
  = (Return (if (n <=? 0)%Z then [] else slice (HEAPU8 m) p n), m)
  \/ (exists e, Wrapper.load X p n m = (Throw e, m))
     /\ in_bounds (HEAPU8 m) p n = false.
Proof.
  unfold Wrapper.load, Wrapper.trap.
  destruct (n <=? 0)%Z; [now left|].
  destruct (in_bounds (HEAPU8 m) p n); [now left|].
  right. split; [eexists; reflexivity | reflexivity].
Qed.

(** How a store ends. *)
Lemma store_cases (p : Z) (bs : Uint8Array) (m : Wrapper.Mem X) :
  Wrapper.store X p bs m
  = (Return tt, mkWasm (poke (HEAPU8 m) p bs) (hidden m))
  \/ (exists e, Wrapper.store X p bs m = (Throw e, m))
     /\ in_bounds (HEAPU8 m) p (len_of bs) = false.
Proof.
  unfold Wrapper.store, Wrapper.trap.
  destruct bs as [|b bs].
  - left. rewrite poke_nil. now destruct m.
  - destruct (in_bounds (HEAPU8 m) p (len_of (b :: bs))); [now left|].
    right. split; [eexists; reflexivity | reflexivity].
Qed.

Lemma poke_len (heap : Uint8Array) (p : Z) (bs : Uint8Array) :
  (0 <= p)%Z -> (p + len_of bs <= len_of heap)%Z ->
  len_of (poke heap p bs) = len_of heap.
Proof. intros. unfold len_of at 1. rewrite poke_length by assumption. reflexivity. Qed.

Lemma int_bytes_len (v : Z) : len_of (int_bytes v) = 4%Z.
Proof. reflexivity. Qed.

Lemma len_of_app (a c : Uint8Array) : len_of (a ++ c) = (len_of a + len_of c)%Z.
Proof. unfold len_of. rewrite length_app. lia. Qed.

Lemma len_of_nonneg (a : Uint8Array) : (0 <= len_of a)%Z.
Proof. unfold len_of. lia. Qed.

(** Two writes side by side are one write. *)
Lemma poke_app (heap : Uint8Array) (p : Z) (a c : Uint8Array) :
  (0 <= p)%Z -> (p + len_of a + len_of c <= len_of heap)%Z ->
  poke (poke heap p a) (p + len_of a) c = poke heap p (a ++ c).
Proof.
  intros Hp Hfit.
  pose proof (len_of_nonneg a). pose proof (len_of_nonneg c).
  assert (Hlen : List.length (poke (poke heap p a) (p + len_of a) c)
                 = List.length (poke heap p (a ++ c))).
  { rewrite !poke_length; rewrite ?poke_len, ?len_of_app; try lia. }
  apply (nth_ext _ _ x00 x00 Hlen). intros i Hi.
  rewrite !nth_poke; rewrite ?poke_len, ?len_of_app; try lia.
  rewrite length_app.
  unfold len_of in *.
  destruct (Z.to_nat (p + Z.of_nat (List.length a)) <=? i)%nat eqn:E1;
  destruct (i <? Z.to_nat (p + Z.of_nat (List.length a)) + List.length c)%nat eqn:E2;
  destruct (Z.to_nat p <=? i)%nat eqn:E3;
  destruct (i <? Z.to_nat p + List.length a)%nat eqn:E4;
  destruct (i <? Z.to_nat p + (List.length a + List.length c))%nat eqn:E5;
  cbn [andb];
  repeat match goal with
    | H : (_ <=? _)%nat = true |- _ => apply Nat.leb_le in H
    | H : (_ <=? _)%nat = false |- _ => apply Nat.leb_gt in H
    | H : (_ <? _)%nat = true |- _ => apply Nat.ltb_lt in H
    | H : (_ <? _)%nat = false |- _ => apply Nat.ltb_ge in H
    end; try lia; try reflexivity.
  - rewrite app_nth2 by lia. f_equal. lia.
  - rewrite app_nth1 by lia. reflexivity.
Qed.

(** What a C string written at [p] reads back as. *)
Lemma c_string_at (heap : Uint8Array) (p : Z) (data : Uint8Array) :
  (0 <= p)%Z -> (p + len_of data + 1 <= len_of heap)%Z ->
  slice heap p (len_of data + 1) = data ++ [x00] ->
  forallb is_text_byte data = true ->
  c_string (skipn (Z.to_nat p) heap) = data.
Proof.
  intros Hp Hfit Hs Ht.
  pose proof (len_of_nonneg data).
  rewrite (skipn_slice heap p (len_of data + 1)) by lia.
  rewrite Hs, <- app_assoc. cbn [app]. now apply c_string_text.
Qed.

Lemma write_elements_length (bs heap : Uint8Array) (p : Z) :
  List.length (Glue.write_elements heap p bs) = List.length heap.
Proof.
  revert heap p. induction bs as [|c bs IH]; intros heap p; cbn [Glue.write_elements];
    [reflexivity|].
  rewrite IH. destruct (in_bounds heap p 1) eqn:E; [|reflexivity].
  apply in_bounds_iff in E. apply poke_length; unfold len_of in *; cbn [List.length]; lia.
Qed.

Lemma write_elements_len (bs heap : Uint8Array) (p : Z) :
  len_of (Glue.write_elements heap p bs) = len_of heap.
Proof. unfold len_of. now rewrite write_elements_length. Qed.

(** Elements written at or after the end of a range leave it as it was. *)
Lemma slice_write_elements_after (bs heap : Uint8Array) (q p n : Z) :
  (0 <= p)%Z -> (0 <= n)%Z -> (p + n <= len_of heap)%Z -> (p + n <= q)%Z ->
  slice (Glue.write_elements heap q bs) p n = slice heap p n.
Proof.
  revert heap q. induction bs as [|c bs IH]; intros heap q Hp Hn Hfit Hq;
    cbn [Glue.write_elements]; [reflexivity|].
  destruct (in_bounds heap q 1) eqn:E.
  - apply in_bounds_iff in E.
    rewrite IH; try lia.
    + apply slice_poke_apart; try lia; change (len_of [c]) with 1%Z; lia.
    + rewrite poke_len; try lia; change (len_of [c]) with 1%Z; lia.
  - apply IH; lia.
Qed.

(** Elements written inside the memory are the bytes of a block write. *)
Lemma write_elements_in_bounds (bs heap : Uint8Array) (p : Z) :
  (0 <= p)%Z -> (p + len_of bs <= len_of heap)%Z ->
  Glue.write_elements heap p bs = poke heap p bs.
Proof.
  revert heap p. induction bs as [|c bs IH]; intros heap p Hp Hfit;
    cbn [Glue.write_elements]; [now rewrite poke_nil|].
  assert (Hc : len_of (c :: bs) = (1 + len_of bs)%Z)
    by (unfold len_of; cbn [List.length]; lia).
  pose proof (len_of_nonneg bs).
  replace (in_bounds heap p 1) with true
    by (symmetry; apply in_bounds_iff; lia).
  rewrite IH; rewrite ?poke_len; change (len_of [c]) with 1%Z; try lia.
  change (c :: bs) with ([c] ++ bs).
  rewrite <- poke_app; change (len_of [c]) with 1%Z; try lia. reflexivity.
Qed.

(** The bytes [stringToUTF8] leaves in a buffer that holds the text, when
    the limit exceeds the buffer by one. *)
Lemma slice_write_text (heap : Uint8Array) (p : Z) (text extra : Uint8Array) :
  (0 <= p)%Z -> (p + len_of text <= len_of heap)%Z ->
  slice (Glue.write_elements heap p (text ++ extra)) p (len_of text) = text.
Proof.
  intros Hp Hfit. pose proof (len_of_nonneg text).
  assert (Happ : forall a c h q, Glue.write_elements h q (a ++ c)
                 = Glue.write_elements (Glue.write_elements h q a) (q + len_of a) c).
  { induction a as [|x a IH]; intros c h q; cbn [app Glue.write_elements].
    - f_equal. unfold len_of; cbn; lia.
    - rewrite IH. f_equal. unfold len_of; cbn [List.length]; lia. }
  rewrite Happ, slice_write_elements_after; try lia.
  - rewrite write_elements_in_bounds by lia. apply slice_poke_same; lia.
  - unfold len_of at 2. rewrite write_elements_length. exact Hfit.
Qed.

Lemma is_text_byte_ascii (c : byte) :
  is_text_byte c = true ->
  (Z_of_byte c <? 128)%Z = true
  /\ (Z.of_nat (nat_of_ascii (ascii_of_byte c)) <=? 127)%Z = true
  /\ byte_of_Z (Z.of_nat (nat_of_ascii (ascii_of_byte c))) = c.
Proof.
  destruct c; intros H; try (vm_compute in H; discriminate H);
    repeat split; reflexivity.
Qed.

Lemma utf8_decode_text (text : Uint8Array) :
  forallb is_text_byte text = true ->
  list_ascii_of_string (Glue.utf8_decode text) = map ascii_of_byte text.
Proof.
  induction text as [|c text IH]; cbn [forallb Glue.utf8_decode map]; [reflexivity|].
  intros H. apply andb_true_iff in H as [Hc Ht].
  destruct (is_text_byte_ascii c Hc) as (E & _ & _). rewrite E.
  cbn [list_ascii_of_string]. now rewrite IH.
Qed.

Lemma utf8_decode_length (text : Uint8Array) :
  forallb is_text_byte text = true ->
  Z.of_nat (String.length (Glue.utf8_decode text)) = len_of text.
Proof.
  intros H. rewrite <- (string_of_list_ascii_of_string (Glue.utf8_decode text)).
  rewrite utf8_decode_text by assumption.
  unfold len_of. f_equal.
  clear H. induction text; cbn; congruence.
Qed.

Lemma utf8_fit_text (text : Uint8Array) (room : Z) :
  forallb is_text_byte text = true -> (len_of text <= room)%Z ->
  Glue.utf8_fit (map ascii_of_byte text) room = text.
Proof.
  revert room. induction text as [|c text IH]; intros room H Hroom;
    cbn [forallb map Glue.utf8_fit]; [reflexivity|].
  apply andb_true_iff in H as [Hc Ht].
  destruct (is_text_byte_ascii c Hc) as (_ & E1 & E2). rewrite E1, E2.
  assert (len_of (c :: text) = 1 + len_of text)%Z
    by (unfold len_of; cbn [List.length]; lia).
  pose proof (len_of_nonneg text).
  replace (room <=? 0)%Z with false by (symmetry; apply Z.leb_gt; lia).
  rewrite IH; [reflexivity | assumption | lia].
Qed.

Lemma written_text (text : Uint8Array) :
  forallb is_text_byte text = true ->
  Glue.written_by_stringToUTF8 (Glue.utf8_decode text) (len_of text + 1)
  = text ++ [x00].
Proof.
  intros H. unfold Glue.written_by_stringToUTF8.
  pose proof (len_of_nonneg text).
  replace (0 <? len_of text + 1)%Z with true by (symmetry; apply Z.ltb_lt; lia).
  rewrite utf8_decode_text by assumption.
  rewrite utf8_fit_text; [reflexivity | assumption | lia].
Qed.

(** [random_bytes] reports what the generator reported. *)
Lemma random_bytes_status (buf len st : Z) (m m' : Wrapper.Mem X) :
  Wrapper.random_bytes L buf len m = (Return st, m') ->
  st = fst (fst (RAND_bytes L len (lib_state (hidden m)))).
Proof.
  unfold Wrapper.random_bytes, Wrapper.cbind, Wrapper.lib, Wrapper.creturn.
  destruct (RAND_bytes L len (lib_state (hidden m))) as [[r out] x'].
  cbn [fst snd].
  match goal with |- context [Wrapper.store X ?p ?bs ?w] =>
    destruct (store_cases p bs w) as [E | [[e E] _]]; rewrite E
  end; congruence.
Qed.

End WrapperFacts.

Section RoundTrip.

Variable X : Type.
Variable L : Library X.

#[local] Arguments Wrapper.load : simpl never.
#[local] Arguments Wrapper.store : simpl never.
#[local] Arguments poke : simpl never.
#[local] Arguments slice : simpl never.
#[local] Arguments typed_set : simpl never.
#[local] Arguments Glue.UTF8ToString : simpl never.
#[local] Arguments Glue.cwrap : simpl never.
#[local] Arguments disciplined : simpl never.
#[local] Arguments heap_activity : simpl never.
#[local] Arguments int_bytes : simpl never.
#[local] Arguments len_of : simpl never.
#[local] Arguments Glue.utf8_decode : simpl never.

Lemma cwrap_base64_encode (tys : list ctype) (a b c : Z) (m : Wasm (Guest X)) :
  Glue.cwrap L "base64_encode" number tys [a; b; c] m
  = Wrapper.base64_encode L a b c m.
Proof.
  unfold Glue.cwrap. cbn.
  now destruct (Wrapper.base64_encode L a b c m) as [[r|e] m1].
Qed.

Lemma get_error_string_log (m : Wasm (Guest X)) :
  heap_log (hidden (snd (Glue.cwrap L "get_error_string" cstring [] [] m)))
  = heap_log (hidden m)
  /\ List.length (HEAPU8 (snd (Glue.cwrap L "get_error_string" cstring [] [] m)))
     = List.length (HEAPU8 m).
Proof.
  unfold Glue.cwrap. cbn.
  unfold Wrapper.get_error_string, Wrapper.cbind, Wrapper.lib, Wrapper.creturn.
  destruct (ERR_get_error L (lib_state (hidden m))) as [err x'].
  destruct (err =? 0)%Z; cbn; [now split|].
  destruct (store_cases X (error_string L) (ERR_error_string_n L err 256)
              (mkWasm (HEAPU8 m) (mkGuest x' (heap_log (hidden m)))))
    as [E | [[e E] Hb]]; rewrite E; cbn; [|now split].
  split; [reflexivity|].
  unfold Wrapper.store in E.
  destruct (ERR_error_string_n L err 256) as [|c0 cs] eqn:Es.
  - now rewrite poke_nil.
  - cbn in E. destruct (in_bounds (HEAPU8 m) (error_string L) (len_of (c0 :: cs))) eqn:Eb;
      [|discriminate].
    apply in_bounds_iff in Eb. apply poke_length; lia.
Qed.

Lemma skipn_app_exact {A} (l r : list A) : skipn (List.length l) (l ++ r) = r.
Proof. induction l; simpl; auto. Qed.

Ltac bool_facts :=
  repeat match goal with
    | H : (_ && _)%bool = true |- _ => apply andb_prop in H; destruct H
    | H : (_ <? _)%Z = true |- _ => apply Z.ltb_lt in H
    | H : (_ <=? _)%Z = true |- _ => apply Z.leb_le in H
    | H : (_ =? _)%Z = true |- _ => apply Z.eqb_eq in H
    | H : (_ <? _)%Z = false |- _ => apply Z.ltb_ge in H
    | H : (_ <=? _)%Z = false |- _ => apply Z.leb_gt in H
    | H : (_ =? _)%Z = false |- _ => apply Z.eqb_neq in H
    | H : apart _ _ _ _ = true |- _ =>
        unfold apart in H; rewrite orb_true_iff, !Z.leb_le in H
    | H : (_ || _)%bool = false |- _ => apply orb_false_elim in H; destruct H
    | H : true = true |- _ => clear H
    end.

Ltac use_discipline :=
  unfold heap_activity; cbn; rewrite <- ?app_assoc, skipn_app_exact;
  cbn; unfold disciplined; cbn;
  let H := fresh "Hheap" in intros H; bool_facts.

Ltac solve_len :=
  cbn [HEAPU8];
  repeat (rewrite poke_len by solve_len);
  rewrite ?write_elements_len, ?int_bytes_len, ?len_of_app;
  try change (len_of [x00]) with 1%Z;
  lia.

Ltac out_of_bounds Hb :=
  rewrite <- not_true_iff_false, in_bounds_iff in Hb; exfalso; apply Hb;
  solve_len.

Lemma encode_ok (s : State (Guest X)) (b : Uint8Array) :
  let size := len_of (HEAPU8 (wasm s)) in
  let text := BIO_base64_write L b in
  let enc := base64Encode (Glue.instance L) (Bytes b) s in
  forallb is_text_byte text = true ->
  disciplined size [] (heap_activity s (final enc)) = true ->
  result enc = Return (Glue.utf8_decode text)
  /\ len_of (HEAPU8 (wasm (final enc))) = size.
Proof.
  destruct s as [[heap [x0 l0]] init]. cbn zeta. intros Htext.
  pose proof (len_of_nonneg b) as Hb0.
  pose proof (len_of_nonneg (BIO_base64_write L b)) as He0.
  unfold base64Encode, _base64_encode, _get_error_string,
    try_finally, bind, ret, throw, lift, malloc, free, wrapped,
    HEAPU8_set, readString.
  cbn. unfold Wrapper.malloc_raw. cbn.
  destruct (lib_malloc L (len_of b) x0) as [p1 x1]. cbn.
  destruct (lib_malloc L 4 x1) as [p2 x2]. cbn.
  unfold typed_set.
  destruct ((p1 <? 0) || (Z.of_nat (List.length heap) <? p1 + Z.of_nat (List.length b)))%Z eqn:Eset; cbn.
  { use_discipline.
    apply orb_true_iff in Eset. rewrite !Z.ltb_lt in Eset. unfold len_of in *. lia. }
  bool_facts. fold (len_of heap) in *. fold (len_of b) in *.
  rewrite cwrap_base64_encode.
  unfold Wrapper.base64_encode, Wrapper.cbind, Wrapper.creturn, Wrapper.malloc.
  match goal with |- context [Wrapper.load X ?p ?n ?m] =>
    destruct (load_cases X p n m) as [E | [[e E] Hb]]; rewrite E; clear E; cbn end.
  2:{ use_discipline. out_of_bounds Hb. }
  replace (if (len_of b <=? 0)%Z then [] else slice (poke heap p1 b) p1 (len_of b))
    with b.
  2:{ destruct (len_of b <=? 0)%Z eqn:E0.
      - apply Z.leb_le in E0. destruct b; [reflexivity|]. unfold len_of in E0. cbn in E0. lia.
      - symmetry. apply slice_poke_same; lia. }
  set (data := BIO_base64_write L b) in *.
  unfold Wrapper.malloc_raw. cbn.
  destruct (lib_malloc L (len_of data + 1) x2) as [r x3]. cbn.
  destruct (r =? 0)%Z eqn:Er; cbn.
  { match goal with |- context [Glue.cwrap L "get_error_string" ?t ?a ?c ?m] =>
      pose proof (get_error_string_log m) as [Hlog Hlen];
      destruct (Glue.cwrap L "get_error_string" t a c m) as [c0 m0] end.
    cbn in Hlog, Hlen. destruct c0; cbn; unfold Wrapper.free_raw; cbn; rewrite Hlog;
    use_discipline; lia. }
  match goal with |- context [Wrapper.store X ?p ?bs ?m] =>
    destruct (store_cases X p bs m) as [E | [[e E] Hb]]; rewrite E; clear E; cbn end.
  2:{ use_discipline. out_of_bounds Hb. }
  match goal with |- context [Wrapper.store X ?p ?bs ?m] =>
    destruct (store_cases X p bs m) as [E | [[e E] Hb]]; rewrite E; clear E; cbn end.
  2:{ use_discipline. out_of_bounds Hb. }
  match goal with |- context [Wrapper.store X ?p ?bs ?m] =>
    destruct (store_cases X p bs m) as [E | [[e E] Hb]]; rewrite E; clear E; cbn end.
  2:{ use_discipline. out_of_bounds Hb. }
  rewrite Er. cbn.
  use_discipline.
  split; [|solve_len].
  f_equal. unfold Glue.UTF8ToString. cbn [HEAPU8].
  replace (r <=? 0)%Z with false by (symmetry; apply Z.leb_gt; lia).
  f_equal. apply c_string_at; try solve_len; [|assumption].
  rewrite slice_poke_apart by solve_len.
  rewrite poke_app by solve_len.
  replace (len_of data + 1)%Z with (len_of (data ++ [x00]))
    by (rewrite len_of_app; reflexivity).
  apply slice_poke_same; solve_len.
Qed.

Lemma cwrap_base64_decode (tys : list ctype) (a b c : Z) (m : Wasm (Guest X)) :
  Glue.cwrap L "base64_decode" number tys [a; b; c] m
  = Wrapper.base64_decode L a b c m.
Proof.
  unfold Glue.cwrap. cbn.
  now destruct (Wrapper.base64_decode L a b c m) as [[r|e] m1].
Qed.

#[local] Arguments Glue.getValue : simpl never.
#[local] Arguments Glue.written_by_stringToUTF8 : simpl never.
#[local] Arguments Glue.write_elements : simpl never.
#[local] Arguments new_Uint8Array : simpl never.
#[local] Arguments view_Uint8Array : simpl never.

Ltac store_step :=
  match goal with |- context [Wrapper.store X ?p ?bs ?m] =>
    let E := fresh "E" in let e := fresh "e" in let Hb := fresh "Hb" in
    destruct (store_cases X p bs m) as [E | [[e E] Hb]]; rewrite E; clear E; cbn
  end.

Ltac load_step :=
  match goal with |- context [Wrapper.load X ?p ?n ?m] =>
    let E := fresh "E" in let e := fresh "e" in let Hb := fresh "Hb" in
    destruct (load_cases X p n m) as [E | [[e E] Hb]]; rewrite E; clear E; cbn
  end.

Ltac error_step :=
  match goal with |- context [Glue.cwrap L "get_error_string" ?t ?a ?c ?m] =>
    let Hlog := fresh "Hlog" in let Hlen := fresh "Hlen" in
    let c0 := fresh "c" in let m0 := fresh "m" in
    pose proof (get_error_string_log m) as [Hlog Hlen];
    destruct (Glue.cwrap L "get_error_string" t a c m) as [c0 m0];
    cbn in Hlog, Hlen; destruct c0; cbn; unfold Wrapper.free_raw; cbn;
    rewrite Hlog
  end.

Ltac js_step :=
  match goal with
  | |- context [new_Uint8Array ?n] =>
      let E := fresh "Enew" in destruct (new_Uint8Array n) eqn:E; cbn
  | |- context [view_Uint8Array ?h ?p ?n] =>
      let E := fresh "Eview" in destruct (view_Uint8Array h p n) eqn:E; cbn
  | |- context [typed_set ?t ?v ?o] =>
      let E := fresh "Eset" in destruct (typed_set t v o) eqn:E; cbn
  end.

Lemma getValue_stored (heap : Uint8Array) (p v : Z) (g : Guest X) :
  (0 <= p)%Z -> (p mod 4 = 0)%Z -> (p + 4 <= len_of heap)%Z ->
  (- 2 ^ 31 <= v < 2 ^ 31)%Z ->
  Glue.getValue p "i32" (mkWasm (poke heap p (int_bytes v)) g) = v.
Proof.
  intros Hp Hal Hfit Hv. unfold Glue.getValue.
  cbn -[Z.mul Z.div].
  replace (4 * (p / 4))%Z with p by (Z.div_mod_to_equations; lia).
  replace (in_bounds (poke heap p (int_bytes v)) p 4) with true
    by (symmetry; apply in_bounds_iff; rewrite poke_len; rewrite ?int_bytes_len; lia).
  change (slice (poke heap p (int_bytes v)) p 4)
    with (slice (poke heap p (int_bytes v)) p (len_of (int_bytes v))).
  rewrite slice_poke_same by (rewrite ?int_bytes_len; lia).
  now apply int_of_bytes_int_bytes.
Qed.

Lemma decode_ok (s : State (Guest X)) (text b : Uint8Array) :
  let size := len_of (HEAPU8 (wasm s)) in
  let dec := base64Decode (Glue.instance L) (Glue.utf8_decode text) s in
  forallb is_text_byte text = true ->
  BIO_base64_read L text (len_of text) = (len_of b, b) ->
  (len_of b <= len_of text)%Z ->
  (size <= 2 ^ 31)%Z ->
  disciplined size [] (heap_activity s (final dec)) = true ->
  result dec = Return b.
Proof.
  destruct s as [[heap [x0 l0]] init]. cbn zeta. intros Htext Hread Hshort Hsize.
  pose proof (len_of_nonneg b) as Hb0.
  pose proof (len_of_nonneg text) as Ht0.
  unfold base64Decode, _base64_decode, _get_error_string,
    try_finally, bind, ret, throw, lift, malloc, free, wrapped,
    writeString, readValue, HEAPU8_view.
  rewrite (utf8_decode_length text Htext).
  cbn. unfold Wrapper.malloc_raw. cbn.
  destruct (lib_malloc L (len_of text) x0) as [q1 x1]. cbn.
  destruct (lib_malloc L 4 x1) as [q2 x2]. cbn.
  unfold Glue.stringToUTF8. cbn [HEAPU8 hidden].
  rewrite (written_text text Htext).
  rewrite cwrap_base64_decode.
  unfold Wrapper.base64_decode, Wrapper.cbind, Wrapper.creturn, Wrapper.malloc.
  unfold Wrapper.malloc_raw. cbn.
  destruct (lib_malloc L (len_of text) x2) as [q3 x3]. cbn.
  destruct (q3 =? 0)%Z eqn:Eq3; cbn.
  { error_step; use_discipline; lia. }
  destruct (q1 =? 0)%Z eqn:Eq1; cbn.
  { repeat store_step; rewrite ?Eq3; cbn; repeat js_step;
      use_discipline; lia. }
  load_step.
  2:{ use_discipline. out_of_bounds Hb. }
  remember (if (len_of text <=? 0)%Z then []
            else slice (Glue.write_elements heap q1 (text ++ [x00])) q1 (len_of text))
    as input eqn:Hin.
  assert (Hinput : (0 <= q1)%Z -> (q1 + len_of text <= len_of heap)%Z -> input = text).
  { intros. subst input. destruct (len_of text <=? 0)%Z eqn:E0.
    - apply Z.leb_le in E0. destruct text; [reflexivity|].
      unfold len_of in E0. cbn in E0. lia.
    - apply slice_write_text; lia. }
  clear Hin.
  store_step.
  2:{ use_discipline. rewrite Hinput, Hread in Hb by lia. cbn [fst snd] in Hb.
      out_of_bounds Hb. }
  store_step.
  2:{ use_discipline. rewrite Hinput, Hread in Hb by lia. cbn [fst snd] in Hb.
      out_of_bounds Hb. }
  rewrite Eq3. cbn.
  repeat js_step; use_discipline;
    specialize (Hinput ltac:(lia) ltac:(lia)); subst input;
    rewrite Hread in *; cbn [fst snd] in *.
  all: match goal with
       | H : new_Uint8Array (Glue.getValue ?p ?t ?M) = _ |- _ =>
           assert (Hg : Glue.getValue p t M = len_of b)
             by (apply getValue_stored; try solve_len;
                 change (2 ^ 31)%Z with 2147483648%Z in *; cbn [HEAPU8 wasm] in *; lia);
           rewrite Hg in *
       end.
  all: assert (Hnew : new_Uint8Array (len_of b) = Return (zeros (Z.to_nat (len_of b))))
         by (unfold new_Uint8Array;
             replace (len_of b <? 0)%Z with false by (symmetry; apply Z.ltb_ge; lia);
             reflexivity).
  all: assert (Hset : typed_set (zeros (Z.to_nat (len_of b))) b 0 = Return b)
         by (apply typed_set_whole; unfold zeros; rewrite repeat_length;
             unfold len_of; lia).
  all: try match goal with
       | H : view_Uint8Array ?h ?p ?n = _ |- _ =>
           assert (Hview : view_Uint8Array h p n = Return b)
             by (rewrite (view_Uint8Array_in_range h p n) by (try lia; fold (len_of h); solve_len);
                 f_equal; rewrite slice_poke_apart by solve_len;
                 apply slice_poke_same; solve_len)
       end.
  all: congruence.
Qed.
End RoundTrip.


(** The composite has the outcome of the decoding of what the encoding
    returned. *)
Lemma decode_of_encode_result {G} (inst : OpenSSLWasmInstance G)
    (b : Uint8Array) (s : State G) (t : string) :
  result (base64Encode inst (Bytes b) s) = Return t ->
  result (decode_of_encode inst b s)
  = result (base64Decode inst t (final (base64Encode inst (Bytes b) s))).
Proof.
  intros H. unfold decode_of_encode, bind.
  destruct (base64Encode inst (Bytes b) s) as [r fs ev].
  cbn [result final] in *. subst r.
  now destruct (base64Decode inst t fs).
Qed.

(** C6: for every byte sequence [b], the empty one included,
    [base64Decode(base64Encode(b))] returns [b], on the module as built,
    provided the parts that are not the repository's behave: the library's
    base64 filter writes plain text for [b] and reads that text back as [b],
    in no more bytes than the text has; the memory is at most 2 GiB; and
    the allocator, in each of the two calls, returns blocks that are not
    null, are 4-aligned, lie in the memory and are apart from the blocks
    still held. *)
Theorem base64_round_trip {X} (L : Library X) (s : State (Guest X))
    (b : Uint8Array) :
  let size := len_of (HEAPU8 (wasm s)) in
  let text := BIO_base64_write L b in
  let enc := base64Encode (Glue.instance L) (Bytes b) s in
  let dec := base64Decode (Glue.instance L) (Glue.utf8_decode text) (final enc) in
  forallb is_text_byte text = true ->
  BIO_base64_read L text (len_of text) = (len_of b, b) ->
  (len_of b <= len_of text)%Z ->
  (size <= 2 ^ 31)%Z ->
  disciplined size [] (heap_activity s (final enc)) = true ->
  disciplined size [] (heap_activity (final enc) (final dec)) = true ->
  result enc = Return (Glue.utf8_decode text)
  /\ result (decode_of_encode (Glue.instance L) b s) = Return b.
Proof.
  intros size text enc dec Htext Hread Hshort Hsize Henc Hdec.
  destruct (encode_ok X L s b Htext Henc) as [Hres Hlen].
  fold enc in Hres, Hlen. fold size in Hlen.
  assert (Hback : result dec = Return b).
  { apply (decode_ok X L (final enc) text b Htext Hread Hshort).
    - rewrite Hlen. exact Hsize.
    - rewrite Hlen. exact Hdec. }
  split; [exact Hres|].
  rewrite (decode_of_encode_result (Glue.instance L) b s _ Hres).
  exact Hback.
Qed.

(** The nine bytes of ["123456789"], whose text has the twelve characters
    that fill a twelve-byte buffer, and the empty sequence, on the module
    linked with the library of [Stub]. *)
Lemma base64_round_trip_witness :
  let L := Stub.library 256 in
  let b := [x31; x32; x33; x34; x35; x36; x37; x38; x39] in
  let text := BIO_base64_write L b in
  let enc := base64Encode (Glue.instance L) (Bytes b) Stub.start in
  let dec := base64Decode (Glue.instance L) (Glue.utf8_decode text) (final enc) in
  (forallb is_text_byte text = true
   /\ BIO_base64_read L text (len_of text) = (len_of b, b)
   /\ (len_of b <= len_of text)%Z
   /\ (len_of (HEAPU8 (wasm Stub.start)) <= 2 ^ 31)%Z
   /\ disciplined 256 [] (heap_activity Stub.start (final enc)) = true
   /\ disciplined 256 [] (heap_activity (final enc) (final dec)) = true)
  /\ result enc = Return "MTIzNDU2Nzg5"
  /\ result (decode_of_encode (Glue.instance L) b Stub.start) = Return b
  /\ result (decode_of_encode (Glue.instance L) [] Stub.start) = Return [].
Proof.
  intros L b text enc dec.
  assert (H1 : forallb is_text_byte text = true) by (vm_compute; reflexivity).
  assert (H2 : BIO_base64_read L text (len_of text) = (len_of b, b))
    by (vm_compute; reflexivity).
  assert (H3 : (len_of b <= len_of text)%Z) by (vm_compute; discriminate).
  assert (H4 : (len_of (HEAPU8 (wasm Stub.start)) <= 2 ^ 31)%Z)
    by (vm_compute; discriminate).
  assert (H5 : disciplined 256 [] (heap_activity Stub.start (final enc)) = true)
    by (vm_compute; reflexivity).
  assert (H6 : disciplined 256 [] (heap_activity (final enc) (final dec)) = true)
    by (vm_compute; reflexivity).
  split; [repeat split; assumption|].
  destruct (base64_round_trip L Stub.start b H1 H2 H3 H4 H5 H6) as [He Hd].
  split; [exact He|]. split; [exact Hd|].
  refine (proj2 (base64_round_trip L Stub.start [] _ _ _ _ _ _));
    vm_compute; first [reflexivity | discriminate].
Defined.

(** ** The input buffer of [base64Decode] *)

Lemma utf8_fit_ascii_length (chars : list ascii) (room : Z) :
  forallb (fun c => (nat_of_ascii c <? 128)%nat) chars = true ->
  (Z.of_nat (List.length chars) <= room)%Z ->
  List.length (Glue.utf8_fit chars room) = List.length chars.
Proof.
  revert room. induction chars as [|c chars IH]; intros room H Hroom;
    cbn [forallb Glue.utf8_fit List.length] in *; [reflexivity|].
  apply andb_true_iff in H as [Hc Hrest]. apply Nat.ltb_lt in Hc.
  replace (Z.of_nat (nat_of_ascii c) <=? 127)%Z with true
    by (symmetry; apply Z.leb_le; lia).
  replace (room <=? 0)%Z with false by (symmetry; apply Z.leb_gt; lia).
  cbn [List.length]. rewrite IH; [reflexivity | assumption | lia].
Qed.

Lemma utf8_fit_bound (chars : list ascii) (room : Z) :
  (0 <= room)%Z -> (Z.of_nat (List.length (Glue.utf8_fit chars room)) <= room)%Z.
Proof.
  revert room. induction chars as [|c chars IH]; intros room Hroom;
    cbn [Glue.utf8_fit]; [cbn; lia|].
  destruct (Z.of_nat (nat_of_ascii c) <=? 127)%Z.
  - destruct (room <=? 0)%Z eqn:E; [cbn; lia|]. apply Z.leb_gt in E.
    cbn [List.length]. specialize (IH (room - 1)%Z). lia.
  - destruct (room <=? 1)%Z eqn:E; [cbn; lia|]. apply Z.leb_gt in E.
    cbn [List.length]. specialize (IH (room - 2)%Z). lia.
Qed.

Lemma length_list_ascii_of_string (s : string) :
  List.length (list_ascii_of_string s) = String.length s.
Proof. induction s; cbn; congruence. Qed.

(** C9: for every string [data], [base64Decode] asks the allocator for
    exactly [data.length] bytes and then has the string written at the
    address it got with a limit of [data.length + 1] bytes.  With that
    limit the runtime writes at least the terminator and never more than
    [data.length + 1] bytes, and for a string of ASCII characters, as base64
    text is, it writes exactly [data.length + 1]: the characters and a zero
    byte, one byte more than was allocated. *)
Theorem base64Decode_write_limit {G} (inst : OpenSSLWasmInstance G)
    (s : State G) (data : string) :
  let n := Z.of_nat (String.length data) in
  let written := Glue.written_by_stringToUTF8 data (n + 1) in
  (exists dataPtr outLenPtr rest,
     trace_of inst (Base64Decode data) s
     = Malloc n dataPtr :: Malloc 4 outLenPtr
       :: WriteString data dataPtr (n + 1) :: rest)
  /\ (1 <= len_of written <= n + 1)%Z
  /\ (forallb (fun c => (nat_of_ascii c <? 128)%nat) (list_ascii_of_string data)
      = true ->
      len_of written = (n + 1)%Z).
Proof.
  intros n written. split; [|split].
  - run; do 3 eexists; reflexivity.
  - subst written. unfold Glue.written_by_stringToUTF8, len_of.
    replace (0 <? n + 1)%Z with true by (symmetry; apply Z.ltb_lt; lia).
    rewrite length_app. cbn [List.length].
    pose proof (utf8_fit_bound (list_ascii_of_string data) (n + 1 - 1)).
    lia.
  - intros Hascii. subst written. unfold Glue.written_by_stringToUTF8, len_of.
    replace (0 <? n + 1)%Z with true by (symmetry; apply Z.ltb_lt; lia).
    rewrite length_app, utf8_fit_ascii_length;
      rewrite ?length_list_ascii_of_string; cbn [List.length]; try assumption; lia.
Qed.

(** A text of twelve characters: twelve bytes asked for, thirteen written. *)
Lemma base64Decode_write_limit_witness :
  let data := "MTIzNDU2Nzg5" in
  forallb (fun c => (nat_of_ascii c <? 128)%nat) (list_ascii_of_string data) = true
  /\ requested (trace_of Stub.instance (Base64Decode data) Stub.start) = [12; 4]%Z
  /\ len_of (Glue.written_by_stringToUTF8 data 13) = 13%Z.
Proof.
  intros data.
  assert (H : forallb (fun c => (nat_of_ascii c <? 128)%nat)
                (list_ascii_of_string data) = true) by reflexivity.
  split; [exact H|]. split; [reflexivity|].
  exact (proj2 (proj2 (base64Decode_write_limit Stub.instance Stub.start data)) H).
Defined.

(** ** The base64 of RFC 4648 as the library's filter *)

Section Base64Facts.

Lemma list_ind3 {A} (P : list A -> Prop) :
  P [] -> (forall a, P [a]) -> (forall a b, P [a; b]) ->
  (forall a b c l, P l -> P (a :: b :: c :: l)) ->
  forall l, P l.
Proof.
  intros H0 H1 H2 H3.
  assert (H : forall l, P l /\ (forall a, P (a :: l)) /\ (forall a b, P (a :: b :: l))).
  { induction l as [|x l (IH0 & IH1 & IH2)]; repeat split; auto. }
  intros l. apply H.
Qed.

Lemma sextet_cases (v : Z) :
  (0 <= v < 64)%Z -> In v (map Z.of_nat (seq 0 64)).
Proof.
  intros Hv. apply in_map_iff. exists (Z.to_nat v). split; [lia|].
  apply in_seq. lia.
Qed.

Lemma value_of_char_of (v : Z) :
  (0 <= v < 64)%Z ->
  Base64.value_of (Base64.char_of v) = Some v
  /\ Byte.eqb (Base64.char_of v) Base64.pad = false
  /\ is_text_byte (Base64.char_of v) = true.
Proof.
  intros Hv. apply sextet_cases in Hv.
  revert v Hv. apply Forall_forall.
  vm_compute. repeat constructor.
Qed.

Lemma byte_of_Z_unique (z : Z) (a : byte) :
  (z mod 256 = Z_of_byte a)%Z -> byte_of_Z z = a.
Proof.
  intros H. rewrite <- (byte_of_Z_of_byte a), <- H.
  unfold byte_of_Z. now rewrite Z.mod_mod by lia.
Qed.

Lemma decode_encode (data : Uint8Array) :
  Base64.decode (Base64.encode data) = Some data.
Proof.
  induction data as [|a|a b|a b c rest IH] using list_ind3.
  - reflexivity.
  - pose proof (Z_of_byte_range a) as Ha.
    cbn [Base64.encode]. set (n := (Z_of_byte a * 65536)%Z).
    assert (H0 : (0 <= n / 262144 < 64)%Z) by (subst n; Z.div_mod_to_equations; lia).
    assert (H1 : (0 <= n / 4096 mod 64 < 64)%Z) by (apply Z.mod_pos_bound; lia).
    destruct (value_of_char_of _ H0) as (V0 & _ & _).
    destruct (value_of_char_of _ H1) as (V1 & _ & _).
    cbn [Base64.decode]. rewrite V0, V1.
    change (Byte.eqb Base64.pad Base64.pad) with true. cbn [andb].
    do 2 f_equal. apply byte_of_Z_unique. subst n. Z.div_mod_to_equations; lia.
  - pose proof (Z_of_byte_range a) as Ha. pose proof (Z_of_byte_range b) as Hb.
    cbn [Base64.encode]. set (n := (Z_of_byte a * 65536 + Z_of_byte b * 256)%Z).
    assert (H0 : (0 <= n / 262144 < 64)%Z) by (subst n; Z.div_mod_to_equations; lia).
    assert (H1 : (0 <= n / 4096 mod 64 < 64)%Z) by (apply Z.mod_pos_bound; lia).
    assert (H2 : (0 <= n / 64 mod 64 < 64)%Z) by (apply Z.mod_pos_bound; lia).
    destruct (value_of_char_of _ H0) as (V0 & _ & _).
    destruct (value_of_char_of _ H1) as (V1 & _ & _).
    destruct (value_of_char_of _ H2) as (V2 & P2 & _).
    cbn [Base64.decode]. rewrite V0, V1, V2, P2.
    change (Byte.eqb Base64.pad Base64.pad) with true. cbn [andb].
    f_equal. f_equal; [|f_equal]; apply byte_of_Z_unique; subst n;
      Z.div_mod_to_equations; lia.
  - pose proof (Z_of_byte_range a) as Ha. pose proof (Z_of_byte_range b) as Hb.
    pose proof (Z_of_byte_range c) as Hc.
    cbn [Base64.encode].
    set (n := (Z_of_byte a * 65536 + Z_of_byte b * 256 + Z_of_byte c)%Z).
    assert (H0 : (0 <= n / 262144 < 64)%Z) by (subst n; Z.div_mod_to_equations; lia).
    assert (H1 : (0 <= n / 4096 mod 64 < 64)%Z) by (apply Z.mod_pos_bound; lia).
    assert (H2 : (0 <= n / 64 mod 64 < 64)%Z) by (apply Z.mod_pos_bound; lia).
    assert (H3 : (0 <= n mod 64 < 64)%Z) by (apply Z.mod_pos_bound; lia).
    destruct (value_of_char_of _ H0) as (V0 & _ & _).
    destruct (value_of_char_of _ H1) as (V1 & _ & _).
    destruct (value_of_char_of _ H2) as (V2 & P2 & _).
    destruct (value_of_char_of _ H3) as (V3 & P3 & _).
    cbn [Base64.decode]. rewrite V0, V1, V2, V3, P2, P3, IH. cbn [andb].
    f_equal. f_equal; [|f_equal; [|f_equal]]; apply byte_of_Z_unique; subst n;
      Z.div_mod_to_equations; lia.
Qed.

Lemma encode_is_text (data : Uint8Array) :
  forallb is_text_byte (Base64.encode data) = true.
Proof.
  induction data as [|a|a b|a b c rest IH] using list_ind3;
    cbn [Base64.encode forallb]; [reflexivity| | |].
  - pose proof (Z_of_byte_range a) as Ha.
    set (n := (Z_of_byte a * 65536)%Z).
    assert (H0 : (0 <= n / 262144 < 64)%Z) by (subst n; Z.div_mod_to_equations; lia).
    assert (H1 : (0 <= n / 4096 mod 64 < 64)%Z) by (apply Z.mod_pos_bound; lia).
    destruct (value_of_char_of _ H0) as (_ & _ & T0).
    destruct (value_of_char_of _ H1) as (_ & _ & T1).
    rewrite T0, T1. reflexivity.
  - pose proof (Z_of_byte_range a) as Ha. pose proof (Z_of_byte_range b) as Hb.
    set (n := (Z_of_byte a * 65536 + Z_of_byte b * 256)%Z).
    assert (H0 : (0 <= n / 262144 < 64)%Z) by (subst n; Z.div_mod_to_equations; lia).
    assert (H1 : (0 <= n / 4096 mod 64 < 64)%Z) by (apply Z.mod_pos_bound; lia).
    assert (H2 : (0 <= n / 64 mod 64 < 64)%Z) by (apply Z.mod_pos_bound; lia).
    destruct (value_of_char_of _ H0) as (_ & _ & T0).
    destruct (value_of_char_of _ H1) as (_ & _ & T1).
    destruct (value_of_char_of _ H2) as (_ & _ & T2).
    rewrite T0, T1, T2. reflexivity.
  - pose proof (Z_of_byte_range a) as Ha. pose proof (Z_of_byte_range b) as Hb.
    pose proof (Z_of_byte_range c) as Hc.
    set (n := (Z_of_byte a * 65536 + Z_of_byte b * 256 + Z_of_byte c)%Z).
    assert (H0 : (0 <= n / 262144 < 64)%Z) by (subst n; Z.div_mod_to_equations; lia).
    assert (H1 : (0 <= n / 4096 mod 64 < 64)%Z) by (apply Z.mod_pos_bound; lia).
    assert (H2 : (0 <= n / 64 mod 64 < 64)%Z) by (apply Z.mod_pos_bound; lia).
    assert (H3 : (0 <= n mod 64 < 64)%Z) by (apply Z.mod_pos_bound; lia).
    destruct (value_of_char_of _ H0) as (_ & _ & T0).
    destruct (value_of_char_of _ H1) as (_ & _ & T1).
    destruct (value_of_char_of _ H2) as (_ & _ & T2).
    destruct (value_of_char_of _ H3) as (_ & _ & T3).
    rewrite T0, T1, T2, T3, IH. reflexivity.
Qed.

Lemma encode_longer (data : Uint8Array) :
  (len_of data <= len_of (Base64.encode data))%Z.
Proof.
  unfold len_of.
  induction data as [|a|a b|a b c rest IH] using list_ind3;
    cbn [Base64.encode List.length]; lia.
Qed.

(** With the base64 of RFC 4648 for the library's filter, only the
    allocator and the size of the memory are left to assume. *)
Corollary stub_round_trip (limit : Z) (s : State (Guest Stub.X)) (b : Uint8Array) :
  let L := Stub.library limit in
  let size := len_of (HEAPU8 (wasm s)) in
  let enc := base64Encode (Glue.instance L) (Bytes b) s in
  let dec := base64Decode (Glue.instance L)
               (Glue.utf8_decode (Base64.encode b)) (final enc) in
  (size <= 2 ^ 31)%Z ->
  disciplined size [] (heap_activity s (final enc)) = true ->
  disciplined size [] (heap_activity (final enc) (final dec)) = true ->
  result (decode_of_encode (Glue.instance L) b s) = Return b.
Proof.
  intros L size enc dec Hsize Henc Hdec.
  pose proof (encode_is_text b) as Htext.
  destruct (encode_ok Stub.X L s b Htext Henc) as [Hres Hlen].
  fold enc in Hres, Hlen. fold size in Hlen.
  rewrite (decode_of_encode_result (Glue.instance L) b s _ Hres).
  apply (decode_ok Stub.X L (final enc) (Base64.encode b) b Htext).
  - cbn [BIO_base64_read BIO_base64_write L Stub.library].
    now rewrite decode_encode.
  - apply encode_longer.
  - rewrite Hlen. exact Hsize.
  - rewrite Hlen. exact Hdec.
Qed.

End Base64Facts.


(** ** Further properties of the binding layer, for any instance *)

(** X1: the constructor (and so [initialize]) asks one thing of the
    instance, a call of [openssl_init] with no argument.  When that call
    returns 1 the handle is built with its flag set; when it returns any
    other number the constructor throws
    [Error "Failed to initialize OpenSSL"] and the flag stays clear.  The
    value the flag had before plays no part. *)
Theorem constructor_outcome {G} (inst : OpenSSLWasmInstance G) (s : State G)
    (st : Z) (w : Wasm G)
    (Hinit : cwrap inst "openssl_init" number [] [] (wasm s) = (Return st, w)) :
  let o := constructor inst s in
  events o = [Call "openssl_init" []]
  /\ o = initialize inst s
  /\ (st = 1%Z -> result o = Return tt /\ final o = mkState w true)
  /\ (st <> 1%Z ->
      result o = Throw (Error "Failed to initialize OpenSSL")
      /\ final o = mkState w false).
Proof.
  unfold initialize. unfold_methods; simpl_run. rewrite Hinit; simpl_run.
  destruct (st =? 1)%Z eqn:Est; simpl_run.
  - apply Z.eqb_eq in Est.
    repeat split; try reflexivity; intros; congruence.
  - apply Z.eqb_neq in Est.
    repeat split; try reflexivity; intros; congruence.
Qed.

(** The constructor on an instance whose [openssl_init] reports 1, and on one
    where it reports 0. *)
Lemma constructor_outcome_witness :
  let good := Mock.instance Mock.working in
  let bad := Mock.instance Mock.failing in
  (cwrap good "openssl_init" number [] [] (wasm Mock.start)
   = (Return 1%Z, wasm Mock.start)
   /\ result (constructor good Mock.start) = Return tt
   /\ initialized (final (constructor good Mock.start)) = true)
  /\ (cwrap bad "openssl_init" number [] [] (wasm Mock.start)
      = (Return 0%Z, wasm Mock.start)
      /\ result (constructor bad Mock.start)
         = Throw (Error "Failed to initialize OpenSSL")
      /\ initialized (final (constructor bad Mock.start)) = false).
Proof.
  intros good bad.
  destruct (constructor_outcome good Mock.start 1 (wasm Mock.start) eq_refl)
    as (_ & _ & Hok & _).
  destruct (constructor_outcome bad Mock.start 0 (wasm Mock.start) eq_refl)
    as (_ & _ & _ & Hfail).
  split.
  - split; [reflexivity|]. destruct (Hok eq_refl) as [Hr Hf].
    split; [exact Hr | now rewrite Hf].
  - split; [reflexivity|].
    destruct (Hfail ltac:(discriminate)) as [Hr Hf].
    split; [exact Hr | now rewrite Hf].
Defined.

(** X2: no method but [cleanup] reads the [initialized] flag, and none but
    [cleanup] and the constructor writes it.  Run on the same memory with the
    flag set or clear, [version], [randomBytes], the five digests,
    [base64Encode] and [base64Decode] end the same way, ask the same of the
    instance and leave it the same, and the flag is as it was.  So after
    [cleanup] each of them still enters the module exactly as on a live
    handle. *)
Theorem methods_ignore_initialized {G} (inst : OpenSSLWasmInstance G)
    (w : Wasm G) (b : bool) :
  version inst (mkState w b) = with_flag b (version inst (mkState w true))
  /\ (forall n, randomBytes inst n (mkState w b)
                = with_flag b (randomBytes inst n (mkState w true)))
  /\ (forall d, sha1 inst d (mkState w b)
                = with_flag b (sha1 inst d (mkState w true)))
  /\ (forall d, sha256 inst d (mkState w b)
                = with_flag b (sha256 inst d (mkState w true)))
  /\ (forall d, sha384 inst d (mkState w b)
                = with_flag b (sha384 inst d (mkState w true)))
  /\ (forall d, sha512 inst d (mkState w b)
                = with_flag b (sha512 inst d (mkState w true)))
  /\ (forall d, md5 inst d (mkState w b)
                = with_flag b (md5 inst d (mkState w true)))
  /\ (forall d, base64Encode inst d (mkState w b)
                = with_flag b (base64Encode inst d (mkState w true)))
  /\ (forall t, base64Decode inst t (mkState w b)
                = with_flag b (base64Decode inst t (mkState w true)))
  /\ (forall op,
        let after := final (cleanup inst (mkState w true)) in
        trace_of inst op after = trace_of inst op (mkState (wasm after) true)
        /\ ending_of inst op after
           = ending_of inst op (mkState (wasm after) true)).
Proof.
  unfold with_flag, version, _openssl_version.
  repeat split; intros; try destruct op; run; reflexivity.
Qed.

(** *** Failure of a digest *)

Ltac digest_failure :=
  let q := fresh "q" in
  let w' := fresh "w'" in
  intros q w' (p & w1 & w2 & heap & Ha1 & Ha2 & Hset & Hcall) Herr;
  unfold_methods; simpl_run;
  rewrite Ha1; simpl_run; rewrite Ha2; simpl_run;
  rewrite Hset; simpl_run; rewrite Hcall; simpl_run;
  match goal with
  | H : (_ =? _)%Z = false |- _ => rewrite H
  end; simpl_run;
  rewrite Herr; simpl_run;
  repeat split; reflexivity.

(** X3: when the procedure of a digest method reports anything but 1, the
    method throws an [Error] whose message is the method's own prefix
    (["MD5 digest failed: "], ["SHA-1 digest failed: "], ...) followed by the
    string [get_error_string] gives at that moment; the digest buffer is
    never looked at, and the two buffers are given back. *)
Theorem digest_failure_message {G} (inst : OpenSSLWasmInstance G) (s : State G)
    (data : Data) (st : Z) (msg : string) (w'' : Wasm G) (Hst : st <> 1%Z) :
  (forall q w', digest_reports inst "md5_digest" 16 data s st q w' ->
     cwrap inst "get_error_string" cstring [] [] w' = (Return msg, w'') ->
     result (md5 inst data s) = Throw (Error ("MD5 digest failed: " ++ msg))
     /\ views (events (md5 inst data s)) = []
     /\ frees (events (md5 inst data s)) = mallocs (events (md5 inst data s)))
  /\ (forall q w', digest_reports inst "sha1_digest" 20 data s st q w' ->
     cwrap inst "get_error_string" cstring [] [] w' = (Return msg, w'') ->
     result (sha1 inst data s) = Throw (Error ("SHA-1 digest failed: " ++ msg))
     /\ views (events (sha1 inst data s)) = []
     /\ frees (events (sha1 inst data s)) = mallocs (events (sha1 inst data s)))
  /\ (forall q w', digest_reports inst "sha256_digest" 32 data s st q w' ->
     cwrap inst "get_error_string" cstring [] [] w' = (Return msg, w'') ->
     result (sha256 inst data s) = Throw (Error ("SHA-256 digest failed: " ++ msg))
     /\ views (events (sha256 inst data s)) = []
     /\ frees (events (sha256 inst data s)) = mallocs (events (sha256 inst data s)))
  /\ (forall q w', digest_reports inst "sha384_digest" 48 data s st q w' ->
     cwrap inst "get_error_string" cstring [] [] w' = (Return msg, w'') ->
     result (sha384 inst data s) = Throw (Error ("SHA-384 digest failed: " ++ msg))
     /\ views (events (sha384 inst data s)) = []
     /\ frees (events (sha384 inst data s)) = mallocs (events (sha384 inst data s)))
  /\ (forall q w', digest_reports inst "sha512_digest" 64 data s st q w' ->
     cwrap inst "get_error_string" cstring [] [] w' = (Return msg, w'') ->
     result (sha512 inst data s) = Throw (Error ("SHA-512 digest failed: " ++ msg))
     /\ views (events (sha512 inst data s)) = []
     /\ frees (events (sha512 inst data s)) = mallocs (events (sha512 inst data s))).
Proof.
  apply Z.eqb_neq in Hst.
  split; [|split; [|split; [|split]]]; digest_failure.
Qed.

(** [sha512] of a text on an instance whose procedures report 0. *)
Lemma digest_failure_message_witness :
  let inst := Mock.instance Mock.failing in
  let w' := mkWasm (poke (zeros 256) 16 (TextEncoder_encode "abc")) 88%Z in
  0%Z <> 1%Z
  /\ digest_reports inst "sha512_digest" 64 (Text "abc") Mock.start 0 24 w'
  /\ cwrap inst "get_error_string" cstring [] [] w'
     = (Return "error:12000079:random number generator", w')
  /\ result (sha512 inst (Text "abc") Mock.start)
     = Throw (Error "SHA-512 digest failed: error:12000079:random number generator").
Proof.
  intros inst w'.
  assert (Hne : 0%Z <> 1%Z) by discriminate.
  assert (Hrep : digest_reports inst "sha512_digest" 64 (Text "abc") Mock.start 0 24 w').
  { exists 16%Z, (mkWasm (zeros 256) 24%Z), (mkWasm (zeros 256) 88%Z),
      (poke (zeros 256) 16 (TextEncoder_encode "abc")).
    repeat split; reflexivity. }
  split; [exact Hne|]. split; [exact Hrep|]. split; [reflexivity|].
  destruct (digest_failure_message inst Mock.start (Text "abc") 0
              "error:12000079:random number generator" w' Hne)
    as (_ & _ & _ & _ & H).
  exact (proj1 (H 24%Z w' Hrep eq_refl)).
Defined.

(** *** The buffer a base64 procedure hands back *)

(** X4: [base64Encode], once its two buffers are allocated and the input
    copied, goes by what [base64_encode] returned.  On the null pointer it
    throws an [Error] with the message ["Base64 encoding failed: "] and the
    string of [get_error_string], reads no string and gives back its own two
    buffers only.  On any other pointer it returns the string the runtime
    reads there, and gives that buffer back before its own two: on no path
    is the buffer of the procedure left allocated. *)
Theorem base64Encode_result_buffer {G} (inst : OpenSSLWasmInstance G)
    (s : State G) (data : Data) (p q r : Z) (w1 w2 w3 : Wasm G)
    (heap : Uint8Array)
    (Hp : _malloc inst (len_of (inputData_of data)) (wasm s) = (p, w1))
    (Hq : _malloc inst 4 w1 = (q, w2))
    (Hset : typed_set (HEAPU8 w2) (inputData_of data) p = Return heap)
    (Hcall : cwrap inst "base64_encode" number [number; number; number]
               [p; len_of (inputData_of data); q] (mkWasm heap (hidden w2))
             = (Return r, w3)) :
  let o := base64Encode inst data s in
  (r = 0%Z ->
     forall msg w4,
       cwrap inst "get_error_string" cstring [] [] w3 = (Return msg, w4) ->
       result o = Throw (Error ("Base64 encoding failed: " ++ msg))
       /\ strings_read (events o) = []
       /\ frees (events o) = [p; q])
  /\ (r <> 0%Z ->
      result o = Return (UTF8ToString inst r w3)
      /\ strings_read (events o) = [r]
      /\ frees (events o) = [r; p; q]).
Proof.
  unfold_methods; simpl_run.
  rewrite Hp; simpl_run. rewrite Hq; simpl_run.
  rewrite Hset; simpl_run. rewrite Hcall; simpl_run.
  split.
  - intros -> msg w4 Herr. simpl_run. rewrite Herr; simpl_run.
    repeat split; reflexivity.
  - intros Hr. apply Z.eqb_neq in Hr. rewrite Hr; simpl_run.
    repeat split; reflexivity.
Qed.

(** [base64Encode] of three bytes on an instance whose procedure hands back
    the buffer at 200. *)
Lemma base64Encode_result_buffer_witness :
  let inst := Mock.instance Mock.working in
  let o := base64Encode inst (Bytes [x01; x02; x03]) Mock.start in
  200%Z <> 0%Z
  /\ result o = Return "bW9jaw=="
  /\ frees (events o) = [200; 16; 24]%Z.
Proof.
  intros inst o.
  assert (Hne : 200%Z <> 0%Z) by discriminate.
  destruct (base64Encode_result_buffer inst Mock.start (Bytes [x01; x02; x03])
              16 24 200 (mkWasm (zeros 256) 24%Z) (mkWasm (zeros 256) 32%Z)
              (mkWasm (poke (zeros 256) 16 [x01; x02; x03]) 32%Z)
              (poke (zeros 256) 16 [x01; x02; x03])
              eq_refl eq_refl eq_refl eq_refl) as [_ H].
  destruct (H Hne) as (Hr & _ & Hf).
  split; [exact Hne|]. split; [exact Hr | exact Hf].
Defined.

(** X5: [base64Decode], once its two buffers are allocated and the text
    written, goes by what [base64_decode] returned.  On the null pointer it
    throws an [Error] with the message ["Base64 decoding failed: "] and the
    string of [get_error_string].  On any other pointer [r] it reads the
    length at [outLenPtr]; if it then returns, it gave [r] back before its
    own two buffers; but if the length read is negative it throws a
    [RangeError], and whenever it throws at this stage only its own two
    buffers are given back: the buffer [r] of the procedure stays
    allocated. *)
Theorem base64Decode_result_buffer {G} (inst : OpenSSLWasmInstance G)
    (s : State G) (data : string) (p q r : Z) (w1 w2 w3 : Wasm G)
    (Hp : _malloc inst (Z.of_nat (String.length data)) (wasm s) = (p, w1))
    (Hq : _malloc inst 4 w1 = (q, w2))
    (Hcall : cwrap inst "base64_decode" number [number; number; number]
               [p; Z.of_nat (String.length data); q]
               (stringToUTF8 inst data p (Z.of_nat (String.length data) + 1) w2)
             = (Return r, w3)) :
  let o := base64Decode inst data s in
  (r = 0%Z ->
     forall msg w4,
       cwrap inst "get_error_string" cstring [] [] w3 = (Return msg, w4) ->
       result o = Throw (Error ("Base64 decoding failed: " ++ msg))
       /\ frees (events o) = [p; q])
  /\ (r <> 0%Z ->
      (is_throw (result o) = false -> frees (events o) = [r; p; q])
      /\ (is_throw (result o) = true ->
          result o = Throw RangeError /\ frees (events o) = [p; q])
      /\ ((getValue inst q "i32" w3 < 0)%Z -> result o = Throw RangeError)).
Proof.
  unfold_methods; simpl_run.
  rewrite Hp; simpl_run. rewrite Hq; simpl_run.
  rewrite Hcall; simpl_run.
  split.
  - intros -> msg w4 Herr. simpl_run. rewrite Herr; simpl_run.
    repeat split; reflexivity.
  - intros Hr. apply Z.eqb_neq in Hr. rewrite Hr; simpl_run.
    unfold new_Uint8Array.
    destruct (getValue inst q "i32" w3 <? 0)%Z eqn:Eneg; simpl_run.
    + repeat split; try reflexivity; discriminate.
    + apply Z.ltb_ge in Eneg.
      repeat step;
        try match goal with
            | H : typed_set _ _ _ = Throw ?e |- _ =>
                apply typed_set_throw in H; subst e
            end;
        try match goal with
            | H : view_Uint8Array _ _ _ = Throw ?e |- _ =>
                unfold view_Uint8Array in H;
                destruct (_ || _)%bool in H; [injection H as <- | discriminate]
            end;
        repeat split; intros; try reflexivity; try discriminate; try lia.
Qed.

(** [base64Decode] on an instance whose procedure hands back the buffer at
    200 and stores the length -1. *)
Lemma base64Decode_result_buffer_witness :
  let inst := Mock.instance read_failed in
  let o := base64Decode inst "!!!!" Mock.start in
  200%Z <> 0%Z
  /\ (getValue inst 24 "i32" (mkWasm (zeros 256) 32%Z) < 0)%Z
  /\ result o = Throw RangeError
  /\ frees (events o) = [16; 24]%Z.
Proof.
  intros inst o.
  assert (Hne : 200%Z <> 0%Z) by discriminate.
  assert (Hneg : (getValue inst 24 "i32" (mkWasm (zeros 256) 32%Z) < 0)%Z)
    by reflexivity.
  destruct (base64Decode_result_buffer inst Mock.start "!!!!"
              16 24 200 (mkWasm (zeros 256) 24%Z) (mkWasm (zeros 256) 32%Z)
              (mkWasm (zeros 256) 32%Z) eq_refl eq_refl eq_refl) as [_ H].
  destruct (H Hne) as (_ & Hthrow & Hrange).
  split; [exact Hne|]. split; [exact Hneg|]. split; [exact (Hrange Hneg)|].
  apply Hthrow. reflexivity.
Defined.

(** ** Further properties of the hexadecimal conversion *)

Section HexPairs.

Lemma array_store_length (a : Uint8Array) (k : nat) (v : byte) :
  List.length (array_store a k v) = List.length a.
Proof.
  revert k. induction a as [|x a IH]; intros [|k]; cbn; try reflexivity.
  now rewrite IH.
Qed.

Lemma fromHex_loop_length (fuel : nat) (hex : string) (i : nat)
    (bytes : Uint8Array) :
  List.length (fromHex_loop fuel hex i bytes) = List.length bytes.
Proof.
  revert i bytes. induction fuel as [|fuel IH]; intros i bytes;
    cbn [fromHex_loop]; [reflexivity|].
  destruct (i <? String.length hex)%nat; [|reflexivity].
  now rewrite IH, array_store_length.
Qed.

Lemma mod_2_step (n : nat) : (S (S n) mod 2 = n mod 2)%nat.
Proof.
  replace (S (S n)) with (n + 1 * 2)%nat by lia. apply Nat.Div0.mod_add.
Qed.

Lemma div_2_step (n : nat) : (S (S n) / 2 = S (n / 2))%nat.
Proof.
  replace (S (S n)) with (n + 1 * 2)%nat by lia.
  rewrite Nat.div_add by lia. lia.
Qed.

(** The two characters the loop reads at an index. *)
Lemma substring_pair (pre : string) (a b : ascii) (r : string) :
  JsString.substring (pre ++ String a (String b r))
    (String.length pre) (String.length pre + 2)
  = String a (String b "").
Proof.
  unfold JsString.substring.
  rewrite string_length_append. cbn [String.length].
  replace (Nat.min (String.length pre) (String.length pre + S (S (String.length r))))
    with (String.length pre) by lia.
  replace (Nat.min (String.length pre + 2) (String.length pre + S (S (String.length r))))
    with (String.length pre + 2)%nat by lia.
  replace (Nat.min (String.length pre) (String.length pre + 2))
    with (String.length pre) by lia.
  replace (Nat.max (String.length pre) (String.length pre + 2) - String.length pre)%nat
    with 2%nat by lia.
  rewrite substring_skip. cbn. now destruct r.
Qed.

Lemma string_app_assoc (a b c : string) :
  ((a ++ b) ++ c)%string = (a ++ (b ++ c))%string.
Proof. induction a; cbn; congruence. Qed.

(** The loop, started at an even index with the pairs before it stored,
    stores the remaining pairs. *)
Lemma fromHex_loop_pairs (fuel : nat) (pre rest : string) (done : Uint8Array) :
  (String.length rest mod 2 = 0)%nat ->
  (String.length pre = 2 * List.length done)%nat ->
  (String.length rest <= 2 * fuel)%nat ->
  fromHex_loop fuel (pre ++ rest) (String.length pre)
    (done ++ zeros (String.length rest / 2))
  = done ++ hex_pairs rest.
Proof.
  revert pre rest done.
  induction fuel as [|fuel IH]; intros pre rest done Heven Hpre Hfuel.
  - destruct rest; [reflexivity | cbn in Hfuel; lia].
  - cbn [fromHex_loop].
    destruct rest as [|a [|b r]].
    + rewrite string_length_append. cbn [String.length].
      replace (String.length pre <? String.length pre + 0)%nat with false
        by (symmetry; apply Nat.ltb_ge; lia).
      reflexivity.
    + discriminate Heven.
    + rewrite string_length_append. cbn [String.length] in *.
      replace (String.length pre <? String.length pre + S (S (String.length r)))%nat
        with true by (symmetry; apply Nat.ltb_lt; lia).
      rewrite substring_pair.
      rewrite mod_2_step in Heven. rewrite div_2_step.
      replace (String.length pre / 2)%nat with (List.length done)
        by (rewrite Hpre, Nat.mul_comm, Nat.div_mul; lia).
      cbn [zeros repeat]. fold (zeros (String.length r / 2)).
      rewrite array_store_middle.
      cbn [hex_pairs].
      set (v := ToUint8 (JsString.parseInt (String a (String b "")) 16)).
      replace (pre ++ String a (String b r))%string
        with ((pre ++ String a (String b "")) ++ r)%string
        by (rewrite string_app_assoc; reflexivity).
      replace (String.length pre + 2)%nat
        with (String.length (pre ++ String a (String b "")))
        by (rewrite string_length_append; reflexivity).
      replace (done ++ v :: zeros (String.length r / 2))
        with ((done ++ [v]) ++ zeros (String.length r / 2))
        by (now rewrite <- app_assoc).
      rewrite IH.
      * now rewrite <- app_assoc.
      * exact Heven.
      * rewrite string_length_append, length_app. cbn. lia.
      * lia.
Qed.

(** [fromHex] on a string of even length. *)
Lemma fromHex_pairs (hex : string) :
  (String.length hex mod 2 = 0)%nat -> fromHex hex = Return (hex_pairs hex).
Proof.
  intros Heven. unfold fromHex. rewrite Heven. cbn [Nat.eqb negb]. f_equal.
  apply (fromHex_loop_pairs (String.length hex) "" hex []);
    [assumption | reflexivity | lia].
Qed.

Lemma fromHex_returns (hex : string) (bytes : Uint8Array) :
  fromHex hex = Return bytes -> (String.length hex mod 2 = 0)%nat.
Proof.
  unfold fromHex. destruct (String.length hex mod 2 =? 0)%nat eqn:E;
    [intros _; now apply Nat.eqb_eq | discriminate].
Qed.

Lemma hex_pairs_app (x y : string) :
  (String.length x mod 2 = 0)%nat ->
  hex_pairs (x ++ y) = hex_pairs x ++ hex_pairs y.
Proof.
  revert x. fix IH 1. intros [|a [|b r]] Heven.
  - reflexivity.
  - discriminate Heven.
  - cbn [String.length] in Heven. rewrite mod_2_step in Heven.
    cbn [append hex_pairs app]. f_equal. now apply IH.
Qed.

Lemma string_map_append (f : ascii -> ascii) (a b : string) :
  string_map f (a ++ b) = (string_map f a ++ string_map f b)%string.
Proof. induction a; cbn; congruence. Qed.

Lemma string_map_length (f : ascii -> ascii) (a : string) :
  String.length (string_map f a) = String.length a.
Proof. induction a; cbn; congruence. Qed.

Lemma parseInt_upper_hex_of_byte (b : byte) :
  hex_pairs (string_map upper_case (hex_of_byte b)) = [b].
Proof. destruct b; vm_compute; reflexivity. Qed.

Lemma hex_pairs_upper_toHex (l : Uint8Array) :
  hex_pairs (string_map upper_case (toHex l)) = l.
Proof.
  induction l as [|b l IH]; [reflexivity|].
  rewrite toHex_cons, string_map_append, hex_pairs_app.
  - now rewrite parseInt_upper_hex_of_byte, IH.
  - now rewrite string_map_length, hex_of_byte_length.
Qed.

(** The sixteen characters [is_lower_hex] accepts. *)
Lemma is_lower_hex_cases (c : ascii) :
  is_lower_hex c = true ->
  In c (list_ascii_of_string "0123456789abcdef").
Proof.
  destruct c as [[] [] [] [] [] [] [] []]; intros H;
    try discriminate H; cbn; tauto.
Qed.

Lemma hex_of_pair (a b : ascii) :
  is_lower_hex a = true -> is_lower_hex b = true ->
  hex_of_byte (ToUint8 (JsString.parseInt (String a (String b "")) 16))
  = String a (String b "").
Proof.
  intros Ha Hb. apply is_lower_hex_cases in Ha, Hb. cbn in Ha, Hb.
  repeat match goal with
         | H : _ \/ _ |- _ => destruct H
         | H : False |- _ => destruct H
         end; subst; vm_compute; reflexivity.
Qed.

Lemma toHex_hex_pairs (s : string) :
  (String.length s mod 2 = 0)%nat ->
  string_forallb is_lower_hex s = true ->
  toHex (hex_pairs s) = s.
Proof.
  revert s. fix IH 1. intros [|a [|b r]] Heven Hhex.
  - reflexivity.
  - discriminate Heven.
  - cbn [String.length] in Heven. rewrite mod_2_step in Heven.
    cbn [string_forallb] in Hhex.
    apply andb_true_iff in Hhex as [Ha Hhex].
    apply andb_true_iff in Hhex as [Hb Hr].
    cbn [hex_pairs]. rewrite toHex_cons, hex_of_pair by assumption.
    cbn [append]. now rewrite IH.
Qed.

End HexPairs.

(** X6: [fromHex] returns exactly when the string has an even number of
    characters, whatever the characters are, and then one byte for every two
    characters; on a string of odd length it throws
    [Error "Hex string must have an even number of characters"] and nothing
    else. *)
Theorem fromHex_parity_and_length (hex : string) :
  match fromHex hex with
  | Return bytes => String.length hex = (2 * List.length bytes)%nat
  | Throw e =>
      (String.length hex mod 2 = 1)%nat
      /\ e = Error "Hex string must have an even number of characters"
  end.
Proof.
  unfold fromHex.
  destruct (String.length hex mod 2 =? 0)%nat eqn:E; cbn [negb].
  - apply Nat.eqb_eq in E.
    rewrite fromHex_loop_length. unfold zeros. rewrite repeat_length.
    pose proof (Nat.div_mod_eq (String.length hex) 2). lia.
  - apply Nat.eqb_neq in E.
    pose proof (Nat.mod_upper_bound (String.length hex) 2).
    split; [lia | reflexivity].
Qed.

(** X7: the round trip in the other direction.  A string of even length
    made of the characters [0-9a-f] is decoded by [fromHex] to bytes that
    [toHex] turns back into the same string. *)
Theorem toHex_of_fromHex (s : string)
    (Heven : (String.length s mod 2 = 0)%nat)
    (Hhex : string_forallb is_lower_hex s = true) :
  exists bytes, fromHex s = Return bytes /\ toHex bytes = s.
Proof.
  exists (hex_pairs s). split.
  - now apply fromHex_pairs.
  - now apply toHex_hex_pairs.
Qed.

Lemma toHex_of_fromHex_witness :
  (String.length "00ff7a" mod 2 = 0)%nat
  /\ string_forallb is_lower_hex "00ff7a" = true
  /\ exists bytes, fromHex "00ff7a" = Return bytes /\ toHex bytes = "00ff7a".
Proof.
  split; [reflexivity|]. split; [reflexivity|].
  apply (toHex_of_fromHex "00ff7a"); reflexivity.
Defined.

(** X8: the conversions work piece by piece.  [toHex] of two byte sequences
    put end to end is the two texts put end to end; and when [fromHex]
    returns for each of two strings, it returns for the two put end to end
    the bytes of the first followed by the bytes of the second. *)
Theorem hex_concatenation (x y : string) (bx by_ : Uint8Array)
    (Hx : fromHex x = Return bx) (Hy : fromHex y = Return by_) :
  fromHex (x ++ y) = Return (bx ++ by_)
  /\ toHex (bx ++ by_) = (toHex bx ++ toHex by_)%string.
Proof.
  split; [|apply toHex_app].
  pose proof (fromHex_returns x bx Hx) as Ex.
  pose proof (fromHex_returns y by_ Hy) as Ey.
  rewrite fromHex_pairs in Hx, Hy by assumption.
  injection Hx as <-. injection Hy as <-.
  rewrite fromHex_pairs.
  - now rewrite hex_pairs_app.
  - rewrite string_length_append.
    rewrite Nat.Div0.add_mod, Ex, Ey. reflexivity.
Qed.

Lemma hex_concatenation_witness :
  fromHex "dead" = Return [xde; xad]
  /\ fromHex "beef" = Return [xbe; xef]
  /\ fromHex "deadbeef" = Return [xde; xad; xbe; xef].
Proof.
  split; [reflexivity|]. split; [reflexivity|].
  exact (proj1 (hex_concatenation "dead" "beef" [xde; xad] [xbe; xef]
                  eq_refl eq_refl)).
Defined.

(** X9: [fromHex] takes the digits in either case.  The text [toHex] gives
    for a byte sequence, put in upper case, is decoded to the same bytes. *)
Theorem fromHex_upper_case (b : Uint8Array) :
  fromHex (string_map upper_case (toHex b)) = Return b.
Proof.
  rewrite fromHex_pairs.
  - now rewrite hex_pairs_upper_toHex.
  - rewrite string_map_length, toHex_length.
    rewrite Nat.mul_comm. apply Nat.Div0.mod_mul.
Qed.

(** ** Further properties of the module as built *)

Section OnModule.

Variable X : Type.
Variable L : Library X.

#[local] Arguments Wrapper.load : simpl never.
#[local] Arguments Wrapper.store : simpl never.
#[local] Arguments poke : simpl never.
#[local] Arguments slice : simpl never.
#[local] Arguments typed_set : simpl never.
#[local] Arguments Glue.UTF8ToString : simpl never.
#[local] Arguments Glue.cwrap : simpl never.
#[local] Arguments int_bytes : simpl never.
#[local] Arguments len_of : simpl never.
#[local] Arguments Glue.utf8_decode : simpl never.
#[local] Arguments Glue.getValue : simpl never.
#[local] Arguments Glue.written_by_stringToUTF8 : simpl never.
#[local] Arguments Glue.write_elements : simpl never.
#[local] Arguments new_Uint8Array : simpl never.
#[local] Arguments view_Uint8Array : simpl never.

Ltac store_case :=
  match goal with |- context [Wrapper.store X ?p ?bs ?m] =>
    let E := fresh "E" in let e := fresh "e" in let Hb := fresh "Hb" in
    destruct (store_cases X p bs m) as [E | [[e E] Hb]]; rewrite E; clear E; cbn
  end.

Ltac load_case :=
  match goal with |- context [Wrapper.load X ?p ?n ?m] =>
    let E := fresh "E" in let e := fresh "e" in let Hb := fresh "Hb" in
    destruct (load_cases X p n m) as [E | [[e E] Hb]]; rewrite E; clear E; cbn
  end.

Ltac lengths :=
  cbn [HEAPU8];
  repeat (rewrite poke_len by lengths);
  rewrite ?write_elements_len, ?int_bytes_len, ?len_of_app;
  try change (len_of [x00]) with 1%Z;
  lia.

Ltac impossible Hb :=
  rewrite <- not_true_iff_false, in_bounds_iff in Hb; exfalso; apply Hb;
  lengths.

Lemma cwrap_get_error_string (m : Wasm (Guest X)) :
  Glue.cwrap L "get_error_string" cstring [] [] m
  = match Wrapper.get_error_string L m with
    | (Return r, m1) => (Return (Glue.UTF8ToString r m1), m1)
    | (Throw e, m1) => (Throw e, m1)
    end.
Proof. reflexivity. Qed.

Lemma cwrap_random_bytes (tys : list ctype) (a b : Z) (m : Wasm (Guest X)) :
  Glue.cwrap L "random_bytes" number tys [a; b] m
  = Wrapper.random_bytes L a b m.
Proof.
  unfold Glue.cwrap. cbn.
  now destruct (Wrapper.random_bytes L a b m) as [[r|e] m1].
Qed.

Lemma cwrap_digest (type : EVP_MD) (tys : list ctype) (a b c : Z)
    (m : Wasm (Guest X)) :
  Glue.cwrap L
    match type with
    | EVP_sha1 => "sha1_digest" | EVP_sha256 => "sha256_digest"
    | EVP_sha384 => "sha384_digest" | EVP_sha512 => "sha512_digest"
    | EVP_md5 => "md5_digest"
    end number tys [a; b; c] m
  = Wrapper.evp_digest X L type a b c m.
Proof.
  unfold Glue.cwrap. destruct type; cbn;
    unfold Wrapper.sha1_digest, Wrapper.sha256_digest, Wrapper.sha384_digest,
      Wrapper.sha512_digest, Wrapper.md5_digest;
    match goal with |- context [Wrapper.evp_digest X L ?t a b c m] =>
      now destruct (Wrapper.evp_digest X L t a b c m) as [[r|e] m1]
    end.
Qed.

(** With nothing on the error queue, [get_error_string] gives the empty
    string, and leaves the memory as it is. *)
Lemma no_error_string (heap : Uint8Array) (x x' : X) (log : list HeapEvent) :
  ERR_get_error L x = (0%Z, x') ->
  Glue.cwrap L "get_error_string" cstring [] [] (mkWasm heap (mkGuest x log))
  = (Return "", mkWasm heap (mkGuest x' log)).
Proof.
  intros H. rewrite cwrap_get_error_string.
  unfold Wrapper.get_error_string, Wrapper.cbind, Wrapper.lib, Wrapper.creturn.
  cbn. rewrite H. reflexivity.
Qed.

End OnModule.

(** X10: what [get_error_string] gives on the module as built.  It takes the
    earliest entry off the library's error queue.  With no entry the C
    function returns the null pointer, the runtime makes the empty string of
    it, and the memory is untouched.  With an entry whose text the library
    writes as ASCII characters and a zero byte into the static buffer, the
    string is that text. *)
Theorem get_error_string_text {X} (L : Library X) (m : Wasm (Guest X))
    (err : Z) (x' : X)
    (Hqueue : ERR_get_error L (lib_state (hidden m)) = (err, x')) :
  (err = 0%Z ->
     Glue.cwrap L "get_error_string" cstring [] [] m
     = (Return "", mkWasm (HEAPU8 m) (mkGuest x' (heap_log (hidden m)))))
  /\ (err <> 0%Z ->
      forall text,
        ERR_error_string_n L err 256 = text ++ [x00] ->
        forallb is_text_byte text = true ->
        (0 < error_string L)%Z ->
        (error_string L + len_of text + 1 <= len_of (HEAPU8 m))%Z ->
        Glue.cwrap L "get_error_string" cstring [] [] m
        = (Return (Glue.utf8_decode text),
           mkWasm (poke (HEAPU8 m) (error_string L) (text ++ [x00]))
             (mkGuest x' (heap_log (hidden m))))).
Proof.
  destruct m as [heap [x log]]. cbn [hidden lib_state HEAPU8 heap_log] in *.
  split.
  - intros ->. now apply no_error_string.
  - intros Herr text Htext Hascii Hpos Hfit.
    apply Z.eqb_neq in Herr.
    rewrite cwrap_get_error_string.
    unfold Wrapper.get_error_string, Wrapper.cbind, Wrapper.lib, Wrapper.creturn.
    cbn [hidden lib_state HEAPU8 heap_log]. rewrite Hqueue, Herr, Htext.
    pose proof (len_of_nonneg text) as Hlen.
    destruct (store_cases X (error_string L) (text ++ [x00])
                (mkWasm heap (mkGuest x' log))) as [E | [[e E] Hb]];
      rewrite E; clear E.
    + cbn [hidden HEAPU8]. f_equal. f_equal.
      unfold Glue.UTF8ToString. cbn [HEAPU8].
      replace (error_string L <=? 0)%Z with false
        by (symmetry; apply Z.leb_gt; lia).
      f_equal. apply c_string_at; try assumption; try lia.
      * rewrite poke_len; rewrite ?len_of_app; change (len_of [x00]) with 1%Z; lia.
      * replace (len_of text + 1)%Z with (len_of (text ++ [x00]))
          by (rewrite len_of_app; reflexivity).
        apply slice_poke_same; rewrite ?len_of_app;
          change (len_of [x00]) with 1%Z; lia.
    + exfalso. rewrite <- not_true_iff_false, in_bounds_iff in Hb. apply Hb.
      cbn [HEAPU8]. rewrite len_of_app. change (len_of [x00]) with 1%Z. lia.
Qed.

(** [get_error_string] with one entry on the queue of [Sample], and with
    none. *)
Lemma get_error_string_text_witness :
  let L := Sample.library 1024 in
  let m := wasm (Sample.start [478150822%Z]) in
  let m0 := wasm (Sample.start []) in
  ERR_get_error L (lib_state (hidden m)) = (478150822%Z, Sample.mkX 512 0 [] [])
  /\ fst (Glue.cwrap L "get_error_string" cstring [] [] m)
     = Return "error:1C8000A6:Provider routines"
  /\ ERR_get_error L (lib_state (hidden m0)) = (0%Z, Sample.mkX 512 0 [] [])
  /\ Glue.cwrap L "get_error_string" cstring [] [] m0 = (Return "", m0).
Proof.
  intros L m m0.
  destruct (get_error_string_text L m 478150822 (Sample.mkX 512 0 [] []) eq_refl)
    as [_ Hsome].
  destruct (get_error_string_text L m0 0 (Sample.mkX 512 0 [] []) eq_refl)
    as [Hnone _].
  split; [reflexivity|]. split.
  - rewrite (Hsome ltac:(discriminate) Sample.reason);
      [reflexivity | reflexivity | reflexivity | reflexivity
      | vm_compute; discriminate].
  - split; [reflexivity|]. exact (Hnone eq_refl).
Defined.


Section RandomOnModule.

Variable X : Type.
Variable L : Library X.

#[local] Arguments Wrapper.load : simpl never.
#[local] Arguments Wrapper.store : simpl never.
#[local] Arguments poke : simpl never.
#[local] Arguments slice : simpl never.
#[local] Arguments typed_set : simpl never.
#[local] Arguments Glue.UTF8ToString : simpl never.
#[local] Arguments Glue.cwrap : simpl never.
#[local] Arguments len_of : simpl never.
#[local] Arguments new_Uint8Array : simpl never.
#[local] Arguments view_Uint8Array : simpl never.

Ltac js_case :=
  match goal with
  | |- context [new_Uint8Array ?n] =>
      let E := fresh "Enew" in destruct (new_Uint8Array n) eqn:E; cbn
  | |- context [view_Uint8Array ?h ?p ?n] =>
      let E := fresh "Eview" in destruct (view_Uint8Array h p n) eqn:E; cbn
  | |- context [typed_set ?t ?v ?o] =>
      let E := fresh "Eset" in destruct (typed_set t v o) eqn:E; cbn
  end.

Lemma randomBytes_heap_activity (s : State (Guest X)) (n p : Z) (x1 : X) :
  lib_malloc L n (lib_state (hidden (wasm s))) = (p, x1) ->
  heap_activity s (final (randomBytes (Glue.instance L) n s))
  = [Alloc n p; Release p].
Proof.
  destruct s as [[heap [x0 l0]] init]. cbn [wasm hidden lib_state]. intros Ha.
  unfold randomBytes, _random_bytes, _get_error_string,
    try_finally, bind, ret, throw, lift, malloc, free, wrapped, HEAPU8_view.
  cbn. unfold Wrapper.malloc_raw. cbn. rewrite Ha. cbn.
  rewrite cwrap_random_bytes.
  unfold Wrapper.random_bytes, Wrapper.cbind, Wrapper.lib, Wrapper.creturn.
  cbn. destruct (RAND_bytes L n x1) as [[st out] x2]. cbn.
  match goal with |- context [Wrapper.store X ?a ?bs ?m] =>
    destruct (store_cases X a bs m) as [E | [[e E] Hb]]; rewrite E; clear E; cbn
  end.
  - destruct (st =? 1)%Z; cbn.
    + repeat js_case;
        unfold heap_activity; cbn; rewrite <- app_assoc;
        now rewrite skipn_app_exact.
    + match goal with |- context [Glue.cwrap L "get_error_string" ?t ?a ?c ?m] =>
        pose proof (get_error_string_log X L m) as [Hlog _];
        destruct (Glue.cwrap L "get_error_string" t a c m) as [c0 m0]
      end.
      cbn in Hlog. destruct c0; cbn; unfold heap_activity; cbn; rewrite Hlog;
        rewrite <- app_assoc; now rewrite skipn_app_exact.
  - unfold heap_activity; cbn; rewrite <- app_assoc; now rewrite skipn_app_exact.
Qed.

Lemma randomBytes_returns_generated (s : State (Guest X)) (n p : Z)
    (out : Uint8Array) (x1 x2 : X) :
  lib_malloc L n (lib_state (hidden (wasm s))) = (p, x1) ->
  RAND_bytes L n x1 = ((1%Z, out), x2) ->
  len_of out = n ->
  (0 <= p)%Z -> (p + n <= len_of (HEAPU8 (wasm s)))%Z ->
  result (randomBytes (Glue.instance L) n s) = Return out.
Proof.
  destruct s as [[heap [x0 l0]] init]. cbn [wasm hidden lib_state HEAPU8].
  intros Ha Hr Hlen Hp Hfit.
  pose proof (len_of_nonneg out) as Hn.
  unfold randomBytes, _random_bytes, _get_error_string,
    try_finally, bind, ret, throw, lift, malloc, free, wrapped, HEAPU8_view.
  cbn. unfold Wrapper.malloc_raw. cbn. rewrite Ha. cbn.
  rewrite cwrap_random_bytes.
  unfold Wrapper.random_bytes, Wrapper.cbind, Wrapper.lib, Wrapper.creturn.
  cbn. rewrite Hr. cbn.
  match goal with |- context [Wrapper.store X ?a ?bs ?m] =>
    destruct (store_cases X a bs m) as [E | [[e E] Hb]]; rewrite E; clear E; cbn
  end.
  2:{ rewrite <- not_true_iff_false, in_bounds_iff in Hb. exfalso. apply Hb.
      cbn [HEAPU8]. lia. }
  unfold new_Uint8Array.
  replace (n <? 0)%Z with false by (symmetry; apply Z.ltb_ge; lia). cbn.
  rewrite view_Uint8Array_in_range;
    [| lia | lia | fold (len_of (poke heap p out)); rewrite poke_len; lia].
  cbn. subst n. rewrite slice_poke_same by lia.
  rewrite typed_set_whole; [reflexivity|].
  unfold zeros. rewrite repeat_length. unfold len_of. lia.
Qed.

Lemma randomBytes_reports_failure (s : State (Guest X)) (n p st : Z)
    (out : Uint8Array) (x1 x2 x3 : X) :
  lib_malloc L n (lib_state (hidden (wasm s))) = (p, x1) ->
  RAND_bytes L n x1 = ((st, out), x2) ->
  st <> 1%Z ->
  ERR_get_error L x2 = (0%Z, x3) ->
  (0 <= p)%Z -> (p + len_of out <= len_of (HEAPU8 (wasm s)))%Z ->
  result (randomBytes (Glue.instance L) n s)
  = Throw (Error "Failed to generate random bytes: ").
Proof.
  destruct s as [[heap [x0 l0]] init]. cbn [wasm hidden lib_state HEAPU8].
  intros Ha Hr Hst Herr Hp Hfit. apply Z.eqb_neq in Hst.
  unfold randomBytes, _random_bytes, _get_error_string,
    try_finally, bind, ret, throw, lift, malloc, free, wrapped, HEAPU8_view.
  cbn. unfold Wrapper.malloc_raw. cbn. rewrite Ha. cbn.
  rewrite cwrap_random_bytes.
  unfold Wrapper.random_bytes, Wrapper.cbind, Wrapper.lib, Wrapper.creturn.
  cbn. rewrite Hr. cbn.
  match goal with |- context [Wrapper.store X ?a ?bs ?m] =>
    destruct (store_cases X a bs m) as [E | [[e E] Hb]]; rewrite E; clear E; cbn
  end.
  2:{ rewrite <- not_true_iff_false, in_bounds_iff in Hb. exfalso. apply Hb.
      cbn [HEAPU8]. pose proof (len_of_nonneg out). lia. }
  rewrite Hst. cbn.
  rewrite (no_error_string X L _ x2 x3 _ Herr). cbn. reflexivity.
Qed.

End RandomOnModule.

(** X11: [randomBytes(n)] on the module as built, with the allocator giving
    a block of [n] bytes at [p] inside the memory.  When [RAND_bytes] reports
    1 and has filled the [n] bytes, the method returns exactly the bytes the
    generator produced.  When it reports anything else and the error queue
    is empty, the method throws [Error "Failed to generate random bytes: "]
    with nothing after the colon.  Either way, and also when the module
    traps, the allocator has been asked for one block and has been given it
    back: C's [random_bytes] allocates nothing. *)
Theorem randomBytes_on_module {X} (L : Library X) (s : State (Guest X))
    (n p st : Z) (out : Uint8Array) (x1 x2 : X)
    (Halloc : lib_malloc L n (lib_state (hidden (wasm s))) = (p, x1))
    (Hrand : RAND_bytes L n x1 = ((st, out), x2))
    (Hblock : (0 <= p /\ p + n <= len_of (HEAPU8 (wasm s)))%Z)
    (Hout : (len_of out <= n)%Z) :
  let o := randomBytes (Glue.instance L) n s in
  (st = 1%Z -> len_of out = n -> result o = Return out)
  /\ (st <> 1%Z ->
      forall x3, ERR_get_error L x2 = (0%Z, x3) ->
      result o = Throw (Error "Failed to generate random bytes: "))
  /\ heap_activity s (final o) = [Alloc n p; Release p].
Proof.
  destruct Hblock as [Hp Hfit]. split; [|split].
  - intros -> Hlen. eapply randomBytes_returns_generated; eassumption.
  - intros Hst x3 Herr.
    eapply randomBytes_reports_failure; try eassumption. lia.
  - eapply randomBytes_heap_activity; eassumption.
Qed.

(** Four bytes from the counting generator of [Stub], and the failing
    generator of [Sample] with nothing on the error queue. *)
Lemma randomBytes_on_module_witness :
  let L := Stub.library 256 in
  let o := randomBytes (Glue.instance L) 4 Stub.start in
  let L' := Sample.library 1024 in
  let o' := randomBytes (Glue.instance L') 4 (Sample.start []) in
  (lib_malloc L 4 (lib_state (hidden (wasm Stub.start))) = (16%Z, Stub.mkX 24 0)
   /\ RAND_bytes L 4 (Stub.mkX 24 0) = ((1%Z, [x00; x01; x02; x03]), Stub.mkX 24 4)
   /\ (0 <= 16 /\ 16 + 4 <= len_of (HEAPU8 (wasm Stub.start)))%Z
   /\ result o = Return [x00; x01; x02; x03]
   /\ heap_activity Stub.start (final o) = [Alloc 4 16; Release 16])
  /\ (lib_malloc L' 4 (lib_state (hidden (wasm (Sample.start []))))
      = (512%Z, Sample.mkX 520 0 [] [])
      /\ RAND_bytes L' 4 (Sample.mkX 520 0 [] [])
         = ((0%Z, []), Sample.mkX 520 0 [] [])
      /\ 0%Z <> 1%Z
      /\ ERR_get_error L' (Sample.mkX 520 0 [] []) = (0%Z, Sample.mkX 520 0 [] [])
      /\ result o' = Throw (Error "Failed to generate random bytes: ")).
Proof.
  intros L o L' o'.
  assert (Hb : (0 <= 16 /\ 16 + 4 <= len_of (HEAPU8 (wasm Stub.start)))%Z)
    by (vm_compute; split; discriminate).
  assert (Hl : (len_of [x00; x01; x02; x03] <= 4)%Z) by (vm_compute; discriminate).
  assert (Hb' : (0 <= 512 /\ 512 + 4 <= len_of (HEAPU8 (wasm (Sample.start []))))%Z)
    by (vm_compute; split; discriminate).
  assert (Hl' : (len_of (@nil byte) <= 4)%Z) by (vm_compute; discriminate).
  assert (Hne : 0%Z <> 1%Z) by discriminate.
  destruct (randomBytes_on_module L Stub.start 4 16 1 [x00; x01; x02; x03]
              (Stub.mkX 24 0) (Stub.mkX 24 4) eq_refl eq_refl Hb Hl)
    as (Hok & _ & Hact).
  destruct (randomBytes_on_module L' (Sample.start []) 4 512 0 []
              (Sample.mkX 520 0 [] []) (Sample.mkX 520 0 [] [])
              eq_refl eq_refl Hb' Hl')
    as (_ & Hfail & _).
  split.
  - split; [reflexivity|]. split; [reflexivity|]. split; [exact Hb|].
    split; [exact (Hok eq_refl eq_refl) | exact Hact].
  - split; [reflexivity|]. split; [reflexivity|]. split; [exact Hne|].
    split; [reflexivity|]. exact (Hfail Hne _ eq_refl).
Defined.

Section DigestOnModule.

Variable X : Type.
Variable L : Library X.

#[local] Arguments Wrapper.load : simpl never.
#[local] Arguments Wrapper.store : simpl never.
#[local] Arguments poke : simpl never.
#[local] Arguments slice : simpl never.
#[local] Arguments typed_set : simpl never.
#[local] Arguments Glue.UTF8ToString : simpl never.
#[local] Arguments Glue.cwrap : simpl never.
#[local] Arguments len_of : simpl never.
#[local] Arguments new_Uint8Array : simpl never.
#[local] Arguments view_Uint8Array : simpl never.
#[local] Arguments inputData_of : simpl never.

(** The C digest on an input that lies in the memory, when the library
    makes a context and its three steps report 1. *)
Lemma evp_digest_success (type : EVP_MD) (heap input md : Uint8Array)
    (p q ctx : Z) (x2 x3 x4 x5 x6 : X) (log : list HeapEvent) :
  EVP_MD_CTX_new L x2 = (ctx, x3) -> ctx <> 0%Z ->
  EVP_DigestInit_ex L ctx type x3 = (1%Z, x4) ->
  EVP_DigestUpdate L ctx input x4 = (1%Z, x5) ->
  EVP_DigestFinal_ex L ctx x5 = ((1%Z, md), x6) ->
  (0 <= p)%Z -> (p + len_of input <= len_of heap)%Z ->
  (0 <= q)%Z -> (q + len_of md <= len_of heap)%Z ->
  slice heap p (len_of input) = input ->
  Wrapper.evp_digest X L type p (len_of input) q (mkWasm heap (mkGuest x2 log))
  = (Return 1%Z,
     mkWasm (poke heap q md) (mkGuest (EVP_MD_CTX_free L ctx x6) log)).
Proof.
  intros Hnew Hctx Hinit Hupdate Hfinal Hp Hpfit Hq Hqfit Hin.
  apply Z.eqb_neq in Hctx.
  unfold Wrapper.evp_digest, Wrapper.cbind, Wrapper.lib, Wrapper.lib_,
    Wrapper.creturn.
  cbn. rewrite Hnew, Hctx. cbn. rewrite Hinit. cbn.
  destruct (load_cases X p (len_of input) (mkWasm heap (mkGuest x4 log)))
    as [E | [[e E] Hb]]; rewrite E; clear E; cbn.
  2:{ rewrite <- not_true_iff_false, in_bounds_iff in Hb. exfalso. apply Hb.
      cbn [HEAPU8]. pose proof (len_of_nonneg input). lia. }
  replace (if (len_of input <=? 0)%Z then [] else slice heap p (len_of input))
    with input.
  2:{ destruct (len_of input <=? 0)%Z eqn:E0; [|now rewrite Hin].
      apply Z.leb_le in E0. destruct input; [reflexivity|].
      unfold len_of in E0. cbn in E0. lia. }
  rewrite Hupdate. cbn. rewrite Hfinal. cbn.
  destruct (store_cases X q md (mkWasm heap (mkGuest x6 log)))
    as [E | [[e E] Hb]]; rewrite E; clear E; cbn.
  2:{ rewrite <- not_true_iff_false, in_bounds_iff in Hb. exfalso. apply Hb.
      cbn [HEAPU8]. pose proof (len_of_nonneg md). lia. }
  reflexivity.
Qed.

Lemma digest_method_success (s : State (Guest X)) (type : EVP_MD) (data : Data)
    (p q ctx : Z) (md : Uint8Array) (x1 x2 x3 x4 x5 x6 : X) :
  lib_malloc L (len_of (inputData_of data)) (lib_state (hidden (wasm s))) = (p, x1) ->
  lib_malloc L (digest_size type) x1 = (q, x2) ->
  (0 <= p)%Z -> (p + len_of (inputData_of data) <= len_of (HEAPU8 (wasm s)))%Z ->
  (0 <= q)%Z -> (q + digest_size type <= len_of (HEAPU8 (wasm s)))%Z ->
  EVP_MD_CTX_new L x2 = (ctx, x3) -> ctx <> 0%Z ->
  EVP_DigestInit_ex L ctx type x3 = (1%Z, x4) ->
  EVP_DigestUpdate L ctx (inputData_of data) x4 = (1%Z, x5) ->
  EVP_DigestFinal_ex L ctx x5 = ((1%Z, md), x6) ->
  len_of md = digest_size type ->
  digest_method (Glue.instance L) type data s
  = mkOutcome (Return md)
      (mkState
         (mkWasm (poke (poke (HEAPU8 (wasm s)) p (inputData_of data)) q md)
            (mkGuest (lib_free L q (lib_free L p (EVP_MD_CTX_free L ctx x6)))
               (heap_log (hidden (wasm s))
                ++ [Alloc (len_of (inputData_of data)) p;
                    Alloc (digest_size type) q; Release p; Release q])))
         (initialized s))
      [Malloc (len_of (inputData_of data)) p; Malloc (digest_size type) q;
       HeapSet (inputData_of data) p;
       Call match type with
            | EVP_sha1 => "sha1_digest" | EVP_sha256 => "sha256_digest"
            | EVP_sha384 => "sha384_digest" | EVP_sha512 => "sha512_digest"
            | EVP_md5 => "md5_digest"
            end [p; len_of (inputData_of data); q];
       HeapView q (digest_size type); Free p; Free q].
Proof.
  destruct s as [[heap [x0 l0]] init].
  cbn [wasm hidden lib_state HEAPU8 heap_log initialized].
  intros Hp Hq Hp0 Hpfit Hq0 Hqfit Hnew Hctx Hinit Hupdate Hfinal Hmd.
  set (input := inputData_of data) in *.
  pose proof (len_of_nonneg input) as Hin0.
  assert (Hd0 : (0 <= digest_size type)%Z)
    by (rewrite <- Hmd; apply len_of_nonneg).
  assert (Hset : typed_set heap input p = Return (poke heap p input)).
  { unfold typed_set.
    replace ((p <? 0) || (Z.of_nat (List.length heap) <? p + Z.of_nat (List.length input)))%Z
      with false; [reflexivity|].
    symmetry. apply orb_false_iff. unfold len_of in *. split;
      [apply Z.ltb_ge | apply Z.ltb_ge]; lia. }
  assert (Hview : view_Uint8Array (poke (poke heap p input) q md) q (digest_size type)
                  = Return md).
  { rewrite view_Uint8Array_in_range.
    - rewrite <- Hmd. now rewrite slice_poke_same by (rewrite ?poke_len; lia).
    - lia.
    - lia.
    - fold (len_of (poke (poke heap p input) q md)).
      rewrite !poke_len; rewrite ?poke_len; lia. }
  assert (Hout : typed_set (zeros (Z.to_nat (digest_size type))) md 0 = Return md).
  { apply typed_set_whole. unfold zeros. rewrite repeat_length.
    unfold len_of in Hmd. lia. }
  assert (Hnew' : new_Uint8Array (digest_size type)
                  = Return (zeros (Z.to_nat (digest_size type)))).
  { unfold new_Uint8Array. now destruct type. }
  pose proof (fun log =>
    evp_digest_success type (poke heap p input) input md p q ctx x2 x3 x4 x5 x6 log
      Hnew Hctx Hinit Hupdate Hfinal Hp0
      ltac:(rewrite poke_len; lia) Hq0
      ltac:(rewrite poke_len; lia)
      ltac:(apply slice_poke_same; lia)) as Hc.
  destruct type;
    unfold digest_method, sha1, sha256, sha384, sha512, md5,
      _sha1_digest, _sha256_digest, _sha384_digest, _sha512_digest, _md5_digest,
      _get_error_string,
      try_finally, bind, ret, throw, lift, malloc, free, wrapped,
      HEAPU8_set, HEAPU8_view;
    cbn [digest_size] in *; fold input;
    cbn; unfold Wrapper.malloc_raw; cbn;
    rewrite Hp; cbn; rewrite Hq; cbn; rewrite Hset; cbn;
    match goal with
    | |- context [Glue.cwrap L ?name number ?tys [?a; ?b; ?c] ?m] =>
        match goal with
        | Hc : forall log, Wrapper.evp_digest X L ?t _ _ _ _ = _ |- _ =>
            let H := fresh in
            pose proof (cwrap_digest X L t tys a b c m) as H;
            cbv iota beta in H; rewrite H; clear H
        end
    end;
    rewrite Hc; cbn -[Z.to_nat zeros]; rewrite Hnew'; cbn -[Z.to_nat zeros];
    rewrite Hview; cbn -[Z.to_nat zeros]; rewrite Hout; cbn;
    unfold Wrapper.free_raw; cbn; rewrite <- !app_assoc; reflexivity.
Qed.

End DigestOnModule.

(** X12: the digest methods on the module as built.  For each of [sha1],
    [sha256], [sha384], [sha512] and [md5], with the allocator giving blocks
    inside the memory for the input and for the digest: when the library
    makes a context and initialising it for the method's algorithm, updating
    it with the bytes of the input and finishing it each report 1, the
    method returns the digest the library produced.  The library was given
    exactly the caller's bytes (the UTF-8 encoding of a text), the context
    was freed after the last step, and the allocator has been asked for the
    two blocks and given both back. *)
Theorem digest_on_module {X} (L : Library X) (s : State (Guest X))
    (type : EVP_MD) (data : Data) (p q ctx : Z) (md : Uint8Array)
    (x1 x2 x3 x4 x5 x6 : X)
    (Hp : lib_malloc L (len_of (inputData_of data)) (lib_state (hidden (wasm s)))
          = (p, x1))
    (Hq : lib_malloc L (digest_size type) x1 = (q, x2))
    (Hblocks : (0 <= p /\ p + len_of (inputData_of data) <= len_of (HEAPU8 (wasm s))
                /\ 0 <= q /\ q + digest_size type <= len_of (HEAPU8 (wasm s)))%Z)
    (Hnew : EVP_MD_CTX_new L x2 = (ctx, x3)) (Hctx : ctx <> 0%Z)
    (Hinit : EVP_DigestInit_ex L ctx type x3 = (1%Z, x4))
    (Hupdate : EVP_DigestUpdate L ctx (inputData_of data) x4 = (1%Z, x5))
    (Hfinal : EVP_DigestFinal_ex L ctx x5 = ((1%Z, md), x6))
    (Hmd : len_of md = digest_size type) :
  let o := digest_method (Glue.instance L) type data s in
  result o = Return md
  /\ lib_state (hidden (wasm (final o)))
     = lib_free L q (lib_free L p (EVP_MD_CTX_free L ctx x6))
  /\ heap_activity s (final o)
     = [Alloc (len_of (inputData_of data)) p; Alloc (digest_size type) q;
        Release p; Release q].
Proof.
  destruct Hblocks as (Hp0 & Hpfit & Hq0 & Hqfit). cbn zeta.
  rewrite (digest_method_success X L s type data p q ctx md x1 x2 x3 x4 x5 x6)
    by assumption.
  cbn [result final wasm hidden lib_state heap_log].
  split; [reflexivity|]. split; [reflexivity|].
  unfold heap_activity. cbn [final wasm hidden heap_log].
  apply skipn_app_exact.
Qed.
(** [sha256] of the text ["abc"] on the library of [Sample]: 32 times the
    sum of the three bytes. *)
Lemma digest_on_module_witness :
  let L := Sample.library 1024 in
  let s := Sample.start [] in
  let md := repeat x26 32 in
  (lib_malloc L 3 (lib_state (hidden (wasm s))) = (512%Z, Sample.mkX 520 0 [] [])
   /\ lib_malloc L 32 (Sample.mkX 520 0 [] []) = (520%Z, Sample.mkX 552 0 [] [])
   /\ EVP_MD_CTX_new L (Sample.mkX 552 0 [] []) = (4%Z, Sample.mkX 552 0 [] [])
   /\ 4%Z <> 0%Z
   /\ EVP_DigestInit_ex L 4 EVP_sha256 (Sample.mkX 552 0 [] [])
      = (1%Z, Sample.mkX 552 32 [] [])
   /\ EVP_DigestUpdate L 4 [x61; x62; x63] (Sample.mkX 552 32 [] [])
      = (1%Z, Sample.mkX 552 32 [x61; x62; x63] [])
   /\ EVP_DigestFinal_ex L 4 (Sample.mkX 552 32 [x61; x62; x63] [])
      = ((1%Z, md), Sample.mkX 552 32 [x61; x62; x63] [])
   /\ len_of md = 32%Z)
  /\ result (digest_method (Glue.instance L) EVP_sha256 (Text "abc") s)
     = Return md.
Proof.
  intros L s md.
  assert (Hne : 4%Z <> 0%Z) by discriminate.
  assert (Hblocks : (0 <= 512
                     /\ 512 + len_of (inputData_of (Text "abc")) <= len_of (HEAPU8 (wasm s))
                     /\ 0 <= 520
                     /\ 520 + digest_size EVP_sha256 <= len_of (HEAPU8 (wasm s)))%Z)
    by (vm_compute; repeat split; discriminate).
  split; [repeat split; try (vm_compute; reflexivity); exact Hne|].
  refine (proj1 (digest_on_module L s EVP_sha256 (Text "abc") 512 520 4 md
                  (Sample.mkX 520 0 [] []) (Sample.mkX 552 0 [] [])
                  (Sample.mkX 552 0 [] []) (Sample.mkX 552 32 [] [])
                  (Sample.mkX 552 32 [x61; x62; x63] [])
                  (Sample.mkX 552 32 [x61; x62; x63] [])
                  _ _ Hblocks _ Hne _ _ _ _));
    vm_compute; reflexivity.
Defined.

Section DecodeOnModule.

Variable X : Type.
Variable L : Library X.

#[local] Arguments Wrapper.load : simpl never.
#[local] Arguments Wrapper.store : simpl never.
#[local] Arguments poke : simpl never.
#[local] Arguments slice : simpl never.
#[local] Arguments typed_set : simpl never.
#[local] Arguments Glue.UTF8ToString : simpl never.
#[local] Arguments Glue.cwrap : simpl never.
#[local] Arguments disciplined : simpl never.
#[local] Arguments heap_activity : simpl never.
#[local] Arguments int_bytes : simpl never.
#[local] Arguments len_of : simpl never.
#[local] Arguments Glue.utf8_decode : simpl never.
#[local] Arguments Glue.getValue : simpl never.
#[local] Arguments Glue.written_by_stringToUTF8 : simpl never.
#[local] Arguments Glue.write_elements : simpl never.
#[local] Arguments new_Uint8Array : simpl never.
#[local] Arguments view_Uint8Array : simpl never.

Ltac facts :=
  repeat match goal with
    | H : (_ && _)%bool = true |- _ => apply andb_prop in H; destruct H
    | H : (_ <? _)%Z = true |- _ => apply Z.ltb_lt in H
    | H : (_ <=? _)%Z = true |- _ => apply Z.leb_le in H
    | H : (_ =? _)%Z = true |- _ => apply Z.eqb_eq in H
    | H : (_ <? _)%Z = false |- _ => apply Z.ltb_ge in H
    | H : (_ <=? _)%Z = false |- _ => apply Z.leb_gt in H
    | H : (_ =? _)%Z = false |- _ => apply Z.eqb_neq in H
    | H : apart _ _ _ _ = true |- _ =>
        unfold apart in H; rewrite orb_true_iff, !Z.leb_le in H
    | H : (_ || _)%bool = false |- _ => apply orb_false_elim in H; destruct H
    | H : true = true |- _ => clear H
    end.

Ltac by_discipline :=
  unfold heap_activity; cbn; rewrite <- ?app_assoc, !skipn_app_exact;
  cbn; unfold disciplined; cbn;
  let H := fresh "Hheap" in intros H; facts.

Ltac lengths :=
  cbn [HEAPU8];
  repeat (rewrite poke_len by lengths);
  rewrite ?write_elements_len, ?int_bytes_len, ?len_of_app;
  try change (len_of [x00]) with 1%Z;
  lia.

Ltac impossible Hb :=
  rewrite <- not_true_iff_false, in_bounds_iff in Hb; exfalso; apply Hb;
  lengths.

Ltac store_case :=
  match goal with |- context [Wrapper.store X ?p ?bs ?m] =>
    let E := fresh "E" in let e := fresh "e" in let Hb := fresh "Hb" in
    destruct (store_cases X p bs m) as [E | [[e E] Hb]]; rewrite E; clear E; cbn
  end.

Ltac load_case :=
  match goal with |- context [Wrapper.load X ?p ?n ?m] =>
    let E := fresh "E" in let e := fresh "e" in let Hb := fresh "Hb" in
    destruct (load_cases X p n m) as [E | [[e E] Hb]]; rewrite E; clear E; cbn
  end.

Ltac error_case :=
  match goal with |- context [Glue.cwrap L "get_error_string" ?t ?a ?c ?m] =>
    let Hlog := fresh "Hlog" in let Hlen := fresh "Hlen" in
    let c0 := fresh "c" in let m0 := fresh "m" in
    pose proof (get_error_string_log X L m) as [Hlog Hlen];
    destruct (Glue.cwrap L "get_error_string" t a c m) as [c0 m0];
    cbn in Hlog, Hlen; destruct c0; cbn; unfold Wrapper.free_raw; cbn;
    rewrite Hlog
  end.

Ltac js_case :=
  match goal with
  | |- context [new_Uint8Array ?n] =>
      let E := fresh "Enew" in destruct (new_Uint8Array n) eqn:E; cbn
  | |- context [view_Uint8Array ?h ?p ?n] =>
      let E := fresh "Eview" in destruct (view_Uint8Array h p n) eqn:E; cbn
  | |- context [typed_set ?t ?v ?o] =>
      let E := fresh "Eset" in destruct (typed_set t v o) eqn:E; cbn
  end.

Lemma slice_prefix (heap : Uint8Array) (p : Z) (bs : Uint8Array) (r : Z) :
  (0 <= p)%Z -> (p + len_of bs <= len_of heap)%Z -> (0 <= r <= len_of bs)%Z ->
  slice (poke heap p bs) p r = firstn (Z.to_nat r) bs.
Proof.
  intros Hp Hfit Hr.
  rewrite <- (slice_poke_same heap p bs Hp Hfit) at 2.
  unfold slice. rewrite firstn_firstn. f_equal. unfold len_of in *. lia.
Qed.

Lemma decode_outcome (s : State (Guest X)) (text out : Uint8Array) (r : Z) :
  let size := len_of (HEAPU8 (wasm s)) in
  let n := len_of text in
  let dec := base64Decode (Glue.instance L) (Glue.utf8_decode text) s in
  forallb is_text_byte text = true ->
  BIO_base64_read L text n = (r, out) ->
  (len_of out <= n)%Z ->
  (- 2 ^ 31 <= r <= len_of out)%Z ->
  (size <= 2 ^ 31)%Z ->
  disciplined size [] (heap_activity s (final dec)) = true ->
  exists p q b,
    b <> 0%Z
    /\ heap_activity s (final dec)
       = Alloc n p :: Alloc 4 q :: Alloc n b
         :: (if (r <? 0)%Z then [] else [Release b]) ++ [Release p; Release q]
    /\ result dec
       = if (r <? 0)%Z then Throw RangeError
         else Return (firstn (Z.to_nat r) out).
Proof.
  destruct s as [[heap [x0 l0]] init]. cbn zeta. intros Htext Hread Hshort Hr Hsize.
  pose proof (len_of_nonneg out) as Hb0.
  pose proof (len_of_nonneg text) as Ht0.
  unfold base64Decode, _base64_decode, _get_error_string,
    try_finally, bind, ret, throw, lift, malloc, free, wrapped,
    writeString, readValue, HEAPU8_view.
  rewrite (utf8_decode_length text Htext).
  cbn. unfold Wrapper.malloc_raw. cbn.
  destruct (lib_malloc L (len_of text) x0) as [q1 x1]. cbn.
  destruct (lib_malloc L 4 x1) as [q2 x2]. cbn.
  unfold Glue.stringToUTF8. cbn [HEAPU8 hidden].
  rewrite (written_text text Htext).
  rewrite cwrap_base64_decode.
  unfold Wrapper.base64_decode, Wrapper.cbind, Wrapper.creturn, Wrapper.malloc.
  unfold Wrapper.malloc_raw. cbn.
  destruct (lib_malloc L (len_of text) x2) as [q3 x3]. cbn.
  destruct (q3 =? 0)%Z eqn:Eq3; cbn.
  { error_case; by_discipline; lia. }
  destruct (q1 =? 0)%Z eqn:Eq1; cbn.
  { repeat store_case; rewrite ?Eq3; cbn; repeat js_case;
      by_discipline; lia. }
  load_case.
  2:{ by_discipline. impossible Hb. }
  remember (if (len_of text <=? 0)%Z then []
            else slice (Glue.write_elements heap q1 (text ++ [x00])) q1 (len_of text))
    as input eqn:Hin.
  assert (Hinput : (0 <= q1)%Z -> (q1 + len_of text <= len_of heap)%Z -> input = text).
  { intros. subst input. destruct (len_of text <=? 0)%Z eqn:E0.
    - apply Z.leb_le in E0. destruct text; [reflexivity|].
      unfold len_of in E0. cbn in E0. lia.
    - apply slice_write_text; lia. }
  clear Hin.
  store_case.
  2:{ by_discipline. rewrite Hinput, Hread in Hb by lia. cbn [fst snd] in Hb.
      impossible Hb. }
  store_case.
  2:{ by_discipline. rewrite Hinput, Hread in Hb by lia. cbn [fst snd] in Hb.
      impossible Hb. }
  rewrite Eq3. cbn.
  repeat js_case; by_discipline;
    specialize (Hinput ltac:(lia) ltac:(lia)); subst input;
    rewrite Hread in *; cbn [fst snd] in *.
  all: exists q1, q2, q3.
  all: match goal with
       | H : new_Uint8Array (Glue.getValue ?p ?t ?M) = _ |- _ =>
           assert (Hg : Glue.getValue p t M = r)
             by (apply getValue_stored; try lengths;
                 change (2 ^ 31)%Z with 2147483648%Z in *; cbn [HEAPU8 wasm] in *; lia);
           rewrite Hg in *
       end.
  all: unfold new_Uint8Array in *.
  all: destruct (r <? 0)%Z eqn:Er; try discriminate; facts.
  all: cbn [app].
  all: try (split; [lia|]; split; [reflexivity|]; congruence).
  all: try match goal with
       | H : Return _ = Return _ |- _ => injection H as <-
       end.
  all: try match goal with
       | H : view_Uint8Array ?h ?p ?n = _ |- _ =>
           assert (Hview : view_Uint8Array h p n = Return (firstn (Z.to_nat r) out))
             by (rewrite (view_Uint8Array_in_range h p n)
                   by (try lia; fold (len_of h); lengths);
                 f_equal; rewrite slice_poke_apart by lengths;
                 apply slice_prefix; lengths)
       end.
  all: assert (Hset : typed_set (zeros (Z.to_nat r)) (firstn (Z.to_nat r) out) 0
                      = Return (firstn (Z.to_nat r) out))
         by (apply typed_set_whole; unfold zeros; rewrite repeat_length, length_firstn;
             unfold len_of in *; lia).
  all: try (split; [lia|]; split; [reflexivity|]; congruence).
  all: exfalso; congruence.
Qed.

End DecodeOnModule.

(** X13: what [base64Decode] makes of the one [BIO_read] of the C function,
    on the module as built and with an allocator that keeps its part of the
    bargain.  [BIO_read] reported [r], having put [out] in the buffer.  When
    [r] is not negative the method returns the first [r] bytes of [out]
    (none when [r] is 0: a text the filter cannot read is not reported as a
    failure), and all three blocks are given back.  When [r] is negative the
    C function still hands its buffer back with the negative length stored;
    the method throws a [RangeError], not an [Error] with a diagnostic, and
    the buffer of the C function is never released. *)
Theorem base64Decode_on_module {X} (L : Library X) (s : State (Guest X))
    (text out : Uint8Array) (r : Z) :
  let size := len_of (HEAPU8 (wasm s)) in
  let n := len_of text in
  let dec := base64Decode (Glue.instance L) (Glue.utf8_decode text) s in
  forallb is_text_byte text = true ->
  BIO_base64_read L text n = (r, out) ->
  (len_of out <= n)%Z ->
  (- 2 ^ 31 <= r <= len_of out)%Z ->
  (size <= 2 ^ 31)%Z ->
  disciplined size [] (heap_activity s (final dec)) = true ->
  exists p q b,
    b <> 0%Z
    /\ heap_activity s (final dec)
       = Alloc n p :: Alloc 4 q :: Alloc n b
         :: (if (r <? 0)%Z then [] else [Release b]) ++ [Release p; Release q]
    /\ result dec
       = if (r <? 0)%Z then Throw RangeError
         else Return (firstn (Z.to_nat r) out).
Proof. exact (decode_outcome X L s text out r). Qed.

(** The text ["!!!!"], which the base64 filter of [Stub] cannot read: a
    [RangeError], and the block at 40 is left allocated. *)
Lemma base64Decode_on_module_witness :
  let L := Stub.library 256 in
  let text := [x21; x21; x21; x21] in
  let dec := base64Decode (Glue.instance L) (Glue.utf8_decode text) Stub.start in
  (forallb is_text_byte text = true
   /\ BIO_base64_read L text (len_of text) = ((-1)%Z, [])
   /\ (len_of (@nil byte) <= len_of text)%Z
   /\ (- 2 ^ 31 <= -1 <= len_of (@nil byte))%Z
   /\ (len_of (HEAPU8 (wasm Stub.start)) <= 2 ^ 31)%Z
   /\ disciplined 256 [] (heap_activity Stub.start (final dec)) = true)
  /\ result dec = Throw RangeError
  /\ heap_activity Stub.start (final dec)
     = [Alloc 4 16; Alloc 4 24; Alloc 4 32; Release 16; Release 24].
Proof.
  intros L text dec.
  assert (H1 : forallb is_text_byte text = true) by (vm_compute; reflexivity).
  assert (H2 : BIO_base64_read L text (len_of text) = ((-1)%Z, []))
    by (vm_compute; reflexivity).
  assert (H3 : (len_of (@nil byte) <= len_of text)%Z) by (vm_compute; discriminate).
  assert (H4 : (- 2 ^ 31 <= -1 <= len_of (@nil byte))%Z)
    by (vm_compute; split; discriminate).
  assert (H5 : (len_of (HEAPU8 (wasm Stub.start)) <= 2 ^ 31)%Z)
    by (vm_compute; discriminate).
  assert (H6 : disciplined 256 [] (heap_activity Stub.start (final dec)) = true)
    by (vm_compute; reflexivity).
  split; [repeat split; assumption|].
  destruct (base64Decode_on_module L Stub.start text [] (-1) H1 H2 H3 H4 H5 H6)
    as (p & q & b & _ & _ & Hres).
  split; [exact Hres | vm_compute; reflexivity].
Defined.

Section ExhaustedOnModule.

Variable X : Type.
Variable L : Library X.

#[local] Arguments Wrapper.load : simpl never.
#[local] Arguments Wrapper.store : simpl never.
#[local] Arguments poke : simpl never.
#[local] Arguments slice : simpl never.
#[local] Arguments typed_set : simpl never.
#[local] Arguments Glue.UTF8ToString : simpl never.
#[local] Arguments Glue.cwrap : simpl never.
#[local] Arguments len_of : simpl never.
#[local] Arguments Glue.written_by_stringToUTF8 : simpl never.
#[local] Arguments Glue.write_elements : simpl never.
#[local] Arguments inputData_of : simpl never.

Lemma base64Decode_exhausted (s : State (Guest X)) (data : string)
    (p q : Z) (x1 x2 x3 x4 : X) :
  let n := Z.of_nat (String.length data) in
  lib_malloc L n (lib_state (hidden (wasm s))) = (p, x1) ->
  lib_malloc L 4 x1 = (q, x2) ->
  lib_malloc L n x2 = (0%Z, x3) ->
  ERR_get_error L x3 = (0%Z, x4) ->
  base64Decode (Glue.instance L) data s
  = mkOutcome (Throw (Error "Base64 decoding failed: "))
      (mkState
         (mkWasm
            (Glue.write_elements (HEAPU8 (wasm s)) p
               (Glue.written_by_stringToUTF8 data (n + 1)))
            (mkGuest (lib_free L q (lib_free L p x4))
               (heap_log (hidden (wasm s))
                ++ [Alloc n p; Alloc 4 q; Alloc n 0; Release p; Release q])))
         (initialized s))
      [Malloc n p; Malloc 4 q; WriteString data p (n + 1);
       Call "base64_decode" [p; n; q]; Call "get_error_string" [];
       Free p; Free q].
Proof.
  destruct s as [[heap [x0 l0]] init]. cbn zeta.
  cbn [wasm hidden lib_state HEAPU8 heap_log initialized].
  intros Hp Hq Hb Herr.
  unfold base64Decode, _base64_decode, _get_error_string,
    try_finally, bind, ret, throw, lift, malloc, free, wrapped,
    writeString, readValue, HEAPU8_view.
  cbn. unfold Wrapper.malloc_raw. cbn.
  rewrite Hp. cbn. rewrite Hq. cbn.
  unfold Glue.stringToUTF8. cbn [HEAPU8 hidden].
  rewrite cwrap_base64_decode.
  unfold Wrapper.base64_decode, Wrapper.cbind, Wrapper.creturn, Wrapper.malloc.
  unfold Wrapper.malloc_raw. cbn. rewrite Hb. cbn.
  rewrite (no_error_string X L _ x3 x4 _ Herr). cbn.
  unfold Wrapper.free_raw. cbn. rewrite <- !app_assoc. reflexivity.
Qed.

Lemma base64Encode_exhausted (s : State (Guest X)) (data : Data)
    (p q : Z) (x1 x2 x3 x4 : X) :
  let input := inputData_of data in
  let n := len_of input in
  lib_malloc L n (lib_state (hidden (wasm s))) = (p, x1) ->
  lib_malloc L 4 x1 = (q, x2) ->
  (0 <= p)%Z -> (p + n <= len_of (HEAPU8 (wasm s)))%Z ->
  lib_malloc L (len_of (BIO_base64_write L input) + 1) x2 = (0%Z, x3) ->
  ERR_get_error L x3 = (0%Z, x4) ->
  base64Encode (Glue.instance L) data s
  = mkOutcome (Throw (Error "Base64 encoding failed: "))
      (mkState
         (mkWasm (poke (HEAPU8 (wasm s)) p input)
            (mkGuest (lib_free L q (lib_free L p x4))
               (heap_log (hidden (wasm s))
                ++ [Alloc n p; Alloc 4 q;
                    Alloc (len_of (BIO_base64_write L input) + 1) 0;
                    Release p; Release q])))
         (initialized s))
      [Malloc n p; Malloc 4 q; HeapSet input p;
       Call "base64_encode" [p; n; q]; Call "get_error_string" [];
       Free p; Free q].
Proof.
  destruct s as [[heap [x0 l0]] init]. cbn zeta.
  cbn [wasm hidden lib_state HEAPU8 heap_log initialized].
  intros Hp Hq Hp0 Hfit Hb Herr.
  set (input := inputData_of data) in *.
  pose proof (len_of_nonneg input) as Hin0.
  assert (Hset : typed_set heap input p = Return (poke heap p input)).
  { unfold typed_set.
    replace ((p <? 0) || (Z.of_nat (List.length heap) <? p + Z.of_nat (List.length input)))%Z
      with false; [reflexivity|].
    symmetry. apply orb_false_iff. unfold len_of in *. split;
      [apply Z.ltb_ge | apply Z.ltb_ge]; lia. }
  unfold base64Encode, _base64_encode, _get_error_string,
    try_finally, bind, ret, throw, lift, malloc, free, wrapped,
    HEAPU8_set, readString.
  fold input.
  cbn. unfold Wrapper.malloc_raw. cbn.
  rewrite Hp. cbn. rewrite Hq. cbn. rewrite Hset. cbn.
  rewrite cwrap_base64_encode.
  unfold Wrapper.base64_encode, Wrapper.cbind, Wrapper.creturn, Wrapper.malloc.
  destruct (load_cases X p (len_of input)
              (mkWasm (poke heap p input) (mkGuest x2 (l0 ++ [Alloc (len_of input) p; Alloc 4 q]))))
    as [E | [[e E] Hbad]].
  2:{ rewrite <- not_true_iff_false, in_bounds_iff in Hbad. exfalso. apply Hbad.
      cbn [HEAPU8]. rewrite poke_len by lia. lia. }
  rewrite <- !app_assoc in *. cbn [app] in *.
  rewrite E. clear E. cbn.
  replace (if (len_of input <=? 0)%Z then [] else slice (poke heap p input) p (len_of input))
    with input.
  2:{ destruct (len_of input <=? 0)%Z eqn:E0.
      - apply Z.leb_le in E0. destruct input; [reflexivity|].
        unfold len_of in E0. cbn in E0. lia.
      - symmetry. apply slice_poke_same; lia. }
  unfold Wrapper.malloc_raw. cbn. rewrite Hb. cbn.
  rewrite (no_error_string X L _ x3 x4 _ Herr). cbn.
  unfold Wrapper.free_raw. cbn. rewrite <- !app_assoc. reflexivity.
Qed.

End ExhaustedOnModule.

(** X14: the allocator running out inside the C functions.  [base64_decode]
    and [base64_encode] make one allocation of their own, for the buffer
    they hand back.  When that allocation returns the null pointer, the C
    function returns null without having written to the memory, and, no
    entry being on the error queue, the method throws an [Error] whose
    message stops after the colon.  Its own two blocks are given back and
    the null pointer is not passed to [free]. *)
Theorem base64_buffer_exhausted {X} (L : Library X) (s : State (Guest X))
    (p q : Z) (x1 x2 x3 x4 : X)
    (Hq : lib_malloc L 4 x1 = (q, x2))
    (Herr : ERR_get_error L x3 = (0%Z, x4)) :
  (forall data : string,
     let n := Z.of_nat (String.length data) in
     let o := base64Decode (Glue.instance L) data s in
     lib_malloc L n (lib_state (hidden (wasm s))) = (p, x1) ->
     lib_malloc L n x2 = (0%Z, x3) ->
     result o = Throw (Error "Base64 decoding failed: ")
     /\ heap_activity s (final o)
        = [Alloc n p; Alloc 4 q; Alloc n 0; Release p; Release q]
     /\ HEAPU8 (wasm (final o))
        = Glue.write_elements (HEAPU8 (wasm s)) p
            (Glue.written_by_stringToUTF8 data (n + 1)))
  /\ (forall data : Data,
     let n := len_of (inputData_of data) in
     let m := (len_of (BIO_base64_write L (inputData_of data)) + 1)%Z in
     let o := base64Encode (Glue.instance L) data s in
     lib_malloc L n (lib_state (hidden (wasm s))) = (p, x1) ->
     (0 <= p /\ p + n <= len_of (HEAPU8 (wasm s)))%Z ->
     lib_malloc L m x2 = (0%Z, x3) ->
     result o = Throw (Error "Base64 encoding failed: ")
     /\ heap_activity s (final o)
        = [Alloc n p; Alloc 4 q; Alloc m 0; Release p; Release q]
     /\ HEAPU8 (wasm (final o)) = poke (HEAPU8 (wasm s)) p (inputData_of data)).
Proof.
  split.
  - intros data n o Hp Hb. subst o n.
    rewrite (base64Decode_exhausted X L s data p q x1 x2 x3 x4) by assumption.
    cbn [result final wasm hidden heap_log HEAPU8].
    split; [reflexivity|]. split; [|reflexivity].
    unfold heap_activity. cbn [final wasm hidden heap_log].
    apply skipn_app_exact.
  - intros data n m o Hp [Hp0 Hfit] Hb. subst o n m.
    rewrite (base64Encode_exhausted X L s data p q x1 x2 x3 x4) by assumption.
    cbn [result final wasm hidden heap_log HEAPU8].
    split; [reflexivity|]. split; [|reflexivity].
    unfold heap_activity. cbn [final wasm hidden heap_log].
    apply skipn_app_exact.
Qed.

(** The library of [Stub] with room for two blocks only. *)
Lemma base64_buffer_exhausted_witness :
  let L := Stub.library 32 in
  lib_malloc L 4 (Stub.mkX 24 0) = (24%Z, Stub.mkX 32 0)
  /\ ERR_get_error L (Stub.mkX 32 0) = (0%Z, Stub.mkX 32 0)
  /\ lib_malloc L 4 (Stub.mkX 32 0) = (0%Z, Stub.mkX 32 0)
  /\ result (base64Decode (Glue.instance L) "TQ==" Stub.start)
     = Throw (Error "Base64 decoding failed: ")
  /\ lib_malloc L 5 (Stub.mkX 32 0) = (0%Z, Stub.mkX 32 0)
  /\ result (base64Encode (Glue.instance L) (Bytes [x4d; x4d; x4d]) Stub.start)
     = Throw (Error "Base64 encoding failed: ").
Proof.
  intros L.
  destruct (base64_buffer_exhausted L Stub.start 16 24
              (Stub.mkX 24 0) (Stub.mkX 32 0) (Stub.mkX 32 0) (Stub.mkX 32 0)
              eq_refl eq_refl) as [Hdec Henc].
  split; [reflexivity|]. split; [reflexivity|]. split; [reflexivity|].
  split; [exact (proj1 (Hdec "TQ==" eq_refl eq_refl))|].
  split; [reflexivity|].
  refine (proj1 (Henc (Bytes [x4d; x4d; x4d]) eq_refl _ eq_refl)).
  vm_compute. split; discriminate.
Defined.

(** ** The context-managing functions of the C file *)

Section HandleFacts.

Variable X : Type.
Variable extern : string -> list Z -> X -> Z * X.

Ltac call_step :=
  match goal with
  | |- context [extern ?n ?a ?x] =>
      let r := fresh "r" in let x' := fresh "x" in
      destruct (extern n a x) as [r x'] eqn:?; cbn
  | |- context [(?a =? ?b)%Z] =>
      let E := fresh "E" in
      destruct (a =? b)%Z eqn:E; cbn;
      [apply Z.eqb_eq in E; try subst a | apply Z.eqb_neq in E]
  end.

Ltac run_c :=
  unfold Handles.aes_encrypt_init, Handles.aes_decrypt_init,
    Handles.aes_encrypt_final, Handles.aes_decrypt_final,
    Handles.rsa_generate_key, Handles.hmac_init, Handles.hmac_final,
    Handles.aes_cbc, Handles.cbind, Handles.call, Handles.creturn,
    Handles.NULL, Handles.RSA_F4;
  cbn; repeat call_step.

(** Membership in a log written out, one call after another. *)
Ltac in_log :=
  cbn [In];
  repeat match goal with
         | H : _ \/ _ |- _ => destruct H
         | H : False |- _ => destruct H
         | H : Handles.mkCall _ _ _ = Handles.mkCall _ _ _ |- _ =>
             injection H as ? ? ?; subst
         end.

Ltac settle :=
  unfold Handles.created, Handles.released, Handles.callees; cbn;
  rewrite ?Z.eqb_refl; cbn;
  repeat match goal with
         | H : ?a <> 0%Z |- context [(?a =? 0)%Z] =>
             rewrite (proj2 (Z.eqb_neq a 0) H); cbn
         end;
  repeat split; intros; try congruence; try tauto; try lia;
  try (exfalso; intuition lia);
  try (intuition discriminate);
  try (in_log; congruence);
  try (do 2 eexists; split; [reflexivity|]; cbn [In]; split;
       [right; left; reflexivity | right; right; left; reflexivity]).

Lemma aes_encrypt_init_contexts (key key_len iv : Z) (x : X) :
  let ran := Handles.aes_encrypt_init X extern key key_len iv x in
  let made := Handles.created "EVP_CIPHER_CTX_new" (Handles.log ran) in
  let freed := Handles.released "EVP_CIPHER_CTX_free" (Handles.log ran) in
  (Handles.value ran <> 0%Z ->
     In key_len [16; 24; 32]%Z /\ made = [Handles.value ran] /\ freed = []
     /\ exists EVP_aes_cbc cipher,
          Handles.aes_cbc key_len = Some EVP_aes_cbc
          /\ In (Handles.mkCall EVP_aes_cbc [] cipher) (Handles.log ran)
          /\ In (Handles.mkCall "EVP_EncryptInit_ex"
                   [Handles.value ran; cipher; 0%Z; key; iv] 1)
               (Handles.log ran))
  /\ (Handles.value ran = 0%Z -> freed = made)
  /\ (forall args r,
        In (Handles.mkCall "EVP_EncryptInit_ex" args r) (Handles.log ran) ->
        r <> 1%Z -> Handles.value ran = 0%Z)
  /\ (~ In key_len [16; 24; 32]%Z ->
      Handles.value ran = 0%Z
      /\ ~ In "EVP_EncryptInit_ex" (Handles.callees (Handles.log ran))).
Proof. run_c; settle. Qed.

Lemma aes_decrypt_init_contexts (key key_len iv : Z) (x : X) :
  let ran := Handles.aes_decrypt_init X extern key key_len iv x in
  let made := Handles.created "EVP_CIPHER_CTX_new" (Handles.log ran) in
  let freed := Handles.released "EVP_CIPHER_CTX_free" (Handles.log ran) in
  (Handles.value ran <> 0%Z ->
     In key_len [16; 24; 32]%Z /\ made = [Handles.value ran] /\ freed = []
     /\ exists EVP_aes_cbc cipher,
          Handles.aes_cbc key_len = Some EVP_aes_cbc
          /\ In (Handles.mkCall EVP_aes_cbc [] cipher) (Handles.log ran)
          /\ In (Handles.mkCall "EVP_DecryptInit_ex"
                   [Handles.value ran; cipher; 0%Z; key; iv] 1)
               (Handles.log ran))
  /\ (Handles.value ran = 0%Z -> freed = made)
  /\ (forall args r,
        In (Handles.mkCall "EVP_DecryptInit_ex" args r) (Handles.log ran) ->
        r <> 1%Z -> Handles.value ran = 0%Z)
  /\ (~ In key_len [16; 24; 32]%Z ->
      Handles.value ran = 0%Z
      /\ ~ In "EVP_DecryptInit_ex" (Handles.callees (Handles.log ran))).
Proof. run_c; settle. Qed.

Lemma aes_final_contexts (ctx out out_len : Z) (x : X) :
  let enc := Handles.aes_encrypt_final X extern ctx out out_len x in
  let dec := Handles.aes_decrypt_final X extern ctx out out_len x in
  (Handles.released "EVP_CIPHER_CTX_free" (Handles.log enc) = [ctx]
   /\ Handles.value enc = fst (extern "EVP_EncryptFinal_ex" [ctx; out; out_len] x))
  /\ (Handles.released "EVP_CIPHER_CTX_free" (Handles.log dec) = [ctx]
      /\ Handles.value dec = fst (extern "EVP_DecryptFinal_ex" [ctx; out; out_len] x)).
Proof. run_c; settle. Qed.

End HandleFacts.

(** X15: the life of a cipher context.  [aes_encrypt_init] and
    [aes_decrypt_init] hand back a context only for a key length of 16, 24
    or 32 and only when the library's init, called on that context, the
    cipher of that key length, the key and the iv, reported 1; that context
    is the one they made and it has not been freed.  When the library's init
    reported anything else they hand back the null pointer, and whenever
    they hand back the null pointer the context they made, if any, has been
    freed: nothing is left behind.  With any other key length the library's
    init is not entered at all.  [aes_encrypt_final] and [aes_decrypt_final]
    free the context once, whatever the final step reported, and return what
    it reported. *)
Theorem aes_context_lifetime {X} (extern : string -> list Z -> X -> Z * X)
    (key key_len iv ctx out out_len : Z) (x : X) :
  let enc := Handles.aes_encrypt_init X extern key key_len iv x in
  let dec := Handles.aes_decrypt_init X extern key key_len iv x in
  let enc_final := Handles.aes_encrypt_final X extern ctx out out_len x in
  let dec_final := Handles.aes_decrypt_final X extern ctx out out_len x in
  let made := Handles.created "EVP_CIPHER_CTX_new" in
  let freed := Handles.released "EVP_CIPHER_CTX_free" in
  ((Handles.value enc <> 0%Z ->
      In key_len [16; 24; 32]%Z
      /\ made (Handles.log enc) = [Handles.value enc]
      /\ freed (Handles.log enc) = []
      /\ exists EVP_aes_cbc cipher,
           Handles.aes_cbc key_len = Some EVP_aes_cbc
           /\ In (Handles.mkCall EVP_aes_cbc [] cipher) (Handles.log enc)
           /\ In (Handles.mkCall "EVP_EncryptInit_ex"
                    [Handles.value enc; cipher; 0%Z; key; iv] 1)
                (Handles.log enc))
   /\ (Handles.value enc = 0%Z -> freed (Handles.log enc) = made (Handles.log enc))
   /\ (forall args r,
         In (Handles.mkCall "EVP_EncryptInit_ex" args r) (Handles.log enc) ->
         r <> 1%Z -> Handles.value enc = 0%Z)
   /\ (~ In key_len [16; 24; 32]%Z ->
       Handles.value enc = 0%Z
       /\ ~ In "EVP_EncryptInit_ex" (Handles.callees (Handles.log enc))))
  /\ ((Handles.value dec <> 0%Z ->
      In key_len [16; 24; 32]%Z
      /\ made (Handles.log dec) = [Handles.value dec]
      /\ freed (Handles.log dec) = []
      /\ exists EVP_aes_cbc cipher,
           Handles.aes_cbc key_len = Some EVP_aes_cbc
           /\ In (Handles.mkCall EVP_aes_cbc [] cipher) (Handles.log dec)
           /\ In (Handles.mkCall "EVP_DecryptInit_ex"
                    [Handles.value dec; cipher; 0%Z; key; iv] 1)
                (Handles.log dec))
   /\ (Handles.value dec = 0%Z -> freed (Handles.log dec) = made (Handles.log dec))
   /\ (forall args r,
         In (Handles.mkCall "EVP_DecryptInit_ex" args r) (Handles.log dec) ->
         r <> 1%Z -> Handles.value dec = 0%Z)
   /\ (~ In key_len [16; 24; 32]%Z ->
       Handles.value dec = 0%Z
       /\ ~ In "EVP_DecryptInit_ex" (Handles.callees (Handles.log dec))))
  /\ (freed (Handles.log enc_final) = [ctx]
      /\ Handles.value enc_final
         = fst (extern "EVP_EncryptFinal_ex" [ctx; out; out_len] x))
  /\ (freed (Handles.log dec_final) = [ctx]
      /\ Handles.value dec_final
         = fst (extern "EVP_DecryptFinal_ex" [ctx; out; out_len] x)).
Proof.
  cbn zeta.
  split; [apply aes_encrypt_init_contexts|].
  split; [apply aes_decrypt_init_contexts|].
  apply aes_final_contexts.
Qed.

(** A library every function of which returns 1, for a key of 32 bytes and
    for one of 20; and a library whose init reports 0. *)
Lemma aes_context_lifetime_witness :
  let yes := fun (_ : string) (_ : list Z) (x : unit) => (1%Z, x) in
  let no := fun (name : string) (_ : list Z) (x : unit) =>
              (if String.eqb name "EVP_EncryptInit_ex" then 0%Z else 7%Z, x) in
  let enc := Handles.aes_encrypt_init unit yes 100 32 200 tt in
  let short := Handles.aes_encrypt_init unit yes 100 20 200 tt in
  let refused := Handles.aes_encrypt_init unit no 100 32 200 tt in
  (Handles.value enc <> 0%Z
   /\ Handles.created "EVP_CIPHER_CTX_new" (Handles.log enc) = [Handles.value enc]
   /\ Handles.released "EVP_CIPHER_CTX_free" (Handles.log enc) = []
   /\ In (Handles.mkCall "EVP_EncryptInit_ex" [1; 1; 0; 100; 200]%Z 1)
        (Handles.log enc))
  /\ (~ In 20%Z [16; 24; 32]%Z
      /\ Handles.value short = 0%Z
      /\ ~ In "EVP_EncryptInit_ex" (Handles.callees (Handles.log short))
      /\ Handles.released "EVP_CIPHER_CTX_free" (Handles.log short)
         = Handles.created "EVP_CIPHER_CTX_new" (Handles.log short))
  /\ (In (Handles.mkCall "EVP_EncryptInit_ex" [7; 7; 0; 100; 200]%Z 0)
        (Handles.log refused)
      /\ 0%Z <> 1%Z
      /\ Handles.value refused = 0%Z
      /\ Handles.released "EVP_CIPHER_CTX_free" (Handles.log refused) = [7%Z]).
Proof.
  intros yes no enc short refused.
  assert (Hne : Handles.value enc <> 0%Z) by discriminate.
  assert (Hlen : ~ In 20%Z [16; 24; 32]%Z)
    by (cbn; intros [H | [H | [H | []]]]; discriminate).
  assert (Hcall : In (Handles.mkCall "EVP_EncryptInit_ex" [7; 7; 0; 100; 200]%Z 0)
                    (Handles.log refused))
    by (cbn; tauto).
  assert (Hst : 0%Z <> 1%Z) by discriminate.
  destruct (aes_context_lifetime yes 100 32 200 1 0 0 tt) as ((Hok & _ & _) & _).
  destruct (aes_context_lifetime yes 100 20 200 1 0 0 tt)
    as ((_ & Hnull & _ & Hbad) & _).
  destruct (aes_context_lifetime no 100 32 200 1 0 0 tt)
    as ((_ & _ & Hrefuse & _) & _).
  split; [|split].
  - split; [exact Hne|]. destruct (Hok Hne) as (_ & H1 & H2 & _).
    split; [exact H1|]. split; [exact H2 | cbn; tauto].
  - split; [exact Hlen|]. destruct (Hbad Hlen) as [Hv Hin].
    split; [exact Hv|]. split; [exact Hin | exact (Hnull Hv)].
  - split; [exact Hcall|]. split; [exact Hst|].
    split; [exact (Hrefuse _ _ Hcall Hst) | reflexivity].
Defined.

(** X16: [rsa_generate_key] and the two objects it makes.  The big number
    for the public exponent, once made, is freed exactly once on every path.
    The key object is handed back only when the generation reported 1, for
    the number of bits asked and the exponent 65537, and then it has not
    been freed; when the function hands back the null pointer, the key
    object, if one was made, has been freed. *)
Theorem rsa_generate_key_objects {X} (extern : string -> list Z -> X -> Z * X)
    (bits : Z) (x : X) :
  let ran := Handles.rsa_generate_key X extern bits x in
  let l := Handles.log ran in
  Handles.released "BN_free" l = Handles.created "BN_new" l
  /\ (Handles.value ran = 0%Z ->
      Handles.released "RSA_free" l = Handles.created "RSA_new" l)
  /\ (Handles.value ran <> 0%Z ->
      Handles.created "RSA_new" l = [Handles.value ran]
      /\ Handles.released "RSA_free" l = []
      /\ exists bn,
           In (Handles.mkCall "BN_set_word" [bn; 65537%Z] 1) l
           /\ In (Handles.mkCall "RSA_generate_key_ex"
                    [Handles.value ran; bits; bn; 0%Z] 1) l).
Proof.
  unfold Handles.rsa_generate_key, Handles.cbind, Handles.call, Handles.creturn,
    Handles.NULL, Handles.RSA_F4.
  cbn.
  repeat match goal with
  | |- context [extern ?n ?a ?x] =>
      let r := fresh "r" in let x' := fresh "x" in
      destruct (extern n a x) as [r x']; cbn
  | |- context [(?a =? ?b)%Z] =>
      let E := fresh "E" in
      destruct (a =? b)%Z eqn:E; cbn;
      [apply Z.eqb_eq in E; try subst a | apply Z.eqb_neq in E]
  end;
  unfold Handles.created, Handles.released; cbn;
  rewrite ?Z.eqb_refl; cbn;
  repeat match goal with
         | H : ?a <> 0%Z |- context [(?a =? 0)%Z] =>
             rewrite (proj2 (Z.eqb_neq a 0) H); cbn
         end;
  repeat split; intros; try congruence; try tauto; try lia.
  eexists. split; [right; left; reflexivity | do 3 right; left; reflexivity].
Qed.

(** A library every function of which returns 1, and one where the
    generation fails. *)
Lemma rsa_generate_key_objects_witness :
  let yes := fun (_ : string) (_ : list Z) (x : unit) => (1%Z, x) in
  let no := fun (name : string) (_ : list Z) (x : unit) =>
              (if String.eqb name "RSA_generate_key_ex" then 0%Z
               else if String.eqb name "RSA_new" then 9%Z else 1%Z, x) in
  let good := Handles.rsa_generate_key unit yes 2048 tt in
  let bad := Handles.rsa_generate_key unit no 2048 tt in
  (Handles.value good <> 0%Z
   /\ Handles.created "RSA_new" (Handles.log good) = [Handles.value good]
   /\ Handles.released "RSA_free" (Handles.log good) = [])
  /\ (Handles.value bad = 0%Z
      /\ Handles.released "RSA_free" (Handles.log bad) = [9%Z]
      /\ Handles.released "RSA_free" (Handles.log bad)
         = Handles.created "RSA_new" (Handles.log bad)).
Proof.
  intros yes no good bad.
  assert (Hne : Handles.value good <> 0%Z) by discriminate.
  destruct (rsa_generate_key_objects yes 2048 tt) as (_ & _ & Hok).
  destruct (rsa_generate_key_objects no 2048 tt) as (_ & Hnull & _).
  split.
  - split; [exact Hne|]. destruct (Hok Hne) as (H1 & H2 & _).
    split; [exact H1 | exact H2].
  - split; [reflexivity|]. split; [reflexivity|]. exact (Hnull eq_refl).
Defined.

(** X17: the life of an HMAC context.  [hmac_init] hands back the context it
    made only when the library's init reported 1, and then has not freed
    it; when it hands back the null pointer, the context, if one was made,
    has been freed.  [hmac_final] frees the context once, whatever the final
    step reported, and returns what it reported. *)
Theorem hmac_context_lifetime {X} (extern : string -> list Z -> X -> Z * X)
    (key key_len md ctx out len : Z) (x : X) :
  let ran := Handles.hmac_init X extern key key_len md x in
  let fin := Handles.hmac_final X extern ctx out len x in
  let made := Handles.created "HMAC_CTX_new" in
  let freed := Handles.released "HMAC_CTX_free" in
  (Handles.value ran <> 0%Z ->
     made (Handles.log ran) = [Handles.value ran]
     /\ freed (Handles.log ran) = []
     /\ In (Handles.mkCall "HMAC_Init_ex"
              [Handles.value ran; key; key_len; md; 0%Z] 1) (Handles.log ran))
  /\ (Handles.value ran = 0%Z -> freed (Handles.log ran) = made (Handles.log ran))
  /\ freed (Handles.log fin) = [ctx]
  /\ Handles.value fin = fst (extern "HMAC_Final" [ctx; out; len] x).
Proof.
  unfold Handles.hmac_init, Handles.hmac_final, Handles.cbind, Handles.call,
    Handles.creturn, Handles.NULL.
  cbn.
  repeat match goal with
  | |- context [extern ?n ?a ?x] =>
      let r := fresh "r" in let x' := fresh "x" in
      destruct (extern n a x) as [r x']; cbn
  | |- context [(?a =? ?b)%Z] =>
      let E := fresh "E" in
      destruct (a =? b)%Z eqn:E; cbn;
      [apply Z.eqb_eq in E; try subst a | apply Z.eqb_neq in E]
  end;
  unfold Handles.created, Handles.released; cbn;
  rewrite ?Z.eqb_refl; cbn;
  repeat match goal with
         | H : ?a <> 0%Z |- context [(?a =? 0)%Z] =>
             rewrite (proj2 (Z.eqb_neq a 0) H); cbn
         end;
  repeat split; intros; try congruence; try tauto; try lia.
Qed.

(** A library every function of which returns 1. *)
Lemma hmac_context_lifetime_witness :
  let yes := fun (_ : string) (_ : list Z) (x : unit) => (1%Z, x) in
  let ran := Handles.hmac_init unit yes 100 16 300 tt in
  Handles.value ran <> 0%Z
  /\ Handles.created "HMAC_CTX_new" (Handles.log ran) = [Handles.value ran]
  /\ Handles.released "HMAC_CTX_free" (Handles.log ran) = [].
Proof.
  intros yes ran.
  assert (Hne : Handles.value ran <> 0%Z) by discriminate.
  destruct (hmac_context_lifetime yes 100 16 300 1 0 0 tt) as (Hok & _).
  split; [exact Hne|]. destruct (Hok Hne) as (H1 & H2 & _).
  split; [exact H1 | exact H2].
Defined.
